(* ===== verification/_CoqProject ===== *)
-Q . S2P
Prelude.v
PyValue.v
PyText.v
Normalizer.v
VectorSpace.v
Ledger.v
Sentiment.v
Regex.v
Entities.v
Analyzer.v
Similarity.v
Template.v
Persistence.v
Session.v
Refinement.v
Scores.v
Api.v
Main.v
Runs.v
Usage.v
