(* ===== verification/Prelude.v ===== *)
(** * Auto-Task-AI email analyzer: a verification development

    The program under verification is the machine-learning helper of
    Auto-Task-AI: [src/ml/email_analyzer.py] (class [EmailAnalyzer]) and its
    command-line front end [src/ml/email_analyzer_api.py] (function [main]).
    It keeps a growing corpus of e-mails with one TF-IDF row per e-mail,
    re-clusters the rows every fifth addition, answers nearest-neighbour
    queries by cosine similarity, turns free text into a template with
    placeholders, and logs every operation in a learning history.

    ** How the program is organised, and which file models which part

    - [Prelude] (this file): what every component shares.  The type [text]
      of Python [str] values restricted to ASCII (a list of characters),
      the exceptions the model distinguishes ([exn]), the
      state-and-exception monad [py] in which every method of
      [EmailAnalyzer] is written (a Python method may mutate [self] and then
      raise: the monad returns the state reached so far together with the
      outcome), Python's slice semantics [py_slice] for [l[a:b]] with
      negative and out-of-range bounds, dictionaries that keep insertion
      order ([items_lookup], [items_set]), and the tactics and lemmas on
      lists the components share.
    - [PyValue]: the values [json.loads] produces ([pyval]), Python
      truthiness ([truthy]) and [dict.get] with a default ([dict_get]).
      [learn_from_task] receives such a value and stores whatever truthy
      value sits under ["message"] in the corpus, so the corpus is a list of
      [pyval], not of strings.
    - [PyText]: the character classes [\w] and [\s] of [re], [str.lower],
      [str.join], [str.split], [str.startswith], [in] on strings,
      [str.replace] of the first occurrence and [str] of a number.
    - [Normalizer]: [EmailAnalyzer.preprocess_text]; the NLTK tokenizer and
      stop-word list are an interface ([Tokenizer]).
    - [VectorSpace]: the numeric collaborators as interfaces:
      [TfidfVectorizer] ([fit_transform], [transform]), [KMeans],
      [cosine_similarity], [argsort], and [vstack]; matrices carry their
      column count so that a dimension mismatch is an error as in SciPy.
    - [Ledger]: the learning history, its four event kinds and the counting
      loop of [get_learning_stats].
    - [Sentiment]: [analyze_sentiment]; VADER is an interface
      ([PolarityScorer]) that gives a compound score in [-1, 1].
    - [Regex]: the part of Python's [re] the program uses, as a
      backtracking matcher ([backtrack]) with [re.findall] ([findall]), and
      what a match is, declaratively ([matches]).
    - [Entities]: the eleven patterns of the source as [regex] values,
      [extract_variables] and [extract_entities]; spaCy is an interface
      ([Recognizer]) that may be absent, as in [__init__].
    - [Analyzer]: the state of [EmailAnalyzer] as a [Record], and
      [__init__] without a model file ([new_analyzer]), [fit],
      [learn_from_task] and [get_learning_stats] as computations of the
      monad, statement by statement; the invariant [consistent] (corpus and
      matrix present together, one row per e-mail, vectorizer fitted with
      the matrix's width); the specification [learn_path] of
      [learn_from_task] as a relation.
    - [Similarity]: [get_similar_emails], with the index expression
      [argsort()[-(top_n+1):-1][::-1]] as [similar_indices].
    - [Template]: [suggest_template] with its two branches and its two
      loops ([replace_entities], [replace_values], [replace_value]).
    - [Persistence]: [save_model], [load_model] and [__init__] with a model
      file, over a disk that maps paths to files; a file is unreadable or a
      dictionary with any subset of the five keys.
    - [Session]: sequences of calls of [fit], [get_similar_emails],
      [suggest_template] and [learn_from_task] on one analyzer, as a
      function ([session]) and as a labelled step relation ([step], [run]).
    - [Scores]: the range of the scores, from two more facts about the
      libraries: TF-IDF weights are not negative ([VectorizerNonneg]) and
      the cosine of such rows lies between 0 and 1 ([CosineBounded]).
    - [Refinement]: the analyzer as a client sees it ([corpus]: the
      e-mails, the state of the clusters, the history), what each call
      does to that view ([spec_perform]), and the abstraction [abstract]
      from an analyzer to its view.
    - [Api]: the start-up of [main] in [email_analyzer_api.py]: load the
      model file, train on the five sample e-mails if there is no cluster
      model, save ([startup]).
    - [Main]: the rest of [email_analyzer_api.py]: the check of
      [sys.argv], the five branches of [main] ([dispatch] and one
      definition per command), and the [try]/[except] around [main]
      ([script]).  A process is the disk, the analyzer and the documents
      printed ([process]).
    - [Runs]: the program over its life: a sequence of runs of [script],
      each on the disk the one before left ([runs]).
    - [Usage]: the example under [if __name__ == "__main__"] at the end of
      [email_analyzer.py] ([example]): training, search, template,
      sentiment, entities, save and statistics on one analyzer.

    ** What the theorems show

    - the invariant [consistent] is established by every [fit] that
      returns, from any state, and kept by [learn_from_task] however it
      ends, by [get_similar_emails], and by [load_model] of a file that
      [save_model] wrote; it holds after every session in which no [fit]
      raised ([Session.run_consistent]).  A [fit] that raises breaks it:
      the corpus was replaced before the vectorizer ran;
    - under [consistent], [learn_from_task] follows one of the three paths
      of [learn_path] (a refinement theorem), from which its other
      properties come: it retrains exactly when the new corpus size is a
      multiple of five and otherwise leaves the cluster model stale; it
      never re-fits the vectorizer and only appends to corpus, matrix and
      history; it returns [False] and changes nothing without a corpus or
      without a truthy ["message"];
    - [get_similar_emails] returns ranks 2 to [top_n + 1] of the
      similarity ranking, never the best match, at most [top_n] items, in
      descending order, and logs exactly one event; for a negative [top_n]
      the start bound of the slice counts from the front and the call
      returns all but the best and the last [-top_n - 1]; no session
      brings a negative entry into the matrix, so every score returned
      lies between 0 and 1;
    - the history is append-only and in the order of time over whole
      sessions; [get_learning_stats] counts its events by name and the
      counts add up to the number of events;
    - the analyzer refines its specification: over every session in which
      no [fit] raised, [abstract] commutes with the calls
      ([Refinement.session_refines]).  What holds of the specification
      then holds of the analyzer: proved there and carried over, the
      cluster model is never five e-mails behind the corpus in a session
      without [fit] ([Refinement.staleness_window]);
    - [save_model] then [load_model] restores the whole state;
      [load_model] of a dictionary that lacks a key stops half-way and
      leaves a mixed state; start-up is idempotent, and a model file with
      a model but without a vectorizer keeps it from training;
    - for every tokenizer, [preprocess_text] gives a text, its lower-case
      form and the text without its special characters the same normal
      form, and the normal form is made of tokens of the cleaned text, no
      stop word among them ([Normalizer.preprocess_text_normal_form]);
      that it is idempotent is shown of the reference tokenizer only;
    - the matcher [backtrack] finds a match exactly when [matches] has one
      (soundness and completeness, by induction on the pattern), and
      [findall] reports only factors of the text that have the shape of
      the pattern; from this, every date reported has the shape of a
      date, a text with a placeholder has a variable, and [$50] is taken
      for a variable.  Where the search is determined its result is
      computed: a text whose only placeholder is [{{x}}] has exactly the
      variable [x], found twice, by the patterns for [{{x}}] and for
      [{x}], and kept once ([Entities.extract_variables_exact]), so
      [suggest_template] gives it back with that one variable;
    - [suggest_template] returns a text that has variables as it is and
      logs nothing then; otherwise the first date becomes ["date1"], one
      event is logged, and every value is replaced by the same text
      [{{{var_name}}}], because the f-string of the source has only
      doubled braces;
    - [analyze_sentiment] is decided by the two thresholds alone;
    - every run of the script prints exactly one document; its exit
      status is 1 exactly when that document reports a missing argument
      or an exception that left [main], and 0 after every other document,
      the error documents of an unknown command and of a failed [--learn]
      among them ([Main.script_status]); the model file is written
      after start-up only by a [--learn] that learned, and then the next
      run starts with the analyzer that run left; with one argument the
      program analyses it, the name of a command too;
    - the order in which Python goes through a set changes the names of
      the variables and the order of the values, but not the confidence:
      entities are compared up to the order of their values
      ([Entities.same_entities], with [Proper] instances for what respects
      it);
    - over any number of runs the model file, once it holds a consistent
      analyzer with a cluster model, holds one after every run, with the
      same vectorizer and with the corpus, the rows and the history it had
      at the front of those it has ([Runs.runs_kept]); on a disk that
      starts without a model file, no search and no suggestion ever
      reaches the file, so [--stats] counts trainings and learned tasks
      only ([Runs.stats_only_learning]);
    - the example of [email_analyzer.py] runs to its end whenever its
      training returns; it logs three events in the order of its calls,
      writes the analyzer it ends with, and prints statistics that say so
      ([Usage.example_trained]).

    Every theorem with a hypothesis has a witness that applies it to the
    analyzer trained on the five sample e-mails of [main] ([demo_analyzer])
    with the reference instances below.

    ** Numbers, bounds and what is left abstract

    Floating-point scores are exact rationals ([Q]); rounding is not
    modelled.  Sizes and indices are [nat], [top_n] is an integer ([Z])
    because a negative one changes what the slice means; Python integers
    do not overflow.  scikit-learn, NumPy, SciPy, NLTK, spaCy and [json]
    are not part of the repository: they enter as type classes
    ([Vectorizer], [KMeansAlg], [Cosine], [ArgSort], [Tokenizer],
    [PolarityScorer], [Recognizer], [Json]) whose laws are only the facts
    the source relies on (row counts, widths, "not fitted" errors, a sorted
    permutation), and every theorem holds for all instances.  Small
    executable instances are supplied so that the witnesses run: a word
    count vectorizer, a round-robin clustering, an overlap score, a merge
    sort of the positions, a tokenizer that splits at white space, a
    polarity score that counts [+] and [-], a recogniser with fixed
    answers, a JSON decoder that knows three documents.  The
    order [argsort] gives equal scores is left to the instance, as NumPy's
    default sort leaves it.  Time is a parameter [now] of each operation
    that logs; [main] takes two, one for the start-up and one for the
    command.  The only fuel is that of [Regex.iterate], the loop of a
    repetition: it starts at the number of characters left, and every
    iteration must consume one, which the bodies of all repetitions in the
    source do; [iterate_complete] shows that this fuel never cuts a match
    short.  [list(set(...))] has an order Python does not fix: the order
    is an interface ([SetOrder]) and the theorems hold for every order.

    ** Not modelled

    The text of JSON documents (the documents are values, [json.loads] is
    an interface), the text of exception messages, logging calls, the
    NLTK download at import time, the headings the example prints and its
    formatting of numbers.  Of [re] only the
    constructs the eleven patterns use are modelled, on ASCII text, and
    [findall] passes over a match of the empty string, which none of the
    eleven patterns has.  [fit]
    stores the caller's list itself and [learn_from_task] appends to it;
    the aliasing with the caller is not modelled, the corpus is the
    analyzer's own value.  Errors of [joblib.dump] are not modelled.
    Timestamps are readings of the clock, not their [isoformat] texts.
    [analyze_sentiment] takes a [str]; a model file holds a vectorizer
    under ["vectorizer"] or lacks the key, so the field is never [None];
    [cosine_similarity] accepts a matrix without rows, which scikit-learn
    refuses and which no [fit] of scikit-learn produces. *)

From Stdlib Require Export QArith Ascii.
From stdpp Require Export prelude strings sorting.

(** ** Text *)

(** A Python [str] of ASCII characters: a list of [ascii]. *)
Abbreviation text := (list ascii).

(** Literals: ["abc"%text] is the list of the three characters. *)
Definition text_type : Type := list ascii.

Inductive text_literal := TNil | TCons (a : ascii) (t : text_literal).

Fixpoint literal_of_bytes (l : list Byte.byte) : text_literal :=
  match l with
  | [] => TNil
  | b :: l => TCons (ascii_of_byte b) (literal_of_bytes l)
  end.

Fixpoint bytes_of_literal (t : text_literal) : list Byte.byte :=
  match t with
  | TNil => []
  | TCons a t => byte_of_ascii a :: bytes_of_literal t
  end.

Declare Scope text_scope.
Delimit Scope text_scope with text.
#[warnings="-via-type-remapping,-via-type-mismatch"]
String Notation text_type literal_of_bytes bytes_of_literal
  (via text_literal mapping [[nil] => TNil, [cons] => TCons]) : text_scope.

(** ** Exceptions and the state-and-exception monad *)

(** The exception classes that the modelled code can raise or catch. *)
Inductive exn :=
| ValueError
| NotFittedError
| IndexError
| KeyError
| AttributeError
| TypeError.

#[export] Instance exn_eq_dec : EqDecision exn.
Proof. solve_decision. Defined.

(** How a call ends: it returns a value or raises. *)
Inductive outcome (A : Type) :=
| Ret (a : A)
| Exc (e : exn).
Arguments Ret {A} a.
Arguments Exc {A} e.

#[export] Instance outcome_eq_dec `{EqDecision A} : EqDecision (outcome A).
Proof. solve_decision. Defined.

(** A method of an object with state [S]: the state it leaves behind is
    returned whether it returns or raises, as the mutations a Python method
    made before raising stay. *)
Definition py (S A : Type) : Type := S → S * outcome A.

Definition py_ret {S A} (a : A) : py S A := λ s, (s, Ret a).

Definition py_raise {S A} (e : exn) : py S A := λ s, (s, Exc e).

Definition py_bind {S A B} (c : py S A) (k : A → py S B) : py S B :=
  λ s, match c s with
       | (s', Ret a) => k a s'
       | (s', Exc e) => (s', Exc e)
       end.

Definition py_get {S} : py S S := λ s, (s, Ret s).

Definition py_modify {S} (f : S → S) : py S unit := λ s, (f s, Ret tt).

(** [try: c except Exception: h] *)
Definition py_try {S A} (c : py S A) (h : exn → py S A) : py S A :=
  λ s, match c s with
       | (s', Ret a) => (s', Ret a)
       | (s', Exc e) => h e s'
       end.

(** A pure computation that may raise, run inside a method. *)
Definition py_lift {S A} (o : outcome A) : py S A := λ s, (s, o).

Definition outcome_of_option {A} (e : exn) (o : option A) : outcome A :=
  match o with
  | Some a => Ret a
  | None => Exc e
  end.

Definition returns {A} (o : outcome A) : bool :=
  match o with
  | Ret _ => true
  | Exc _ => false
  end.

Declare Scope py_scope.
Delimit Scope py_scope with py.
Notation "x <- c ;; k" := (py_bind c (λ x, k))
  (at level 61, c at level 99, k at level 200, right associativity,
   format "x  <-  c  ;;  '//' k") : py_scope.

(** ** Python sequence indexing *)

(** The position a slice bound [i] denotes in a sequence of length [n]:
    a negative bound counts from the end, and both are clamped to [0..n]. *)
Definition py_clamp (n : nat) (i : Z) : nat :=
  if (i <? 0)%Z then Z.to_nat (i + Z.of_nat n) else Z.to_nat i `min` n.

(** [l[start:stop]]; [None] is an omitted bound. *)
Definition py_slice {A} (start stop : option Z) (l : list A) : list A :=
  let n := length l in
  let s := from_option (py_clamp n) 0 start in
  let e := from_option (py_clamp n) n stop in
  take (e - s) (drop s l).

(** How many items [l[-(k+1):-1]] has at most, for a sequence of length
    [n]: [k] of them for a [k] that is not negative, and [n + k] for a
    negative one, where the start wraps to the front. *)
Definition slice_count (n : nat) (k : Z) : nat :=
  if (k <? 0)%Z then Z.to_nat (Z.of_nat n + k) else Z.to_nat k.

(** [l[i]] for a non-negative [i], raising [IndexError] out of range. *)
Definition py_getitem {A} (l : list A) (i : nat) : outcome A :=
  outcome_of_option IndexError (l !! i).

(** ** Dictionaries *)

(** A [dict] with string keys keeps its items in insertion order: the list
    of its items, without two items under one key. *)

(** [d.get(key)] *)
Fixpoint items_lookup {V} (key : text) (d : list (text * V)) : option V :=
  match d with
  | [] => None
  | (k, v) :: d => if decide (k = key) then Some v else items_lookup key d
  end.

(** [d[key] = v]: a key that is present keeps its place. *)
Fixpoint items_set {V} (key : text) (v : V) (d : list (text * V)) : list (text * V) :=
  match d with
  | [] => [(key, v)]
  | (k, w) :: d => if decide (k = key) then (k, v) :: d else (k, w) :: items_set key v d
  end.

(** ** Rationals *)

#[export] Instance Qle_dec (x y : Q) : Decision (x <= y)%Q.
Proof.
  destruct (Qlt_le_dec y x) as [H|H]; [right|left; exact H].
  intros H'. exact (Qlt_not_le _ _ H H').
Defined.

#[export] Instance Qle_total : Total Qle.
Proof. intros x y. destruct (Qlt_le_dec x y); [left; by apply Qlt_le_weak|by right]. Qed.

#[export] Instance Qle_trans' : Transitive Qle.
Proof. intros x y z. apply Qle_trans. Qed.

(** ** Automation *)

(** [simpl] leaves [min] and [mod] on open terms alone. *)
#[global] Arguments Nat.min : simpl never.
#[global] Arguments Nat.modulo : simpl never.
#[global] Arguments Nat.div : simpl never.

Create HintDb py discriminated.
Create Rewrite HintDb py_rw.

(** Unfold one layer of the monad and compute. *)
Ltac py_unfold :=
  unfold py_bind, py_ret, py_raise, py_get, py_modify, py_try, py_lift in *.

(** Invert an equation between pairs, outcomes or options and substitute. *)
Ltac invert H := inversion H; subst; clear H.

(** Case split on the scrutinee of the first [match] or [if] of the goal,
    remembering the equation. *)
Ltac case_goal :=
  match goal with
  | |- context [match ?x with _ => _ end] =>
      lazymatch x with
      | context [match _ with _ => _ end] => fail
      | _ => let E := fresh "E" in destruct x eqn:E
      end
  end.

(** ** Laws of the monad *)

Section monad.
Context {S A B C : Type}.
Implicit Types (s : S) (c : py S A).

Lemma py_bind_ret_l (a : A) (k : A → py S B) s :
  py_bind (py_ret a) k s = k a s.
Proof. done. Qed.

Lemma py_bind_ret_r c s : py_bind c py_ret s = c s.
Proof. unfold py_bind. by destruct (c s) as [? [|]]. Qed.

Lemma py_bind_assoc c (k : A → py S B) (h : B → py S C) s :
  py_bind (py_bind c k) h s = py_bind c (λ a, py_bind (k a) h) s.
Proof. unfold py_bind. by destruct (c s) as [? [|]]. Qed.

Lemma py_bind_raise (e : exn) (k : A → py S B) s :
  py_bind (py_raise e) k s = (s, Exc e).
Proof. done. Qed.

Lemma py_bind_Ret c (k : A → py S B) s s' a :
  c s = (s', Ret a) → py_bind c k s = k a s'.
Proof. unfold py_bind. by intros ->. Qed.

Lemma py_bind_Exc c (k : A → py S B) s s' e :
  c s = (s', Exc e) → py_bind c k s = (s', Exc e).
Proof. unfold py_bind. by intros ->. Qed.

Lemma py_try_Ret c (h : exn → py S A) s s' a :
  c s = (s', Ret a) → py_try c h s = (s', Ret a).
Proof. unfold py_try. by intros ->. Qed.

Lemma py_try_Exc c (h : exn → py S A) s s' e :
  c s = (s', Exc e) → py_try c h s = h e s'.
Proof. unfold py_try. by intros ->. Qed.

End monad.

#[export] Hint Rewrite @py_bind_ret_l @py_bind_raise : py_rw.

(** ** Lists *)

Section lists.
Context {A : Type}.
Implicit Types (l : list A).

Lemma Forall_filter_self (P : A → Prop) `{∀ x, Decision (P x)} l :
  Forall P (filter P l).
Proof. apply Forall_forall. by intros x [? ?]%list_elem_of_filter. Qed.

Lemma Forall_filter_keep (P Q : A → Prop) `{∀ x, Decision (P x)} l :
  Forall Q l → Forall Q (filter P l).
Proof.
  rewrite !Forall_forall. intros HQ x [_ ?]%list_elem_of_filter. auto.
Qed.

Lemma filter_Forall_id (P : A → Prop) `{∀ x, Decision (P x)} l :
  Forall P l → filter P l = l.
Proof.
  induction 1 as [|x l Hx _ IH]; [done|].
  by rewrite filter_cons_True, IH.
Qed.

Lemma filter_length_le (P : A → Prop) `{∀ x, Decision (P x)} l :
  length (filter P l) ≤ length l.
Proof.
  induction l as [|x l IH]; [done|].
  rewrite filter_cons. case_match; simpl; lia.
Qed.

Lemma StronglySorted_sublist (R : relation A) l k :
  k `sublist_of` l → StronglySorted R l → StronglySorted R k.
Proof.
  induction 1 as [|x k l Hs IH|x k l Hs IH]; intros Hl; [done|..].
  - apply StronglySorted_inv in Hl as [Hl Hx]. constructor; [by apply IH|].
    rewrite Forall_forall in *. intros y Hy. apply Hx.
    by eapply elem_of_sublist.
  - apply StronglySorted_inv in Hl as [Hl _]. by apply IH.
Qed.

Lemma StronglySorted_reverse (R : relation A) l :
  StronglySorted R l → StronglySorted (flip R) (reverse l).
Proof.
  induction 1 as [|x l Hl IH Hx]; [constructor|].
  rewrite reverse_cons. apply StronglySorted_app. split_and!; [|done|].
  - intros y z Hy ->%list_elem_of_singleton. unfold flip.
    rewrite Forall_forall in Hx. apply Hx. by apply elem_of_reverse.
  - repeat constructor.
Qed.

(** The first item of a list without duplicates is not among the rest. *)
Lemma NoDup_head_not_in_tail l x n i :
  NoDup l → head l = Some x → x ∉ take n (drop (S i) l).
Proof.
  destruct l as [|y l]; [done|]. intros [Hy _]%NoDup_cons [= ->] Hin.
  apply Hy. eapply elem_of_sublist; [done|]. simpl.
  etrans; [apply sublist_take|apply sublist_drop].
Qed.

End lists.

(** ** Facts about dictionaries *)

Section dicts.
Context {V : Type}.
Implicit Types (d : list (text * V)) (k key : text) (v : V).

Lemma items_lookup_set_eq key v d : items_lookup key (items_set key v d) = Some v.
Proof.
  induction d as [|[k w] d IH]; simpl; [by rewrite decide_True|].
  destruct (decide (k = key)) as [->|Hne]; simpl.
  - by rewrite decide_True.
  - by rewrite decide_False.
Qed.

Lemma items_lookup_set_ne key k v d :
  k ≠ key → items_lookup k (items_set key v d) = items_lookup k d.
Proof.
  intros Hne. induction d as [|[k' w] d IH]; simpl.
  - by rewrite decide_False.
  - destruct (decide (k' = key)) as [->|Hne']; simpl.
    + by rewrite !decide_False by done.
    + by rewrite IH.
Qed.

Lemma items_lookup_elem_of key d v : items_lookup key d = Some v → (key, v) ∈ d.
Proof.
  induction d as [|[k w] d IH]; simpl; [done|].
  destruct (decide (k = key)) as [->|]; [intros [= ->]; left|right; auto].
Qed.

Lemma items_lookup_None key d : items_lookup key d = None ↔ key ∉ d.*1.
Proof.
  induction d as [|[k w] d IH]; csimpl.
  - split; [intros _; apply not_elem_of_nil|done].
  - rewrite not_elem_of_cons. destruct (decide (k = key)) as [->|Hne].
    + split; [done|]. by intros [? _].
    + rewrite IH. split; [done|]. by intros [_ ?].
Qed.

(** The keys after an assignment: the same, or one more at the end. *)
Lemma items_set_keys key v d :
  (items_set key v d).*1 =
    if decide (key ∈ d.*1) then d.*1 else d.*1 ++ [key].
Proof.
  induction d as [|[k w] d IH]; csimpl; [done|].
  destruct (decide (k = key)) as [->|Hne]; csimpl.
  - destruct (decide (key ∈ key :: d.*1)) as [_|[]]; [done|left].
  - rewrite IH.
    destruct (decide (key ∈ d.*1)), (decide (key ∈ k :: d.*1)) as [Hin|Hnin];
      try done.
    + destruct Hnin. by right.
    + by apply elem_of_cons in Hin as [->|?].
Qed.

Lemma items_set_NoDup key v d : NoDup d.*1 → NoDup (items_set key v d).*1.
Proof.
  intros Hd. rewrite items_set_keys. destruct (decide _); [done|].
  apply NoDup_app. split_and!; [done| |apply NoDup_singleton].
  intros k Hk ->%list_elem_of_singleton. done.
Qed.

End dicts.

(** ** Facts about slices *)

Section slices.
Context {A : Type}.
Implicit Types (l : list A) (i : Z) (n : nat).

Lemma py_clamp_le n i : py_clamp n i ≤ n.
Proof. unfold py_clamp. case_match; lia. Qed.

Lemma py_clamp_nonneg n i : (0 ≤ i)%Z → py_clamp n i = Z.to_nat i `min` n.
Proof. unfold py_clamp. intros. case_match; lia. Qed.

Lemma py_clamp_neg n i : (i < 0)%Z → py_clamp n i = n - Z.to_nat (- i).
Proof. unfold py_clamp. intros. case_match; lia. Qed.

Lemma py_slice_length start stop l :
  length (py_slice start stop l) =
    from_option (py_clamp (length l)) (length l) stop
    - from_option (py_clamp (length l)) 0 start.
Proof.
  unfold py_slice. rewrite length_take, length_drop.
  assert (from_option (py_clamp (length l)) (length l) stop ≤ length l).
  { destruct stop; simpl; [apply py_clamp_le|done]. }
  lia.
Qed.

Lemma py_slice_sublist start stop l : py_slice start stop l `sublist_of` l.
Proof.
  unfold py_slice. etrans; [apply sublist_take|apply sublist_drop].
Qed.

(** [l[:k]] for [0 ≤ k] is the first [k] elements. *)
Lemma py_slice_prefix (k : nat) l : py_slice None (Some (Z.of_nat k)) l = take k l.
Proof.
  unfold py_slice. simpl. rewrite py_clamp_nonneg by lia.
  rewrite Nat2Z.id, Nat.sub_0_r. unfold drop.
  destruct (decide (k ≤ length l)).
  - by rewrite Nat.min_l.
  - rewrite Nat.min_r by lia. by rewrite !take_ge by lia.
Qed.

(** [l[:-1]] drops the last element. *)
Lemma py_slice_init l : py_slice None (Some (-1)%Z) l = take (length l - 1) l.
Proof.
  unfold py_slice. simpl. rewrite py_clamp_neg by lia.
  by rewrite Nat.sub_0_r.
Qed.

(** The items from position [j] up to the last one excluded, read
    backwards, are what follows the first item of the reversed list. *)
Lemma reverse_before_last l j :
  reverse (take (length l - 1 - j) (drop j l))
  = take (length l - 1 - j) (drop 1 (reverse l)).
Proof.
  rewrite drop_reverse, take_reverse, length_take.
  rewrite take_drop_commute. f_equal.
  destruct (decide (j ≤ length l - 1)).
  - rewrite Nat.min_l by lia. f_equal; [lia|f_equal; lia].
  - replace (length l - 1 - j) with 0 by lia. rewrite Nat.sub_0_r.
    rewrite Nat.add_0_r. rewrite !drop_ge; [done|rewrite length_take; lia..].
Qed.

(** [l[-(k+1):-1][::-1]], for any integer [k]: the reversed list without
    its first item, cut after [slice_count (length l) k] items. *)
Lemma py_slice_before_last (k : Z) l :
  reverse (py_slice (Some (- (k + 1))%Z) (Some (-1)%Z) l)
  = take (slice_count (length l) k) (drop 1 (reverse l)).
Proof.
  unfold py_slice, slice_count. simpl.
  rewrite (py_clamp_neg _ (-1)) by lia.
  set (n := length l). replace (Z.to_nat (- -1)) with 1 by lia.
  destruct (Z.ltb_spec k 0) as [Hk|Hk].
  - rewrite py_clamp_nonneg by lia.
    set (j := Z.to_nat (- (k + 1)) `min` n).
    replace (n - 1 - j) with (length l - 1 - j) by done.
    rewrite reverse_before_last. fold n.
    f_equal. subst j. lia.
  - rewrite py_clamp_neg by lia.
    set (j := n - Z.to_nat (- - (k + 1))).
    replace (n - 1 - j) with (length l - 1 - j) by done.
    rewrite reverse_before_last. fold n.
    destruct (decide (n - 1 - j = Z.to_nat k)) as [->|Hne]; [done|].
    rewrite !take_ge; [done|rewrite length_drop, length_reverse; fold n; lia..].
Qed.

End slices.
