(* ===== verification/PyValue.v ===== *)
(** * Python values that cross the analyzer's interface

    [email_analyzer_api.main] decodes the task data with [json.loads] and
    hands the result to [EmailAnalyzer.learn_from_task], which reads it with
    [dict.get] and tests the results for truth.  This file holds the values
    [json.loads] can produce, Python's truth test and [dict.get]. *)

From S2P Require Import Prelude.

(** What [json.loads] returns: [null], booleans, integers, floats, strings,
    arrays and objects.  A [dict] keeps insertion order, so an object is the
    list of its items. *)
#[warnings="-register-all"]
Inductive pyval :=
| PNone
| PBool (b : bool)
| PInt (z : Z)
| PFloat (q : Q)
| PStr (s : text)
| PList (l : list pyval)
| PDict (d : list (text * pyval)).

#[export] Instance pyval_inhabited : Inhabited pyval := populate PNone.

(** [bool(v)], the test behind [if v] and [v and ...]. *)
Definition truthy (v : pyval) : bool :=
  match v with
  | PNone => false
  | PBool b => b
  | PInt z => negb (z =? 0)%Z
  | PFloat q => negb (Qeq_bool q 0)
  | PStr s => negb (bool_decide (s = []))
  | PList l => negb (bool_decide (length l = 0))
  | PDict d => negb (bool_decide (length d = 0))
  end.

(** [isinstance(v, str)] *)
Definition is_str (v : pyval) : bool :=
  match v with
  | PStr _ => true
  | _ => false
  end.

(** [v.get(key, default)]: only a [dict] has the method. *)
Definition dict_get (v : pyval) (key : text) (dflt : pyval) : outcome pyval :=
  match v with
  | PDict d => Ret (from_option id dflt (items_lookup key d))
  | _ => Exc AttributeError
  end.

(** ** Facts *)

Lemma pyval_dict_cases v : (∃ d, v = PDict d) ∨ (∀ d, v ≠ PDict d).
Proof. destruct v; try (by right); left; eauto. Qed.

Lemma truthy_PStr s: truthy (PStr s) = true ↔ s ≠ [].
Proof. simpl. rewrite negb_true_iff, bool_decide_eq_false. done. Qed.

Lemma dict_get_missing d key dflt :
  items_lookup key d = None → dict_get (PDict d) key dflt = Ret dflt.
Proof. simpl. by intros ->. Qed.

Lemma dict_get_present d key dflt v :
  items_lookup key d = Some v → dict_get (PDict d) key dflt = Ret v.
Proof. simpl. by intros ->. Qed.

Lemma dict_get_returns_iff v key dflt :
  returns (dict_get v key dflt) = true ↔ ∃ d, v = PDict d.
Proof. destruct v; simpl; split; try done; try (by intros [? ?]); eauto. Qed.
