(* ===== verification/PyText.v ===== *)
(** * Python [str] operations on ASCII text

    The character classes of the [re] module ([\w], [\s], [\d]) and the
    [str] methods the analyzer calls, on [text].  Characters above 127 are
    outside the model: they are in no class and [lower] leaves them alone. *)

From stdpp Require Import pretty.
From S2P Require Import Prelude.

(** ** Character classes *)

Definition in_range (lo hi c : ascii) : bool :=
  (N_of_ascii lo <=? N_of_ascii c)%N && (N_of_ascii c <=? N_of_ascii hi)%N.

Definition is_upper (c : ascii) : bool := in_range "A" "Z" c.
Definition is_lower (c : ascii) : bool := in_range "a" "z" c.
Definition is_alpha (c : ascii) : bool := is_upper c || is_lower c.

(** [\d] *)
Definition is_digit (c : ascii) : bool := in_range "0" "9" c.

(** [\w]: letters, digits and the underscore. *)
Definition is_word (c : ascii) : bool :=
  is_alpha c || is_digit c || bool_decide (c = "_"%char).

(** [\s] on a [str] pattern: tab, line feed, vertical tab, form feed,
    carriage return, the four separators 0x1c to 0x1f, and the space. *)
Definition is_space (c : ascii) : bool :=
  in_range "009" "013" c || in_range "028" "031" c || bool_decide (c = " "%char).

(** ** [str.lower] *)

Definition lower_char (c : ascii) : ascii :=
  if is_upper c then ascii_of_N (N_of_ascii c + 32) else c.

Definition lower (s : text) : text := lower_char <$> s.

(** ** [sep.join(parts)] *)

Fixpoint py_join (sep : text) (parts : list text) : text :=
  match parts with
  | [] => []
  | [p] => p
  | p :: ps => p ++ sep ++ py_join sep ps
  end.

(** ** [str.split()] with no argument: the maximal runs of non-space
    characters.  [cur] is the run being read, last character first. *)

Definition flush (cur : text) (rest : list text) : list text :=
  match cur with
  | [] => rest
  | _ => reverse cur :: rest
  end.

Fixpoint split_go (cur : text) (s : text) : list text :=
  match s with
  | [] => flush cur []
  | c :: s => if is_space c then flush cur (split_go [] s) else split_go (c :: cur) s
  end.

Definition py_split (s : text) : list text := split_go [] s.

(** ** [startswith], [endswith], [in] and [replace] *)

(** [s.startswith(p)] *)
Fixpoint startswith (p s : text) : bool :=
  match p, s with
  | [], _ => true
  | a :: p, b :: s => bool_decide (a = b) && startswith p s
  | _ :: _, [] => false
  end.

(** [s.endswith(p)] *)
Definition endswith (p s : text) : bool := startswith (reverse p) (reverse s).

(** [needle in hay] *)
Fixpoint contains (needle hay : text) : bool :=
  startswith needle hay
  || match hay with
     | [] => false
     | _ :: rest => contains needle rest
     end.

(** [s.replace(old, new, 1)]: the first occurrence of [old], if any. *)
Fixpoint replace_first (old new s : text) : text :=
  if startswith old s then new ++ drop (length old) s
  else match s with
       | [] => []
       | c :: rest => c :: replace_first old new rest
       end.

(** [str(n)] of a number that is not negative. *)
Definition str_of_nat (n : nat) : text := String.list_ascii_of_string (pretty n).

(** ** Facts about the classes *)

(** A tactic for facts that hold character by character: enumerate the
    256 characters and compute. *)
Ltac by_chars c := destruct c as [[] [] [] [] [] [] [] []]; vm_compute; try done.

Lemma lower_char_idemp c : lower_char (lower_char c) = lower_char c.
Proof. by_chars c. Qed.

Lemma lower_char_not_upper c : is_upper (lower_char c) = false.
Proof. by_chars c. Qed.

Lemma is_word_lower_char c : is_word (lower_char c) = is_word c.
Proof. by_chars c. Qed.

Lemma is_space_lower_char c : is_space (lower_char c) = is_space c.
Proof. by_chars c. Qed.

Lemma lower_char_fixed c : is_upper c = false → lower_char c = c.
Proof. unfold lower_char. by intros ->. Qed.

Lemma is_word_not_space c : is_word c = true → is_space c = false.
Proof. by_chars c. Qed.

Lemma is_digit_word c : is_digit c = true → is_word c = true.
Proof. by_chars c. Qed.

(** ** Facts about [lower] *)

Lemma lower_length s : length (lower s) = length s.
Proof. apply length_fmap. Qed.

Lemma lower_app s t : lower (s ++ t) = lower s ++ lower t.
Proof. apply fmap_app. Qed.

Lemma lower_idemp s : lower (lower s) = lower s.
Proof.
  unfold lower. rewrite <- list_fmap_compose. apply list_fmap_ext.
  intros _ c _. apply lower_char_idemp.
Qed.

Lemma lower_fixed s : Forall (λ c, is_upper c = false) s → lower s = s.
Proof.
  induction 1 as [|c s Hc _ IH]; [done|].
  unfold lower in *. rewrite fmap_cons, lower_char_fixed by done. by f_equal.
Qed.

Lemma lower_no_upper s : Forall (λ c, is_upper c = false) (lower s).
Proof. apply Forall_fmap, Forall_true. intros c. apply lower_char_not_upper. Qed.

(** ** Facts about [py_join] *)

Lemma py_join_cons sep p ps :
  ps ≠ [] → py_join sep (p :: ps) = p ++ sep ++ py_join sep ps.
Proof. by destruct ps. Qed.

Lemma py_join_Forall (P : ascii → Prop) sep parts :
  Forall P sep → Forall (Forall P) parts → Forall P (py_join sep parts).
Proof.
  intros Hsep. induction 1 as [|p ps Hp Hps IH]; [constructor|].
  destruct ps as [|q ps]; [done|].
  rewrite py_join_cons by done. rewrite !Forall_app. auto.
Qed.

(** ** Facts about [py_split] *)

Lemma flush_Forall (P : text → Prop) cur rest :
  (cur ≠ [] → P (reverse cur)) → Forall P rest → Forall P (flush cur rest).
Proof. destruct cur; simpl; auto. Qed.

(** Every piece is non-empty and free of white space. *)
Definition is_token (w : text) : Prop :=
  w ≠ [] ∧ Forall (λ c, is_space c = false) w.

Lemma split_go_tokens cur s :
  Forall (λ c, is_space c = false) cur → Forall is_token (split_go cur s).
Proof.
  revert cur. induction s as [|c s IH]; intros cur Hcur; simpl.
  - apply flush_Forall; [|done]. intros Hne. split.
    + by intros ?%(f_equal length); rewrite length_reverse in *; destruct cur.
    + by apply Forall_reverse.
  - destruct (is_space c) eqn:Hc; [|by apply IH; constructor].
    apply flush_Forall; [|by apply IH]. intros Hne. split.
    + by intros ?%(f_equal length); rewrite length_reverse in *; destruct cur.
    + by apply Forall_reverse.
Qed.

Lemma py_split_tokens s : Forall is_token (py_split s).
Proof. by apply split_go_tokens. Qed.

(** Splitting keeps the characters of the text. *)
Lemma split_go_chars (P : ascii → Prop) cur s :
  Forall P cur → Forall P s → Forall (Forall P) (split_go cur s).
Proof.
  revert cur. induction s as [|c s IH]; intros cur Hcur Hs; simpl.
  - apply flush_Forall; [|done]. intros _. by apply Forall_reverse.
  - apply Forall_cons in Hs as [Hc Hs]. destruct (is_space c).
    + apply flush_Forall; [intros _; by apply Forall_reverse|by apply IH].
    + apply IH; [by constructor|done].
Qed.

Lemma py_split_chars (P : ascii → Prop) s :
  Forall P s → Forall (Forall P) (py_split s).
Proof. by apply split_go_chars. Qed.

(** Reading a run of characters that are no white space. *)
Lemma split_go_run cur w s :
  Forall (λ c, is_space c = false) w →
  split_go cur (w ++ s) = split_go (reverse w ++ cur) s.
Proof.
  intros Hw. revert cur. induction Hw as [|c w Hc _ IH]; intros cur; [done|].
  simpl. rewrite Hc, IH, reverse_cons. by rewrite <- (assoc_L (++)).
Qed.

Lemma flush_reverse w rest : w ≠ [] → flush (reverse w) rest = w :: rest.
Proof.
  intros Hne. unfold flush.
  destruct (reverse w) eqn:E; [|by rewrite <- E, reverse_involutive].
  by apply (f_equal reverse) in E; rewrite reverse_involutive in E.
Qed.

Lemma split_go_token w s :
  is_token w → split_go [] (w ++ " "%text ++ s) = w :: split_go [] s.
Proof.
  intros [Hne Hw]. rewrite split_go_run, app_nil_r by done. simpl.
  by apply flush_reverse.
Qed.

Lemma split_go_last w : is_token w → split_go [] w = [w].
Proof.
  intros [Hne Hw]. rewrite <- (app_nil_r w) at 1.
  rewrite split_go_run, app_nil_r by done. simpl. by apply flush_reverse.
Qed.

(** Splitting what was joined with single spaces gives the pieces back. *)
Lemma py_split_join tokens :
  Forall is_token tokens → py_split (py_join " "%text tokens) = tokens.
Proof.
  unfold py_split. induction 1 as [|w ws Hw Hws IH]; [done|].
  destruct ws as [|w' ws]; [by apply split_go_last|].
  rewrite py_join_cons by done. by rewrite split_go_token, IH.
Qed.

(** ** Facts about [str_of_nat] *)

Lemma str_of_nat_inj n m : str_of_nat n = str_of_nat m → n = m.
Proof.
  unfold str_of_nat. intros E. apply (inj pretty).
  by rewrite <- (String.string_of_list_ascii_of_string (pretty n)), E,
    String.string_of_list_ascii_of_string.
Qed.

(** ** Facts about [startswith], [in] and [replace] *)

Lemma startswith_spec p s : startswith p s ↔ ∃ rest, s = p ++ rest.
Proof.
  revert s. induction p as [|a p IH]; intros s; simpl.
  - split; [by exists s|done].
  - destruct s as [|b s]; [split; [done|by intros [? ?]]|].
    rewrite andb_True, bool_decide_spec, IH. split.
    + intros [-> [rest ->]]. by exists rest.
    + intros [rest [= -> ->]]. split; [done|by exists rest].
Qed.

Lemma contains_spec needle hay :
  contains needle hay ↔ ∃ pre post, hay = pre ++ needle ++ post.
Proof.
  induction hay as [|c hay IH]; simpl; rewrite orb_True, startswith_spec.
  - split.
    + intros [[rest E]|[]]. by exists [], rest.
    + intros (pre & post & E). left. destruct pre; [by exists post|done].
  - rewrite IH. split.
    + intros [[rest E]|(pre & post & ->)]; [by exists [], rest|by exists (c :: pre), post].
    + intros ([|c' pre] & post & E); [left; by exists post|].
      right. injection E as -> ->. by exists pre, post.
Qed.

Lemma replace_first_absent old new s :
  ¬ contains old s → replace_first old new s = s.
Proof.
  induction s as [|c s IH]; simpl; rewrite orb_True; intros Hn.
  - destruct (startswith old []) eqn:E; [|done]. destruct Hn. by left.
  - destruct (startswith old (c :: s)) eqn:E; [destruct Hn; by left|].
    rewrite IH; [done|]. intros ?. apply Hn. by right.
Qed.

(** The first occurrence is replaced and the rest stays. *)
Lemma replace_first_present old new s :
  contains old s →
  ∃ pre post, s = pre ++ old ++ post
              ∧ replace_first old new s = pre ++ new ++ post
              ∧ ∀ i, i < length pre → startswith old (drop i s) = false.
Proof.
  induction s as [|c s IH]; simpl; rewrite orb_True.
  - intros [Hs|[]]. rewrite (Is_true_eq_true _ Hs).
    apply startswith_spec in Hs as [rest E]. exists [], rest.
    split_and!; [done| |simpl; lia]. destruct old; [|done]. simpl in *. by subst.
  - destruct (startswith old (c :: s)) eqn:E.
    + intros _. apply Is_true_eq_left, startswith_spec in E as [rest E].
      exists [], rest. split_and!; [done| |simpl; lia]. simpl. rewrite E.
      by rewrite drop_app_length.
    + intros [[]|Hc]. destruct (IH Hc) as (pre & post & -> & -> & Hfirst).
      exists (c :: pre), post. split_and!; [done..|].
      intros [|i] Hi; [done|]. apply Hfirst. simpl in Hi. lia.
Qed.
