(* ===== verification/Normalizer.v ===== *)
(** * The text normalizer: [EmailAnalyzer.preprocess_text]

    Lower-cases, deletes every character that is neither a word character
    nor white space, tokenizes, drops the stop words and joins the rest
    with single spaces.  NLTK's [word_tokenize] and its English stop-word
    list are not part of the repository: they are the interface
    [Tokenizer], and what is proved of [preprocess_text] holds for every
    instance.  [whitespace_tokenizer] is a reference instance for the
    examples; it splits at white space, where [word_tokenize] also cuts
    contractions such as [cannot], so what is proved of that instance is
    said of it alone. *)

From S2P Require Import Prelude PyValue PyText.

(** What [preprocess_text] asks of NLTK. *)
Class Tokenizer := {
  word_tokenize : text → list text;
  stop_words : list text;
}.

(** The laws of a tokenizer that cuts its input at white space: on text made
    of word characters and white space, the tokens are non-empty words. *)
Class TokenizerLaws `{Tokenizer} := {
  word_tokenize_words s :
    Forall (λ c, is_word c || is_space c) s →
    Forall (λ w, w ≠ [] ∧ Forall (λ c, is_word c) w) (word_tokenize s);
}.

Section normalizer.
Context `{Tokenizer}.

(** [re.sub(r'[^\w\s]', '', s)] *)
Definition strip_special (s : text) : text :=
  filter (λ c, is_word c || is_space c) s.

Definition preprocess_text (v : pyval) : text :=
  match v with
  | PStr text =>
      let text := strip_special (lower text) in
      let tokens := word_tokenize text in
      let filtered_tokens := filter (λ w, w ∉ stop_words) tokens in
      py_join " "%text filtered_tokens
  | _ => []
  end.

End normalizer.

(** The reference tokenizer: split at white space. *)
Definition whitespace_tokenizer (stops : list text) : Tokenizer :=
  {| word_tokenize := py_split; stop_words := stops |}.

(** The tokenizer of the examples: a few of the English stop words. *)
Definition demo_tokenizer : Tokenizer :=
  whitespace_tokenizer
    ["i"; "you"; "your"; "it"; "is"; "the"; "a"; "at"; "on"; "for"; "to";
     "that"; "our"; "this"; "by"; "and"; "of"; "will"; "be"; "now"; "about";
     "up"; "just"]%text.

(** ** Facts *)

Section normalizer_facts.
Context `{Tokenizer}.

Lemma strip_special_clean s :
  Forall (λ c, is_word c || is_space c) (strip_special s).
Proof. apply Forall_filter_self. Qed.

Lemma strip_special_fixed s :
  Forall (λ c, is_word c || is_space c) s → strip_special s = s.
Proof. apply filter_Forall_id. Qed.

Lemma strip_special_idemp s : strip_special (strip_special s) = strip_special s.
Proof. apply strip_special_fixed, strip_special_clean. Qed.

Lemma strip_special_lower s :
  lower (strip_special (lower s)) = strip_special (lower s).
Proof.
  apply lower_fixed. unfold strip_special.
  apply Forall_filter_keep, lower_no_upper.
Qed.

Lemma preprocess_text_not_str v : is_str v = false → preprocess_text v = [].
Proof. by destruct v. Qed.

(** No stop word survives as a token. *)
Lemma filtered_no_stop_words (tokens : list text) (w : text) :
  w ∈ filter (λ w, w ∉ stop_words) tokens → w ∉ stop_words.
Proof. by intros [? ?]%list_elem_of_filter. Qed.

(** Deleting the special characters before or after lower-casing is the
    same: a letter stays a word character when it is lower-cased. *)
Lemma strip_special_lower_strip s :
  strip_special (lower (strip_special s)) = strip_special (lower s).
Proof.
  unfold strip_special, lower. induction s as [|c s IH]; [done|].
  rewrite filter_cons. csimpl. rewrite filter_cons.
  rewrite is_word_lower_char, is_space_lower_char.
  destruct (decide _) as [Hc|Hc]; csimpl; rewrite ?filter_cons,
    ?is_word_lower_char, ?is_space_lower_char; [|done].
  rewrite decide_True by done. by rewrite IH.
Qed.

(** C40: what [preprocess_text] makes of a text, whatever the tokenizer
    and its stop words: the text in lower case has the same normal form,
    and so has the text without its special characters, so two texts that
    differ in case and punctuation only get the same vector; the normal
    form is some of the tokens of the cleaned text, in their order, joined
    by single spaces, and no stop word is among them. *)
Theorem preprocess_text_normal_form s :
  preprocess_text (PStr (lower s)) = preprocess_text (PStr s)
  ∧ preprocess_text (PStr (strip_special s)) = preprocess_text (PStr s)
  ∧ ∃ tokens,
      preprocess_text (PStr s) = py_join " "%text tokens
      ∧ tokens `sublist_of` word_tokenize (strip_special (lower s))
      ∧ Forall (λ w, w ∉ stop_words) tokens.
Proof.
  unfold preprocess_text. split_and!.
  - by rewrite lower_idemp.
  - by rewrite strip_special_lower_strip.
  - eexists. split_and!; [done|apply sublist_filter|apply Forall_filter_self].
Qed.

(** With a tokenizer that cuts at white space, the normalized text
    of any value is made of word characters and spaces only: nothing of
    the punctuation and no other white space is left. *)
Theorem preprocess_text_words `{!TokenizerLaws} v :
  Forall (λ c, is_word c ∨ c = " "%char) (preprocess_text v).
Proof.
  destruct v as [| | | |s| |]; try by constructor.
  apply py_join_Forall; [by repeat constructor|].
  apply Forall_filter_keep.
  eapply Forall_impl; [apply word_tokenize_words, strip_special_clean|].
  intros w [_ Hw]. eapply Forall_impl; [done|]. by left.
Qed.

End normalizer_facts.

Section whitespace_tokenizer_facts.
Context (stops : list text).

#[export] Instance whitespace_tokenizer_laws :
  @TokenizerLaws (whitespace_tokenizer stops).
Proof.
  split. intros s Hs. simpl.
  pose proof (py_split_tokens s) as Htok.
  pose proof (py_split_chars _ s Hs) as Hch.
  rewrite Forall_forall in *. intros w Hw.
  destruct (Htok w Hw) as [Hne Hsp]. split; [done|].
  specialize (Hch w Hw). rewrite Forall_forall in *. intros c Hc.
  specialize (Hch c Hc). specialize (Hsp c Hc). simpl in *.
  rewrite Hsp in Hch. by rewrite orb_false_r in Hch.
Qed.

(** The tokens that are kept, and what they are made of. *)
Lemma kept_tokens s (P : ascii → Prop) :
  Forall P (strip_special (lower s)) →
  Forall is_token (filter (λ w, w ∉ stops) (py_split (strip_special (lower s))))
  ∧ Forall (Forall P)
      (filter (λ w, w ∉ stops) (py_split (strip_special (lower s)))).
Proof.
  intros HP. split; apply Forall_filter_keep;
    [apply py_split_tokens|by apply py_split_chars].
Qed.

(** With the reference tokenizer, which splits at white space, normalizing
    is idempotent: the normalized text of a normalized text is that text.
    This is a fact about the reference instance, not about NLTK. *)
Theorem preprocess_text_idemp v :
  @preprocess_text (whitespace_tokenizer stops)
    (PStr (@preprocess_text (whitespace_tokenizer stops) v))
  = @preprocess_text (whitespace_tokenizer stops) v.
Proof.
  destruct v as [| | | |s| |]; try done. simpl.
  destruct (kept_tokens s (λ c, is_upper c = false)) as [Htok Hlow].
  { apply Forall_filter_keep, lower_no_upper. }
  destruct (kept_tokens s (λ c, is_word c || is_space c)) as [_ Hcl].
  { apply strip_special_clean. }
  rewrite lower_fixed by (by apply py_join_Forall; [repeat constructor|]).
  rewrite strip_special_fixed by (by apply py_join_Forall; [repeat constructor|]).
  rewrite py_split_join by done.
  by rewrite filter_Forall_id by apply Forall_filter_self.
Qed.

End whitespace_tokenizer_facts.

(** * Examples *)

Example preprocess_text_demo :
  @preprocess_text demo_tokenizer
    (PStr "Dear John, Your invoice #12345 is due on 01/15/2023!"%text)
  = "dear john invoice 12345 due 01152023"%text.
Proof. vm_compute. reflexivity. Qed.

Lemma preprocess_text_words_witness :
  Forall (λ c, is_word c ∨ c = " "%char)
    (@preprocess_text demo_tokenizer (PStr "Hello, World!"%text)).
Proof.
  apply (@preprocess_text_words demo_tokenizer (whitespace_tokenizer_laws _)).
Defined.
