(* ===== verification/VectorSpace.v ===== *)
(** * The vector space and its numeric collaborators

    [EmailAnalyzer] holds a [TfidfVectorizer], the matrix [email_vectors]
    it produced, and a [KMeans] model; it compares rows with
    [cosine_similarity], ranks with [numpy.argsort] and grows the matrix
    with [scipy.sparse.vstack].  None of these is code of the repository.
    Each is an interface here, with the laws the analyzer relies on:

    - [Vectorizer]: [fit_transform] returns one row per document and fixes
      the width; [transform] projects onto that width and fails on a
      vectorizer that was never fitted;
    - [KMeansAlg]: fitting needs at least as many rows as clusters and
      labels every row;
    - [Cosine]: a score for two rows;
    - [ArgSort]: a permutation of the positions that puts the scores in
      ascending order.  NumPy's default sort is not stable, so no more is
      promised about ties.

    A matrix records its width, so that a matrix without rows still has
    one and stacking two matrices of different widths is an error. *)

From S2P Require Import Prelude PyText.

(** ** Matrices *)

Record matrix := Matrix {
  ncols : nat;
  rows : list (list Q);
}.

Definition nrows (X : matrix) : nat := length (rows X).

(** Every row has the matrix's width. *)
Definition matrix_wf (X : matrix) : Prop :=
  Forall (λ r, length r = ncols X) (rows X).

#[global] Instance matrix_wf_dec X : Decision (matrix_wf X).
Proof. unfold matrix_wf. apply _. Defined.

(** [scipy.sparse.vstack([X, Y])] *)
Definition vstack (X Y : matrix) : outcome matrix :=
  if decide (ncols X = ncols Y)
  then Ret (Matrix (ncols X) (rows X ++ rows Y))
  else Exc ValueError.

(** [a.flatten()] of a two-dimensional array: its rows, one after another. *)
Definition flatten (a : list (list Q)) : list Q := mjoin a.

(** ** Interfaces *)

(** [sklearn.feature_extraction.text.TfidfVectorizer].  [vec_width] is the
    size of the fitted vocabulary, [None] before the first fit.
    [fit_transform] changes the vectorizer in place; nothing is promised
    about the vectorizer it leaves behind when it raises. *)
Class Vectorizer (V : Type) := {
  vec_new : V;
  vec_width : V → option nat;
  fit_transform : V → list text → V * outcome matrix;
  transform : V → list text → outcome matrix;
  vec_new_unfitted : vec_width vec_new = None;
  fit_transform_shape v docs v' X :
    fit_transform v docs = (v', Ret X) →
    nrows X = length docs ∧ matrix_wf X ∧ vec_width v' = Some (ncols X);
  transform_fitted v docs d :
    vec_width v = Some d →
    ∃ X, transform v docs = Ret X ∧ nrows X = length docs ∧ ncols X = d
         ∧ matrix_wf X;
  transform_unfitted v docs :
    vec_width v = None → transform v docs = Exc NotFittedError;
}.

(** [sklearn.cluster.KMeans(n_clusters=k, random_state=42).fit(X)] *)
Class KMeansAlg (M : Type) := {
  kmeans_fit : nat → matrix → outcome M;
  n_clusters : M → nat;
  labels : M → list nat;
  kmeans_fit_enough k X :
    1 ≤ k ≤ nrows X → ∃ m, kmeans_fit k X = Ret m;
  kmeans_fit_too_few k X :
    nrows X < k → kmeans_fit k X = Exc ValueError;
  kmeans_fit_shape k X m :
    kmeans_fit k X = Ret m →
    n_clusters m = k ∧ length (labels m) = nrows X
    ∧ Forall (λ c, c < k) (labels m);
}.

(** The score [sklearn.metrics.pairwise.cosine_similarity] gives two rows. *)
Class Cosine := {
  cosine : list Q → list Q → Q;
}.

(** Scores of rows without negative entries lie between 0 and 1. *)
Class CosineBounded `{Cosine} := {
  cosine_bounds x y :
    Forall (λ a, 0 <= a)%Q x → Forall (λ a, 0 <= a)%Q y →
    (0 <= cosine x y <= 1)%Q;
}.

(** The score at a position, 0 past the end. *)
Definition score_at (l : list Q) (i : nat) : Q := default 0%Q (l !! i).

(** [numpy.argsort] of a one-dimensional array. *)
Class ArgSort := {
  argsort : list Q → list nat;
  argsort_perm l : argsort l ≡ₚ seq 0 (length l);
  argsort_sorted l : StronglySorted Qle (score_at l <$> argsort l);
}.

Section cosine.
Context `{Cosine}.

(** [cosine_similarity(X, Y)]: the score of every row of [X] with every row
    of [Y]; the widths have to agree.  scikit-learn also refuses a matrix
    without rows; the model does not, and a matrix without rows gives no
    scores.  No [fit] of scikit-learn's vectorizer returns such a matrix
    (it raises on an empty vocabulary). *)
Definition cosine_similarity (X Y : matrix) : outcome (list (list Q)) :=
  if decide (ncols X = ncols Y)
  then Ret ((λ x, cosine x <$> rows Y) <$> rows X)
  else Exc ValueError.

End cosine.

(** ** Reference instances, for running the model *)

(** A vectorizer over a fixed vocabulary chosen at the first fit: the
    distinct words of the documents, one column per word, the entry the
    number of occurrences.  It fails on documents without any word. *)
Section count_vectorizer.

Definition count_row (vocab : list text) (doc : list text) : list Q :=
  (λ w, inject_Z (Z.of_nat (length (filter (λ x, x = w) doc)))) <$> vocab.

Definition count_matrix (vocab : list text) (docs : list (list text)) : matrix :=
  Matrix (length vocab) (count_row vocab <$> docs).

Definition count_fit (split : text → list text) (docs : list text)
    : option (list text) * outcome matrix :=
  let words := split <$> docs in
  let vocab := remove_dups (mjoin words) in
  match vocab with
  | [] => (None, Exc ValueError)
  | _ => (Some vocab, Ret (count_matrix vocab words))
  end.

Definition count_transform (split : text → list text)
    (v : option (list text)) (docs : list text) : outcome matrix :=
  match v with
  | Some vocab => Ret (count_matrix vocab (split <$> docs))
  | None => Exc NotFittedError
  end.

Lemma count_matrix_wf vocab docs : matrix_wf (count_matrix vocab docs).
Proof.
  unfold matrix_wf, count_matrix. simpl. apply Forall_fmap, Forall_true.
  intros doc. simpl. unfold count_row. by rewrite length_fmap.
Qed.

Lemma count_matrix_nrows vocab docs : nrows (count_matrix vocab docs) = length docs.
Proof. unfold nrows. simpl. by rewrite length_fmap. Qed.

Program Definition count_vectorizer (split : text → list text)
    : Vectorizer (option (list text)) := {|
  vec_new := None;
  vec_width v := length <$> v;
  fit_transform _ docs := count_fit split docs;
  transform := count_transform split;
|}.
Next Obligation. done. Qed.
Next Obligation.
  intros split v docs v' X. unfold count_fit.
  destruct (remove_dups _) as [|w vocab] eqn:E; [done|].
  intros [= <- <-]. split_and!.
  - by rewrite count_matrix_nrows, length_fmap.
  - apply count_matrix_wf.
  - done.
Qed.
Next Obligation.
  intros split [vocab|] docs d; [|done]. intros [= <-].
  eexists. split_and!; [done| |done|apply count_matrix_wf].
  by rewrite count_matrix_nrows, length_fmap.
Qed.
Next Obligation. by intros split [vocab|] docs. Qed.

End count_vectorizer.

(** The vectorizer of the examples: words are what [str.split] gives. *)
Definition demo_vectorizer : Vectorizer (option (list text)) :=
  count_vectorizer py_split.

(** A clustering that puts row [i] in cluster [i mod k]. *)
Section round_robin.

Definition round_robin_fit (k : nat) (X : matrix) : outcome (nat * list nat) :=
  if decide (1 ≤ k ≤ nrows X)
  then Ret (k, (λ i, i mod k) <$> seq 0 (nrows X))
  else Exc ValueError.

Program Definition round_robin_kmeans : KMeansAlg (nat * list nat) := {|
  kmeans_fit := round_robin_fit;
  n_clusters := fst;
  labels := snd;
|}.
Next Obligation.
  intros k X Hk. unfold round_robin_fit. rewrite decide_True by done. eauto.
Qed.
Next Obligation.
  intros k X Hk. unfold round_robin_fit. rewrite decide_False by lia. done.
Qed.
Next Obligation.
  intros k X m. unfold round_robin_fit. destruct (decide _); [|done].
  intros [= <-]. simpl. rewrite length_fmap, length_seq. split_and!; [done..|].
  apply Forall_fmap, Forall_true. intros i. simpl. apply Nat.mod_upper_bound. lia.
Qed.

End round_robin.

(** The share of the first row's mass that sits on columns the second row
    also uses: a score between 0 and 1 that computes in [Q]. *)
Section overlap.

Definition qsum (l : list Q) : Q := foldr Qplus 0%Q l.

Definition overlap (x y : list Q) : Q :=
  qsum (zip_with (λ a b, if Qeq_bool b 0 then 0%Q else a) x y) / qsum x.

Definition overlap_cosine : Cosine := {| cosine := overlap |}.

End overlap.

(** Ranking by merge sort of the positions. *)
Section merge_argsort.

Definition score_le (l : list Q) (i j : nat) : Prop :=
  (score_at l i <= score_at l j)%Q.

#[export] Instance score_le_dec l i j : Decision (score_le l i j).
Proof. unfold score_le. apply _. Defined.

#[export] Instance score_le_total l : Total (score_le l).
Proof. intros i j. unfold score_le. apply (total Qle). Qed.

#[export] Instance score_le_trans l : Transitive (score_le l).
Proof. intros i j k. unfold score_le. apply Qle_trans. Qed.

Definition merge_argsort (l : list Q) : list nat :=
  merge_sort (score_le l) (seq 0 (length l)).

Program Definition merge_sort_argsort : ArgSort := {|
  argsort := merge_argsort;
|}.
Next Obligation. intros l. apply merge_sort_Permutation. Qed.
Next Obligation.
  intros l. apply (StronglySorted_fmap _ (score_le l)); [done|].
  apply StronglySorted_merge_sort; apply _.
Qed.

End merge_argsort.

(** ** Facts *)

Lemma vstack_Ret X Y Z :
  vstack X Y = Ret Z ↔
  ncols X = ncols Y ∧ Z = Matrix (ncols X) (rows X ++ rows Y).
Proof.
  unfold vstack. destruct (decide _); split;
    [by intros [= <-]|by intros [_ ->]|done|by intros [? _]].
Qed.

Lemma vstack_nrows X Y Z : vstack X Y = Ret Z → nrows Z = nrows X + nrows Y.
Proof.
  intros [_ ->]%vstack_Ret. unfold nrows. simpl. by rewrite length_app.
Qed.

Lemma vstack_ncols X Y Z : vstack X Y = Ret Z → ncols Z = ncols X.
Proof. by intros [_ ->]%vstack_Ret. Qed.

Lemma vstack_wf X Y Z :
  matrix_wf X → matrix_wf Y → vstack X Y = Ret Z → matrix_wf Z.
Proof.
  unfold matrix_wf. intros HX HY [Hc ->]%vstack_Ret. simpl.
  apply Forall_app. split; [done|]. by rewrite Hc.
Qed.

Lemma vstack_same_width X Y : ncols X = ncols Y → returns (vstack X Y) = true.
Proof. intros Hc. unfold vstack. by rewrite decide_True. Qed.

Section cosine_facts.
Context `{Cosine}.

Lemma cosine_similarity_Ret X Y a :
  cosine_similarity X Y = Ret a ↔
  ncols X = ncols Y ∧ a = (λ x, cosine x <$> rows Y) <$> rows X.
Proof.
  unfold cosine_similarity. destruct (decide _); split;
    [by intros [= <-]|by intros [_ ->]|done|by intros [? _]].
Qed.

(** One query row against [n] rows gives [n] scores. *)
Lemma cosine_similarity_flatten_length X Y a :
  nrows X = 1 → cosine_similarity X Y = Ret a →
  length (flatten a) = nrows Y.
Proof.
  intros HX [_ ->]%cosine_similarity_Ret. unfold nrows, flatten in *.
  destruct (rows X) as [|x [|]]; simplify_eq/=.
  by rewrite app_nil_r, length_fmap.
Qed.

Lemma cosine_similarity_flatten X Y a x :
  rows X = [x] → cosine_similarity X Y = Ret a →
  flatten a = cosine x <$> rows Y.
Proof.
  intros HX [_ ->]%cosine_similarity_Ret. unfold flatten.
  rewrite HX. simpl. by rewrite app_nil_r.
Qed.

End cosine_facts.

Section argsort_facts.
Context `{ArgSort}.
Implicit Types (l : list Q).

Lemma argsort_length l : length (argsort l) = length l.
Proof. by rewrite (argsort_perm l), length_seq. Qed.

Lemma argsort_NoDup l : NoDup (argsort l).
Proof. rewrite (argsort_perm l). apply NoDup_seq. Qed.

Lemma argsort_lt l i : i ∈ argsort l → i < length l.
Proof. rewrite (argsort_perm l), elem_of_seq. lia. Qed.

Lemma argsort_elem_of l i : i < length l → i ∈ argsort l.
Proof. rewrite (argsort_perm l), elem_of_seq. lia. Qed.

End argsort_facts.
