(* ===== verification/Ledger.v ===== *)
(** * The learning ledger

    [EmailAnalyzer.learning_history] is a list of dictionaries, one per
    operation, each with an ["event"] name, a ["timestamp"] and the fields
    of its kind.  The four kinds are the four places of
    [email_analyzer.py] that append to it.  This file holds the events and
    the counting loop of [get_learning_stats]. *)

From S2P Require Import Prelude PyValue.

(** A reading of [datetime.datetime.now()].  The source stores its
    [isoformat()], a text; the model keeps the reading itself, a number,
    and the order of the numbers stands for the order of the times. *)
Abbreviation timestamp := Z.

Inductive event :=
| ModelTraining (time : timestamp) (num_emails : nat)
| SimilaritySearch (time : timestamp) (query : text) (num_results : nat)
| TemplateSuggestion (time : timestamp) (num_variables : nat)
| TaskLearning (time : timestamp) (task_id : pyval) (has_template : bool).

(** [event["event"]] *)
Definition event_name (e : event) : text :=
  match e with
  | ModelTraining _ _ => "model_training"%text
  | SimilaritySearch _ _ _ => "similarity_search"%text
  | TemplateSuggestion _ _ => "template_suggestion"%text
  | TaskLearning _ _ _ => "task_learning"%text
  end.

(** [event["timestamp"]] *)
Definition event_time (e : event) : timestamp :=
  match e with
  | ModelTraining t _ | SimilaritySearch t _ _
  | TemplateSuggestion t _ | TaskLearning t _ _ => t
  end.

(** One turn of the loop of [get_learning_stats]:
    [event_counts[event_type] = event_counts.get(event_type, 0) + 1]. *)
Definition count_event (event_counts : list (text * nat)) (e : event)
    : list (text * nat) :=
  let event_type := event_name e in
  items_set event_type (default 0 (items_lookup event_type event_counts) + 1)
    event_counts.

(** The loop, from the empty dictionary. *)
Definition count_events (history : list event) : list (text * nat) :=
  foldl count_event [] history.

(** The number of events of a kind, counted directly. *)
Definition occurrences (name : text) (history : list event) : nat :=
  length (filter (λ e, event_name e = name) history).

(** The sum of a dictionary's values. *)
Definition total (counts : list (text * nat)) : nat := sum_list counts.*2.

(** ** Facts *)

Lemma total_items_set key n (d : list (text * nat)) :
  total (items_set key n d) + default 0 (items_lookup key d) = total d + n.
Proof.
  unfold total. induction d as [|[k m] d IH]; csimpl; [lia|].
  destruct (decide (k = key)) as [->|Hne]; csimpl; lia.
Qed.

Lemma total_count_event counts e : total (count_event counts e) = S (total counts).
Proof.
  unfold count_event.
  pose proof (total_items_set (event_name e)
    (default 0 (items_lookup (event_name e) counts) + 1) counts). lia.
Qed.

Lemma lookup_count_event counts e name :
  default 0 (items_lookup name (count_event counts e)) =
    default 0 (items_lookup name counts)
    + (if decide (event_name e = name) then 1 else 0).
Proof.
  unfold count_event. destruct (decide (event_name e = name)) as [<-|Hne].
  - by rewrite items_lookup_set_eq.
  - rewrite items_lookup_set_ne by done. lia.
Qed.

Lemma count_event_NoDup counts e : NoDup counts.*1 → NoDup (count_event counts e).*1.
Proof. apply items_set_NoDup. Qed.

Lemma count_event_keys counts e k :
  k ∈ (count_event counts e).*1 ↔ k ∈ counts.*1 ∨ k = event_name e.
Proof.
  unfold count_event. rewrite items_set_keys.
  destruct (decide (event_name e ∈ counts.*1)) as [Hin|Hnin].
  - split; [by left|]. by intros [?| ->].
  - rewrite elem_of_app, list_elem_of_singleton. done.
Qed.

(** The loop from any starting dictionary, by induction on the history. *)
Section loop.
Implicit Types (history : list event) (counts : list (text * nat)).

Lemma foldl_count_total history counts :
  total (foldl count_event counts history) = total counts + length history.
Proof.
  revert counts. induction history as [|e history IH]; intros counts; simpl.
  - lia.
  - rewrite IH, total_count_event. lia.
Qed.

Lemma foldl_count_lookup history counts name :
  default 0 (items_lookup name (foldl count_event counts history)) =
    default 0 (items_lookup name counts) + occurrences name history.
Proof.
  unfold occurrences.
  revert counts. induction history as [|e history IH]; intros counts; simpl.
  - lia.
  - rewrite IH, lookup_count_event, filter_cons.
    destruct (decide (event_name e = name)); simpl; lia.
Qed.

Lemma foldl_count_NoDup history counts :
  NoDup counts.*1 → NoDup (foldl count_event counts history).*1.
Proof.
  revert counts. induction history as [|e history IH]; intros counts; simpl.
  - done.
  - intros Hc. by apply IH, count_event_NoDup.
Qed.

Lemma foldl_count_keys history counts k :
  k ∈ (foldl count_event counts history).*1 ↔
  k ∈ counts.*1 ∨ ∃ e, e ∈ history ∧ event_name e = k.
Proof.
  revert counts. induction history as [|e history IH]; intros counts; simpl.
  - split; [by left|]. intros [?|(e & He & _)]; [done|].
    by apply elem_of_nil in He.
  - rewrite IH, count_event_keys. split.
    + intros [[?| ->]|(e' & ? & ?)]; [by left|right..].
      * exists e. split; [left|done].
      * exists e'. split; [by right|done].
    + intros [?|(e' & [->|?]%elem_of_cons & <-)].
      * by left; left.
      * by left; right.
      * right. by exists e'.
Qed.

End loop.

Lemma count_events_total history : total (count_events history) = length history.
Proof. unfold count_events. by rewrite foldl_count_total. Qed.

Lemma count_events_lookup history name :
  default 0 (items_lookup name (count_events history)) = occurrences name history.
Proof. unfold count_events. by rewrite foldl_count_lookup. Qed.

Lemma count_events_NoDup history : NoDup (count_events history).*1.
Proof. apply foldl_count_NoDup. constructor. Qed.

Lemma count_events_keys history k :
  k ∈ (count_events history).*1 ↔ ∃ e, e ∈ history ∧ event_name e = k.
Proof.
  unfold count_events. rewrite foldl_count_keys. split; [|by right].
  intros [Hk|?]; [|done]. by apply elem_of_nil in Hk.
Qed.

(** The loop on a history that grew by one event. *)
Lemma count_events_snoc history e :
  count_events (history ++ [e]) = count_event (count_events history) e.
Proof. unfold count_events. by rewrite foldl_app. Qed.
