(* ===== verification/Sentiment.v ===== *)
(** * The sentiment scorer: [EmailAnalyzer.analyze_sentiment]

    VADER's [polarity_scores] is a library the source calls; what the
    method reads of it is the compound score, a number between -1 and 1:
    the interface [PolarityScorer].  The method itself is the two
    thresholds.  Scores are exact rationals.

    The argument is a [str], as at the two places that call the method
    ([sys.argv[1]] and the e-mail of the example); [if not text] is then
    the test for the empty text.  What the method does with [None] or
    with a value that is no [str] is not modelled. *)

From Stdlib Require Import Lqa.
From S2P Require Import Prelude.

(** [self.sentiment_analyzer.polarity_scores(text)['compound']] *)
Class PolarityScorer := {
  compound : text → Q;
  compound_range s : (-1 <= compound s <= 1)%Q;
}.

Section sentiment.
Context `{PolarityScorer}.

Definition analyze_sentiment (text : text) : Prelude.text :=
  match text with
  | [] => "neutral"%text
  | _ =>
      let sentiment_scores := compound text in
      if decide (5 # 100 <= sentiment_scores)%Q then "positive"%text
      else if decide (sentiment_scores <= - (5 # 100))%Q then "negative"%text
      else "neutral"%text
  end.

End sentiment.

(** A scorer for the examples: the share of exclamation marks, negative
    when the text has a question mark. *)
Definition count_char (c : ascii) (s : text) : nat :=
  length (filter (λ x, x = c) s).

Definition demo_compound (s : text) : Q :=
  match s with
  | [] => 0
  | _ =>
      let score := Z.of_nat (count_char "!" s) # Pos.of_nat (length s) in
      if decide (count_char "?" s = 0) then score else (- score)%Q
  end.

(** * Facts *)

Section sentiment_facts.
Context `{PolarityScorer}.

Lemma analyze_sentiment_empty : analyze_sentiment [] = "neutral"%text.
Proof. done. Qed.

Lemma analyze_sentiment_cases s :
  s ≠ [] →
  (analyze_sentiment s = "positive"%text ∧ (5 # 100 <= compound s)%Q)
  ∨ (analyze_sentiment s = "negative"%text ∧ (compound s <= - (5 # 100))%Q
     ∧ ¬ (5 # 100 <= compound s)%Q)
  ∨ (analyze_sentiment s = "neutral"%text
     ∧ ¬ (5 # 100 <= compound s)%Q ∧ ¬ (compound s <= - (5 # 100))%Q).
Proof.
  intros Hs. unfold analyze_sentiment. destruct s as [|c s]; [done|].
  repeat case_decide; auto.
Qed.

(** C39: [analyze_sentiment] answers with one of the three labels, and the
    label of a text that is not empty is decided by the compound score
    alone: positive from 0.05 on, negative down from -0.05, neutral strictly
    between the two. *)
Theorem analyze_sentiment_label s :
  s ≠ [] →
  (analyze_sentiment s = "positive"%text ↔ (5 # 100 <= compound s)%Q)
  ∧ (analyze_sentiment s = "negative"%text ↔ (compound s <= - (5 # 100))%Q)
  ∧ (analyze_sentiment s = "neutral"%text
     ↔ (- (5 # 100) < compound s)%Q ∧ (compound s < 5 # 100)%Q).
Proof.
  intros Hs.
  destruct (analyze_sentiment_cases s Hs) as [[-> ?]|[(-> & ? & ?)|(-> & ? & ?)]];
    split_and!; split; intros; try done; lra.
Qed.

End sentiment_facts.

(** * Examples *)

Lemma demo_compound_range s : (-1 <= demo_compound s <= 1)%Q.
Proof.
  unfold demo_compound. destruct s as [|c s]; [done|].
  assert (0 <= Z.of_nat (count_char "!" (c :: s)) # Pos.of_nat (length (c :: s)) <= 1)%Q
    as [H0 H1].
  { unfold Qle. simpl Qnum. simpl Qden.
    pose proof (filter_length_le (λ x, x = "!"%char) (c :: s)). unfold count_char.
    simpl length in *. lia. }
  case_decide; split; try done.
  - by trans 0%Q.
  - by apply (Qopp_le_compat _ 1).
  - trans 0%Q; [|done]. by apply (Qopp_le_compat 0).
Qed.

Definition demo_scorer : PolarityScorer :=
  {| compound := demo_compound; compound_range := demo_compound_range |}.

Example analyze_sentiment_demo :
  @analyze_sentiment demo_scorer "Great news!!"%text = "positive"%text
  ∧ @analyze_sentiment demo_scorer "Why is this late?!"%text = "negative"%text
  ∧ @analyze_sentiment demo_scorer "The report is attached."%text = "neutral"%text
  ∧ @analyze_sentiment demo_scorer ""%text = "neutral"%text.
Proof. vm_compute. done. Qed.

Lemma analyze_sentiment_label_witness :
  (@analyze_sentiment demo_scorer "Great news!!"%text = "positive"%text
   ↔ (5 # 100 <= @compound demo_scorer "Great news!!"%text)%Q)
  ∧ (@analyze_sentiment demo_scorer "Great news!!"%text = "negative"%text
     ↔ (@compound demo_scorer "Great news!!"%text <= - (5 # 100))%Q)
  ∧ (@analyze_sentiment demo_scorer "Great news!!"%text = "neutral"%text
     ↔ (- (5 # 100) < @compound demo_scorer "Great news!!"%text)%Q
       ∧ (@compound demo_scorer "Great news!!"%text < 5 # 100)%Q).
Proof. apply (@analyze_sentiment_label demo_scorer "Great news!!"%text). done. Defined.
