(* ===== verification/Regex.v ===== *)
(** * Regular expressions as Python's [re] matches them

    The part of [re] the analyzer uses: character classes, sequence,
    alternation, greedy repetition with bounds, one capturing group, the
    word boundary, the start of the text and the negative look-behind.
    [backtrack] is the backtracking matcher, in continuation-passing style: it
    tries the alternatives in the order [re] tries them (the left branch
    first, one more iteration before stopping) and returns the first way
    to match that the continuation accepts.  [findall] is [re.findall].

    [matches] says what a match is, without any order of search; [backtrack]
    finds a match exactly when there is one ([backtrack_correct]).  The
    iterations of a repetition are bounded by the characters left, which
    is enough because an iteration has to read a character; the bodies of
    all repetitions in the source read exactly one.  Of a pattern with a
    group [findall] reports the group, the empty string when the group
    took no part in the match, as [re.findall] does.  A match of the empty
    string is passed over by [findall], where [re.findall] reports an
    empty string; no pattern of the source matches the empty string
    ([nullable], [Entities.entity_patterns_not_nullable]), so this part of
    [re] is not needed. *)

From S2P Require Import Prelude PyText.

Inductive regex :=
| Empty
| Chars (p : ascii → bool)
| Seq (r1 r2 : regex)
| Alt (r1 r2 : regex)
| Repeat (lo : nat) (hi : option nat) (r : regex)
| Group (r : regex)
| Boundary
| Start
| NotBehind (r : regex).

(** A position in the text: the characters before it, the nearest first,
    the characters after it, and what the group captured so far. *)
Record cursor := Cursor {
  before : text;
  after : text;
  group : option text;
}.

(** [\b]: exactly one of the two neighbours is a word character. *)
Definition at_boundary (st : cursor) : bool :=
  xorb (from_option is_word false (head (before st)))
       (from_option is_word false (head (after st))).

(** The width of a pattern that has one; a look-behind needs it. *)
Fixpoint width (r : regex) : option nat :=
  match r with
  | Empty | Boundary | Start | NotBehind _ => Some 0
  | Chars _ => Some 1
  | Seq r1 r2 => w1 ← width r1; w2 ← width r2; Some (w1 + w2)
  | Alt r1 r2 =>
      w1 ← width r1; w2 ← width r2; if decide (w1 = w2) then Some w1 else None
  | Repeat lo hi r =>
      if decide (hi = Some lo) then w ← width r; Some (lo * w) else None
  | Group r => width r
  end.

(** [n] characters back. *)
Definition retreat (n : nat) (st : cursor) : cursor :=
  Cursor (drop n (before st)) (reverse (take n (before st)) ++ after st) (group st).

(** What was read between two cursors. *)
Definition captured (st st' : cursor) : text :=
  reverse (take (length (before st') - length (before st)) (before st')).

Definition below (n : nat) (hi : option nat) : bool :=
  match hi with Some h => bool_decide (n < h) | None => true end.

Definition progress (st st' : cursor) : bool :=
  bool_decide (length (after st') < length (after st)).

Definition orelse {A} (x y : option A) : option A :=
  match x with Some a => Some a | None => y end.

(** The iterations of a greedy repetition: one more if the bound allows
    it and the rest matches then; otherwise stop here if the lower bound
    is reached.  [fuel] bounds the iterations by the characters left. *)
Fixpoint iterate (body : cursor → (cursor → option cursor) → option cursor)
    (lo : nat) (hi : option nat) (k : cursor → option cursor)
    (fuel n : nat) (st : cursor) : option cursor :=
  let stop := if bool_decide (lo ≤ n) then k st else None in
  match fuel with
  | 0 => stop
  | S fuel =>
      if below n hi then
        orelse (body st (λ st', if progress st st'
                                then iterate body lo hi k fuel (S n) st'
                                else None))
               stop
      else stop
  end.

(** A look-behind holds where its pattern does not end. *)
Definition ends_here (st st' : cursor) : option cursor :=
  if bool_decide (length (after st') = length (after st)) then Some st' else None.

Fixpoint backtrack (r : regex) (st : cursor) (k : cursor → option cursor)
    : option cursor :=
  match r with
  | Empty => k st
  | Chars p =>
      match after st with
      | c :: rest =>
          if p c then k (Cursor (c :: before st) rest (group st)) else None
      | [] => None
      end
  | Seq r1 r2 => backtrack r1 st (λ st1, backtrack r2 st1 k)
  | Alt r1 r2 => orelse (backtrack r1 st k) (backtrack r2 st k)
  | Repeat lo hi r => iterate (backtrack r) lo hi k (length (after st)) 0 st
  | Group r =>
      backtrack r st (λ st', k (Cursor (before st') (after st') (Some (captured st st'))))
  | Boundary => if at_boundary st then k st else None
  | Start => match before st with [] => k st | _ => None end
  | NotBehind r =>
      match width r with
      | Some w =>
          if bool_decide (w ≤ length (before st)) then
            match backtrack r (retreat w st) (ends_here st) with
            | Some _ => None
            | None => k st
            end
          else k st
      | None => None
      end
  end.

(** The cursor at which a search starts: no group yet. *)
Definition start_at (prev s : text) : cursor := Cursor prev s None.

(** A match that starts after [prev] and before [s]: where it ends. *)
Definition match_at (r : regex) (prev s : text) : option cursor :=
  backtrack r (start_at prev s) Some.

(** Whether the pattern has a group. *)
Fixpoint has_group (r : regex) : bool :=
  match r with
  | Group _ => true
  | Seq r1 r2 | Alt r1 r2 => has_group r1 || has_group r2
  | Repeat _ _ r | NotBehind r => has_group r
  | _ => false
  end.

(** What [findall] reports of a match: if the pattern has a group, what
    the group captured, the empty string if it took no part in the match;
    the whole match if the pattern has no group. *)
Definition reported (r : regex) (prev s : text) (st' : cursor) : text :=
  if has_group r then default [] (group st')
  else captured (start_at prev s) st'.

(** [re.findall(r, s)]: the matches from left to right, each search
    starting where the match before it ended.  [skip] counts the
    characters still inside the last match. *)
Fixpoint findall_from (r : regex) (prev : text) (s : text) (skip : nat)
    : list text :=
  match s with
  | [] => []
  | c :: rest =>
      match skip with
      | S n => findall_from r (c :: prev) rest n
      | 0 =>
          match match_at r prev s with
          | Some st' =>
              match length (before st') - length prev with
              | S n => reported r prev s st' :: findall_from r (c :: prev) rest n
              | 0 => findall_from r (c :: prev) rest 0
              end
          | None => findall_from r (c :: prev) rest 0
          end
      end
  end.

Definition findall (r : regex) (s : text) : list text := findall_from r [] s 0.

(** Whether a pattern may match the empty string. *)
Fixpoint nullable (r : regex) : bool :=
  match r with
  | Empty | Boundary | Start | NotBehind _ => true
  | Chars _ => false
  | Seq r1 r2 => nullable r1 && nullable r2
  | Alt r1 r2 => nullable r1 || nullable r2
  | Repeat lo _ r => bool_decide (lo = 0) || nullable r
  | Group r => nullable r
  end.

(** Whether every match of the pattern sets the group. *)
Fixpoint sets_group (r : regex) : bool :=
  match r with
  | Group _ => true
  | Seq r1 r2 => sets_group r1 || sets_group r2
  | Alt r1 r2 => sets_group r1 && sets_group r2
  | Repeat lo _ r => bool_decide (0 < lo) && sets_group r
  | _ => false
  end.

(** ** Writing patterns *)

Definition lit (c : ascii) : regex := Chars (λ x, bool_decide (x = c)).

Definition one_of (s : text) (c : ascii) : bool := bool_decide (c ∈ s).

Definition plus (r : regex) : regex := Repeat 1 None r.
Definition star (r : regex) : regex := Repeat 0 None r.
Definition opt (r : regex) : regex := Repeat 0 (Some 1) r.

Definition seq (rs : list regex) : regex := foldr Seq Empty rs.

Definition str (s : text) : regex := seq (lit <$> s).

(** ** What a match is *)

(** [n] iterations, each reading something. *)
Fixpoint iter (R : cursor → cursor → Prop) (n : nat) (st st' : cursor) : Prop :=
  match n with
  | 0 => st' = st
  | S n => ∃ st1, R st st1 ∧ progress st st1 ∧ iter R n st1 st'
  end.

Fixpoint matches (r : regex) (st st' : cursor) : Prop :=
  match r with
  | Empty => st' = st
  | Chars p =>
      ∃ c rest, after st = c :: rest ∧ p c
                ∧ st' = Cursor (c :: before st) rest (group st)
  | Seq r1 r2 => ∃ st1, matches r1 st st1 ∧ matches r2 st1 st'
  | Alt r1 r2 => matches r1 st st' ∨ matches r2 st st'
  | Repeat lo hi r =>
      ∃ n, lo ≤ n ∧ (∀ h, hi = Some h → n ≤ h) ∧ iter (matches r) n st st'
  | Group r =>
      ∃ st1, matches r st st1
             ∧ st' = Cursor (before st1) (after st1) (Some (captured st st1))
  | Boundary => at_boundary st ∧ st' = st
  | Start => before st = [] ∧ st' = st
  | NotBehind r =>
      st' = st
      ∧ ∃ w, width r = Some w
             ∧ (w ≤ length (before st) →
                ¬ ∃ st1, matches r (retreat w st) st1
                         ∧ length (after st1) = length (after st))
  end.

(** [x] is what lies between [st] and [st']. *)
Definition spans (x : text) (st st' : cursor) : Prop :=
  after st = x ++ after st' ∧ before st' = reverse x ++ before st.

(** What a pattern can read, whatever stands around it. *)
Fixpoint shape (r : regex) (x : text) : Prop :=
  match r with
  | Empty | Boundary | Start | NotBehind _ => x = []
  | Chars p => ∃ c, x = [c] ∧ p c
  | Seq r1 r2 => ∃ x1 x2, x = x1 ++ x2 ∧ shape r1 x1 ∧ shape r2 x2
  | Alt r1 r2 => shape r1 x ∨ shape r2 x
  | Repeat lo hi r =>
      ∃ xs, x = mjoin xs ∧ lo ≤ length xs ∧ (∀ h, hi = Some h → length xs ≤ h)
            ∧ Forall (shape r) xs
  | Group r => shape r x
  end.

(** What the group of a pattern can capture. *)
Fixpoint captures (r : regex) (g : text) : Prop :=
  match r with
  | Group r => shape r g
  | Seq r1 r2 | Alt r1 r2 => captures r1 g ∨ captures r2 g
  | Repeat _ _ r => captures r g
  | _ => False
  end.

(** [x] is what [findall] reports of a match of [r] somewhere in [s],
    where [prev] is the text before [s]. *)
Definition occurs (r : regex) (prev s : text) (x : text) : Prop :=
  ∃ pre post st',
    s = pre ++ post
    ∧ matches r (start_at (reverse pre ++ prev) post) st'
    ∧ x = reported r (reverse pre ++ prev) post st'.

(** A matcher finds only matches of [R], and finds one if there is one. *)
Definition sound (R : cursor → cursor → Prop)
    (body : cursor → (cursor → option cursor) → option cursor) : Prop :=
  ∀ st k out, body st k = Some out → ∃ st', R st st' ∧ k st' = Some out.

Definition complete (R : cursor → cursor → Prop)
    (body : cursor → (cursor → option cursor) → option cursor) : Prop :=
  ∀ st st' k, R st st' → is_Some (k st') → is_Some (body st k).

(** * Facts *)

Lemma orelse_Some {A} (x y : option A) a :
  orelse x y = Some a → x = Some a ∨ (x = None ∧ y = Some a).
Proof. destruct x; simpl; auto. Qed.

Lemma orelse_is_Some {A} (x y : option A) :
  is_Some x ∨ is_Some y → is_Some (orelse x y).
Proof. destruct x; simpl; [eauto|]. by intros [[? [=]]|?]. Qed.

(** ** Repetition *)

Section iterate.
Context (R : cursor → cursor → Prop).
Context (body : cursor → (cursor → option cursor) → option cursor).
Context (lo : nat) (hi : option nat) (k : cursor → option cursor).

Lemma iterate_stop n st out :
  (if bool_decide (lo ≤ n) then k st else None) = Some out →
  (∀ h, hi = Some h → n ≤ h) →
  ∃ m st', iter R m st st' ∧ lo ≤ n + m ∧ (∀ h, hi = Some h → n + m ≤ h)
           ∧ k st' = Some out.
Proof.
  case_bool_decide; [|done]. intros Hk Hn. exists 0, st.
  rewrite Nat.add_0_r. done.
Qed.

Lemma iterate_sound fuel n st out :
  sound R body →
  iterate body lo hi k fuel n st = Some out →
  (∀ h, hi = Some h → n ≤ h) →
  ∃ m st', iter R m st st' ∧ lo ≤ n + m ∧ (∀ h, hi = Some h → n + m ≤ h)
           ∧ k st' = Some out.
Proof.
  intros Hbody. revert n st. induction fuel as [|fuel IH]; intros n st; simpl.
  { by apply iterate_stop. }
  destruct (below n hi) eqn:Hb; [|by apply iterate_stop].
  intros [Hrun|[_ Hstop]]%orelse_Some Hn; [|by apply iterate_stop].
  apply Hbody in Hrun as (st1 & HR & Hk).
  destruct (progress st st1) eqn:Hp; [|done].
  apply IH in Hk as (m & st' & Hit & Hlo & Hhi & Hk).
  - exists (S m), st'. rewrite Nat.add_succ_r. split_and!; [|done..].
    exists st1. by rewrite Hp.
  - intros h ->. simpl in Hb. apply bool_decide_eq_true in Hb. lia.
Qed.

(** As many units of fuel as there are characters left are enough. *)
Lemma iterate_complete m : ∀ fuel n st st',
  complete R body →
  iter R m st st' → lo ≤ n + m → (∀ h, hi = Some h → n + m ≤ h) →
  length (after st) ≤ fuel → is_Some (k st') →
  is_Some (iterate body lo hi k fuel n st).
Proof.
  induction m as [|m IH]; intros fuel n st st' Hbody Hit Hlo Hhi Hfuel Hk.
  - simpl in Hit. subst st'. rewrite Nat.add_0_r in Hlo.
    destruct fuel; simpl; rewrite bool_decide_eq_true_2 by done; [done|].
    destruct (below n hi); [|done]. apply orelse_is_Some. by right.
  - destruct Hit as (st1 & HR & Hp & Hit).
    pose proof Hp as Hp'. apply bool_decide_unpack in Hp'.
    destruct fuel as [|fuel]; [lia|]. simpl.
    assert (below n hi = true) as ->.
    { destruct hi as [h|]; [|done]. apply bool_decide_eq_true.
      specialize (Hhi h eq_refl). lia. }
    apply orelse_is_Some. left. eapply Hbody; [done|].
    rewrite (Is_true_eq_true _ Hp). eapply IH; eauto with lia.
    intros h Hh. specialize (Hhi h Hh). lia.
Qed.

End iterate.

(** ** The matcher finds a match exactly when there is one *)

Definition correct (r : regex) : Prop :=
  sound (matches r) (backtrack r) ∧ complete (matches r) (backtrack r).

Lemma correct_Chars p : correct (Chars p).
Proof.
  split.
  - intros st k out. simpl. destruct (after st) as [|c rest] eqn:E; [done|].
    destruct (p c) eqn:Hp; [|done]. intros Hk. eexists. split; [|done].
    exists c, rest. by rewrite Hp.
  - intros st st' k (c & rest & E & Hp & ->) Hk. simpl. rewrite E.
    by rewrite (Is_true_eq_true _ Hp).
Qed.

Lemma correct_Seq r1 r2 : correct r1 → correct r2 → correct (Seq r1 r2).
Proof.
  intros [Hs1 Hc1] [Hs2 Hc2]. split.
  - intros st k out (st1 & H1 & (st2 & H2 & Hk)%Hs2)%Hs1.
    exists st2. split; [by exists st1|done].
  - intros st st' k (st1 & H1 & H2) Hk. simpl. eapply Hc1; [done|]. by eapply Hc2.
Qed.

Lemma correct_Alt r1 r2 : correct r1 → correct r2 → correct (Alt r1 r2).
Proof.
  intros [Hs1 Hc1] [Hs2 Hc2]. split.
  - intros st k out [Hr|[_ Hr]]%orelse_Some.
    + apply Hs1 in Hr as (st' & ? & ?). exists st'. split; [by left|done].
    + apply Hs2 in Hr as (st' & ? & ?). exists st'. split; [by right|done].
  - intros st st' k [H1|H2] Hk; simpl; apply orelse_is_Some;
      [left; by eapply Hc1|right; by eapply Hc2].
Qed.

Lemma correct_Repeat lo hi r : correct r → correct (Repeat lo hi r).
Proof.
  intros [S C]. split.
  - intros st k out Hr. simpl in Hr.
    eapply iterate_sound in Hr as (m & st' & Hit & Hlo & Hhi & Hk); [|done|lia].
    exists st'. split; [|done]. by exists m.
  - intros st st' k (m & Hlo & Hhi & Hit) Hk. simpl.
    by eapply (iterate_complete _ _ _ _ _ m).
Qed.

Lemma correct_Group r : correct r → correct (Group r).
Proof.
  intros [S C]. split.
  - intros st k out (st1 & H1 & Hk)%S. eexists. split; [|done]. by exists st1.
  - intros st st' k (st1 & H1 & ->) Hk. simpl. by eapply C.
Qed.

Lemma correct_NotBehind r : correct r → correct (NotBehind r).
Proof.
  intros [S C]. split.
  - intros st k out. simpl. destruct (width r) as [w|] eqn:Hw; [|done].
    case_bool_decide as Hlen.
    + destruct (backtrack r _ _) eqn:Hr; [done|]. intros Hk. exists st.
      split; [|done]. split; [done|]. exists w. split; [done|].
      intros _ (st1 & H1 & Hl).
      destruct (C (retreat w st) st1 (ends_here st)) as [? Hx]; [done| |].
      * unfold ends_here. by rewrite bool_decide_eq_true_2.
      * by rewrite Hx in Hr.
    + intros Hk. exists st. split; [|done]. split; [done|]. exists w. split; [done|lia].
  - intros st st' k (-> & w & Hw & Hno) Hk. simpl. rewrite Hw.
    case_bool_decide as Hlen; [|done].
    destruct (backtrack r _ _) eqn:Hr; [|done].
    apply S in Hr as (st1 & H1 & Hx). unfold ends_here in Hx.
    case_bool_decide; [|done]. destruct (Hno Hlen). by exists st1.
Qed.

Lemma backtrack_correct r : correct r.
Proof.
  induction r; auto using correct_Chars, correct_Seq, correct_Alt,
    correct_Repeat, correct_Group, correct_NotBehind.
  - split; [intros st k out Hk; by exists st|by intros st st' k -> Hk].
  - split.
    + intros st k out. simpl. destruct (at_boundary st) eqn:E; [|done].
      intros Hk. by exists st.
    + intros st st' k [Hb ->] Hk. simpl. by rewrite (Is_true_eq_true _ Hb).
  - split.
    + intros st k out. simpl. destruct (before st) eqn:E; [|done].
      intros Hk. by exists st.
    + intros st st' k [Hb ->] Hk. simpl. by rewrite Hb.
Qed.

Lemma match_at_Some r prev s st' :
  match_at r prev s = Some st' → matches r (start_at prev s) st'.
Proof.
  intros Hr. destruct (backtrack_correct r) as [S _].
  by apply S in Hr as (st1 & H1 & [= ->]).
Qed.

Lemma match_at_None r prev s st' :
  match_at r prev s = None → ¬ matches r (start_at prev s) st'.
Proof.
  intros Hr Hm. destruct (backtrack_correct r) as [_ C].
  destruct (C _ _ Some Hm) as [? Hx]; [done|].
  unfold match_at in Hr. by rewrite Hx in Hr.
Qed.

(** ** What a match reads *)

Lemma spans_nil st : spans [] st st.
Proof. by split. Qed.

Lemma spans_app x y st1 st2 st3 :
  spans x st1 st2 → spans y st2 st3 → spans (x ++ y) st1 st3.
Proof.
  intros [Ha Hb] [Ha' Hb']. split.
  - by rewrite Ha, Ha', (assoc_L (++)).
  - by rewrite Hb', Hb, reverse_app, (assoc_L (++)).
Qed.

Lemma spans_length x st st' :
  spans x st st' → length (after st) = length x + length (after st')
                   ∧ length (before st') = length x + length (before st).
Proof.
  intros [-> ->]. by rewrite !length_app, length_reverse.
Qed.

Lemma spans_captured x st st' : spans x st st' → captured st st' = x.
Proof.
  intros Hs. unfold captured. destruct (spans_length _ _ _ Hs) as [_ ->].
  destruct Hs as [_ ->]. replace (length x + _ - _) with (length (reverse x))
    by (rewrite length_reverse; lia).
  by rewrite take_app_length, reverse_involutive.
Qed.

Lemma spans_progress x st st' : spans x st st' → progress st st' → x ≠ [].
Proof.
  intros Hs Hp%bool_decide_unpack. destruct (spans_length _ _ _ Hs) as [Hl _].
  intros ->. simpl in Hl. lia.
Qed.

Lemma iter_spans (R : cursor → cursor → Prop) n st st' :
  (∀ st st', R st st' → ∃ x, spans x st st') →
  iter R n st st' → ∃ x, spans x st st'.
Proof.
  intros HR. revert st. induction n as [|n IH]; intros st; simpl.
  - intros ->. exists []. apply spans_nil.
  - intros (st1 & [x Hx]%HR & _ & [y Hy]%IH). exists (x ++ y). by eapply spans_app.
Qed.

(** A match reads a piece of the text and leaves the rest as it is. *)
Lemma matches_spans r st st' : matches r st st' → ∃ x, spans x st st'.
Proof.
  revert st st'.
  induction r as [|p|r1 IH1 r2 IH2|r1 IH1 r2 IH2|lo hi r IH|r IH| | |r IH];
    intros st st'; simpl.
  - intros ->. exists []. apply spans_nil.
  - intros (c & rest & E & _ & ->). exists [c]. by split.
  - intros (st1 & [x Hx]%IH1 & [y Hy]%IH2). exists (x ++ y). by eapply spans_app.
  - intros [?|?]; eauto.
  - intros (n & _ & _ & Hit). by eapply iter_spans.
  - intros (st1 & [x Hx]%IH & ->). exists x. done.
  - intros [_ ->]. exists []. apply spans_nil.
  - intros [_ ->]. exists []. apply spans_nil.
  - intros [-> _]. exists []. apply spans_nil.
Qed.

Lemma matches_shorter r st st' :
  matches r st st' → length (after st') ≤ length (after st).
Proof. intros [x [-> _]%spans_length]%matches_spans. lia. Qed.

(** A pattern that is not [nullable] reads at least one character. *)
Lemma matches_progress r st st' :
  nullable r = false → matches r st st' → progress st st'.
Proof.
  revert st st'.
  induction r as [|p|r1 IH1 r2 IH2|r1 IH1 r2 IH2|lo hi r IH|r IH| | |r IH];
    intros st st'; simpl; try done.
  - intros _ (c & rest & E & _ & ->). apply bool_decide_pack. rewrite E. simpl. lia.
  - intros Hn (st1 & H1 & H2).
    pose proof (matches_shorter _ _ _ H1). pose proof (matches_shorter _ _ _ H2).
    apply andb_false_iff in Hn as [Hn|Hn];
      [apply (IH1 _ _ Hn) in H1|apply (IH2 _ _ Hn) in H2];
      apply bool_decide_unpack in H1 || apply bool_decide_unpack in H2;
      apply bool_decide_pack; lia.
  - intros [Hn1 Hn2]%orb_false_iff [?|?]; eauto.
  - intros [Hlo Hn]%orb_false_iff (n & Hle & _ & Hit).
    apply bool_decide_eq_false in Hlo. destruct n as [|n]; [lia|].
    destruct Hit as (st1 & H1 & Hp & Hit).
    destruct (iter_spans _ _ _ _ (matches_spans r) Hit) as [y [Hy _]%spans_length].
    apply bool_decide_unpack in Hp. apply bool_decide_pack. lia.
  - intros Hn (st1 & H1 & ->). exact (IH _ _ Hn H1).
Qed.

(** ** [findall] *)

Lemma occurs_cons r prev c s x : occurs r (c :: prev) s x → occurs r prev (c :: s) x.
Proof.
  intros (pre & post & st' & -> & Hm & ->). exists (c :: pre), post, st'.
  by rewrite reverse_cons, <- (assoc_L (++)).
Qed.

(** Every string [findall] returns is reported of a match in the text. *)
Lemma findall_from_occurs r s : ∀ prev skip x,
  x ∈ findall_from r prev s skip → occurs r prev s x.
Proof.
  induction s as [|c s IH]; intros prev skip x; simpl; [by intros ?%elem_of_nil|].
  destruct skip as [|n]; [|by intros ?%IH%occurs_cons].
  destruct (match_at _ _ _) as [st'|] eqn:Hm; [|by intros ?%IH%occurs_cons].
  destruct (length (before st') - length prev); [by intros ?%IH%occurs_cons|].
  intros [->|?%IH%occurs_cons]%elem_of_cons; [|done].
  exists [], (c :: s), st'. split_and!; [done| |done]. by apply match_at_Some in Hm.
Qed.

Lemma matches_at_end r prev st' :
  nullable r = false → ¬ matches r (start_at prev []) st'.
Proof.
  intros Hn Hm%matches_progress; [|done].
  apply bool_decide_unpack in Hm. simpl in Hm. lia.
Qed.

(** For a pattern that does not match the empty string, [findall] finds
    nothing only if the pattern matches nowhere in the text. *)
Lemma findall_from_nil r s : ∀ prev pre post st',
  nullable r = false → findall_from r prev s 0 = [] → s = pre ++ post →
  ¬ matches r (start_at (reverse pre ++ prev) post) st'.
Proof.
  induction s as [|c s IH]; intros prev pre post st' Hn.
  { intros _ [-> ->]%eq_sym%app_eq_nil. by apply matches_at_end. }
  simpl. destruct (match_at _ _ _) as [st1|] eqn:Hm.
  - apply match_at_Some in Hm.
    pose proof (matches_progress _ _ _ Hn Hm) as Hp.
    destruct (matches_spans _ _ _ Hm) as [x Hx].
    pose proof (spans_progress _ _ _ Hx Hp).
    destruct (spans_length _ _ _ Hx) as [_ Hl]. simpl in Hl. rewrite Hl.
    replace (length x + length prev - length prev) with (length x) by lia.
    by destruct x.
  - intros Hnil. destruct pre as [|c' pre]; simpl.
    + intros <-. by apply match_at_None.
    + intros [= <- ->]. rewrite reverse_cons, <- (assoc_L (++)). by apply IH.
Qed.

Lemma findall_nil r s pre post st' :
  nullable r = false → findall r s = [] → s = pre ++ post →
  ¬ matches r (start_at (reverse pre) post) st'.
Proof.
  intros Hn Hf Hs. rewrite <- (app_nil_r (reverse pre)). by eapply findall_from_nil.
Qed.

(** ** The shape of what is reported *)

Lemma iter_shape (R : cursor → cursor → Prop) (P : text → Prop) n : ∀ st st',
  (∀ st st', R st st' → ∃ x, spans x st st' ∧ P x) →
  iter R n st st' → ∃ xs, spans (mjoin xs) st st' ∧ length xs = n ∧ Forall P xs.
Proof.
  induction n as [|n IH]; intros st st' HR; simpl.
  - intros ->. exists []. split; [apply spans_nil|done].
  - intros (st1 & (x & Hx & HP)%HR & _ & (xs & Hxs & Hl & HF)%IH); [|done].
    exists (x :: xs). split_and!; [by eapply spans_app|by rewrite <- Hl|by constructor].
Qed.

Lemma matches_shape r : ∀ st st',
  matches r st st' → ∃ x, spans x st st' ∧ shape r x.
Proof.
  induction r as [|p|r1 IH1 r2 IH2|r1 IH1 r2 IH2|lo hi r IH|r IH| | |r IH];
    intros st st'; simpl.
  - intros ->. exists []. split; [apply spans_nil|done].
  - intros (c & rest & E & Hp & ->). exists [c]. split; [by split|by exists c].
  - intros (st1 & (x & Hx & ?)%IH1 & (y & Hy & ?)%IH2). exists (x ++ y).
    split; [by eapply spans_app|by exists x, y].
  - intros [(x & ? & ?)%IH1|(x & ? & ?)%IH2]; exists x; auto.
  - intros (n & Hlo & Hhi & (xs & Hxs & <- & HF)%(iter_shape _ (shape r))); [|done].
    exists (mjoin xs). split; [done|]. by exists xs.
  - intros (st1 & (x & Hx & ?)%IH & ->). by exists x.
  - intros [_ ->]. exists []. split; [apply spans_nil|done].
  - intros [_ ->]. exists []. split; [apply spans_nil|done].
  - intros [-> _]. exists []. split; [apply spans_nil|done].
Qed.

Lemma iter_group (R : cursor → cursor → Prop) (P : text → Prop) n : ∀ st st',
  (∀ st st', R st st' → group st' = group st ∨ ∃ g, group st' = Some g ∧ P g) →
  iter R n st st' → group st' = group st ∨ ∃ g, group st' = Some g ∧ P g.
Proof.
  induction n as [|n IH]; intros st st' HR; simpl; [by intros ->; left|].
  intros (st1 & H1%HR & _ & H2%IH); [|done].
  destruct H2 as [->|?]; auto.
Qed.

Lemma matches_group r : ∀ st st',
  matches r st st' →
  group st' = group st ∨ ∃ g, group st' = Some g ∧ captures r g.
Proof.
  induction r as [|p|r1 IH1 r2 IH2|r1 IH1 r2 IH2|lo hi r IH|r IH| | |r IH];
    intros st st'; simpl.
  - intros ->. by left.
  - intros (c & rest & E & Hp & ->). by left.
  - intros (st1 & H1%IH1 & H2%IH2).
    destruct H2 as [->|(g & ? & ?)]; [|right; exists g; auto].
    destruct H1 as [->|(g & ? & ?)]; [by left|right; exists g; auto].
  - intros [[?|(g & ? & ?)]%IH1|[?|(g & ? & ?)]%IH2]; auto; right; exists g; auto.
  - intros (n & _ & _ & Hit). by eapply iter_group.
  - intros (st1 & (x & Hx & ?)%matches_shape & ->). right.
    exists x. simpl. by rewrite (spans_captured x).
  - intros [_ ->]. by left.
  - intros [_ ->]. by left.
  - intros [-> _]. by left.
Qed.

(** What [findall] reports is what the group can capture, the empty
    string if the group took no part, or what a pattern without a group
    can read. *)
Lemma occurs_shape r prev s x :
  occurs r prev s x →
  if has_group r then captures r x ∨ x = [] else shape r x.
Proof.
  intros (pre & post & st' & _ & Hm & ->). unfold reported.
  destruct (has_group r).
  - destruct (matches_group _ _ _ Hm) as [Hg|(g & Hg & ?)]; rewrite Hg; simpl; auto.
  - destruct (matches_shape _ _ _ Hm) as (x & Hx & ?).
    by rewrite (spans_captured x).
Qed.

Lemma sets_group_has_group r : sets_group r → has_group r = true.
Proof.
  induction r as [|p|r1 IH1 r2 IH2|r1 IH1 r2 IH2|lo hi r IH|r IH| | |r IH];
    simpl; try done.
  - intros [?|?]%orb_True; [rewrite IH1|rewrite IH2]; by rewrite ?orb_true_r.
  - intros [? _]%andb_True. by rewrite IH1.
  - intros [_ ?]%andb_True. auto.
Qed.

Lemma matches_sets_group r : ∀ st st',
  sets_group r → matches r st st' → ∃ g, group st' = Some g ∧ captures r g.
Proof.
  induction r as [|p|r1 IH1 r2 IH2|r1 IH1 r2 IH2|lo hi r IH|r IH| | |r IH];
    intros st st'; simpl; try done.
  - intros Hs (st1 & H1 & H2).
    destruct (matches_group _ _ _ H2) as [Hg|(g & ? & ?)]; [|exists g; auto].
    apply orb_True in Hs as [Hs|Hs].
    + destruct (IH1 _ _ Hs H1) as (g & ? & ?). exists g. rewrite Hg. auto.
    + destruct (IH2 _ _ Hs H2) as (g & ? & ?). exists g. auto.
  - intros [Hs1 Hs2]%andb_True [H1|H2].
    + destruct (IH1 _ _ Hs1 H1) as (g & ? & ?). exists g. auto.
    + destruct (IH2 _ _ Hs2 H2) as (g & ? & ?). exists g. auto.
  - intros [Hlo%bool_decide_unpack Hs]%andb_True (n & Hn & _ & Hit).
    destruct n as [|n]; [lia|]. destruct Hit as (st1 & H1 & _ & Hit).
    destruct (IH _ _ Hs H1) as (g & Hg & ?).
    destruct (iter_group _ (captures r) _ _ _ (matches_group r) Hit)
      as [->|?]; [by exists g|done].
  - intros _ (st1 & (x & Hx & ?)%matches_shape & ->).
    exists x. simpl. by rewrite (spans_captured x).
Qed.

(** With a group that every match sets, [findall] reports the group. *)
Lemma occurs_captures r prev s x :
  sets_group r → occurs r prev s x → captures r x.
Proof.
  intros Hs (pre & post & st' & _ & Hm & ->). unfold reported.
  rewrite sets_group_has_group by done.
  destruct (matches_sets_group _ _ _ Hs Hm) as (g & -> & ?). done.
Qed.

(** Without a group, [findall] reports what the pattern read. *)
Lemma findall_shape r text x :
  has_group r = false → x ∈ findall r text → shape r x.
Proof.
  intros Hg Hx%findall_from_occurs%occurs_shape. by rewrite Hg in Hx.
Qed.

(** What is reported without a group is a piece of the text. *)
Lemma findall_factor r text x :
  has_group r = false → x ∈ findall r text →
  ∃ pre post, text = pre ++ x ++ post.
Proof.
  intros Hg (pre & post & st' & -> & Hm & ->)%findall_from_occurs.
  unfold reported. rewrite Hg. destruct (matches_spans _ _ _ Hm) as [x Hx].
  rewrite (spans_captured x) by done. destruct Hx as [Hx _]. simpl in Hx.
  exists pre, (after st'). by rewrite Hx.
Qed.

(** Repetitions of a character class. *)
Lemma shape_Repeat_Chars lo hi p x :
  shape (Repeat lo hi (Chars p)) x ↔
  lo ≤ length x ∧ (∀ h, hi = Some h → length x ≤ h) ∧ Forall p x.
Proof.
  simpl. split.
  - intros (xs & -> & Hlo & Hhi & HF).
    assert (length (mjoin xs) = length xs ∧ Forall p (mjoin xs)) as [-> ?]; [|done].
    clear Hlo Hhi. induction HF as [|x xs (c & -> & ?) _ [IH1 IH2]]; [done|].
    simpl. split; [by rewrite IH1|by constructor].
  - intros (Hlo & Hhi & HF). exists ((λ c, [c]) <$> x).
    rewrite length_fmap. split_and!; [|done..|].
    + clear. induction x as [|c x IH]; [done|]. simpl. by f_equal.
    + apply Forall_fmap. eapply Forall_impl; [done|]. intros c ?. by exists c.
Qed.

(** ** Building a match *)

Lemma matches_lit c st rest :
  after st = c :: rest →
  matches (lit c) st (Cursor (c :: before st) rest (group st)).
Proof. intros E. exists c, rest. split_and!; [done| |done]. by apply bool_decide_pack. Qed.

Lemma matches_str s : ∀ st rest,
  after st = s ++ rest →
  matches (str s) st (Cursor (reverse s ++ before st) rest (group st)).
Proof.
  induction s as [|c s IH]; intros st rest E.
  - simpl in *. destruct st. by simplify_eq/=.
  - exists (Cursor (c :: before st) (s ++ rest) (group st)).
    split; [by apply matches_lit|].
    rewrite reverse_cons, <- (assoc_L (++)). by apply (IH (Cursor _ _ _)).
Qed.

Lemma iter_Chars (p : ascii → bool) x : ∀ st rest,
  Forall (λ c, p c) x → after st = x ++ rest →
  iter (matches (Chars p)) (length x) st
    (Cursor (reverse x ++ before st) rest (group st)).
Proof.
  induction x as [|c x IH]; intros st rest Hx E.
  - simpl in *. destruct st. by simplify_eq/=.
  - apply Forall_cons in Hx as [Hc Hx].
    exists (Cursor (c :: before st) (x ++ rest) (group st)). split_and!.
    + by exists c, (x ++ rest).
    + apply bool_decide_pack. rewrite E. simpl. lia.
    + rewrite reverse_cons, <- (assoc_L (++)). by apply (IH (Cursor _ _ _)).
Qed.

Lemma matches_plus_Chars (p : ascii → bool) x st rest :
  x ≠ [] → Forall (λ c, p c) x → after st = x ++ rest →
  matches (plus (Chars p)) st (Cursor (reverse x ++ before st) rest (group st)).
Proof.
  intros Hne Hx E. exists (length x). split_and!; [by destruct x; simpl; [|lia]|done|].
  by apply iter_Chars.
Qed.

(** [findall] returns no more strings than the text has characters. *)
Lemma findall_from_length r s : ∀ prev skip,
  length (findall_from r prev s skip) ≤ length s.
Proof.
  induction s as [|c s IH]; intros prev skip; simpl; [done|].
  destruct skip; [|by etrans; [apply IH|lia]].
  destruct (match_at _ _ _); [|by etrans; [apply IH|lia]].
  destruct (_ - _); simpl; [by etrans; [apply IH|lia]|].
  specialize (IH (c :: prev) n). lia.
Qed.

(** ** What the search returns *)

(** The characters inside a match are passed over. *)
Lemma findall_from_skip r m : ∀ prev s,
  findall_from r prev (m ++ s) (length m) = findall_from r (reverse m ++ prev) s 0.
Proof.
  induction m as [|c m IH]; intros prev s; simpl; [by destruct s|].
  by rewrite IH, reverse_cons, <- (assoc_L (++)).
Qed.

(** A pattern that starts with a character is not looked for where that
    character cannot be. *)
Lemma findall_from_first p r pre : ∀ prev s,
  Forall (λ c, p c = false) pre →
  findall_from (Seq (Chars p) r) prev (pre ++ s) 0
  = findall_from (Seq (Chars p) r) (reverse pre ++ prev) s 0.
Proof.
  induction pre as [|c pre IH]; intros prev s Hpre; [done|].
  apply Forall_cons in Hpre as [Hc Hpre]. simpl. unfold match_at. simpl.
  by rewrite Hc, IH, reverse_cons, <- (assoc_L (++)).
Qed.

Lemma findall_first_nil p r s :
  Forall (λ c, p c = false) s → findall (Seq (Chars p) r) s = [].
Proof.
  intros Hs. unfold findall. rewrite <- (app_nil_r s) at 1.
  by rewrite findall_from_first.
Qed.

(** A match is reported, and the search goes on behind it. *)
Lemma findall_from_match r prev m s g :
  m ≠ [] → match_at r prev (m ++ s) = Some (Cursor (reverse m ++ prev) s g) →
  findall_from r prev (m ++ s) 0
  = (if has_group r then default [] g else m)
    :: findall_from r (reverse m ++ prev) s 0.
Proof.
  intros Hm E. destruct m as [|c m]; [done|]. simpl. simpl in E. rewrite E.
  unfold reported, captured. simpl.
  rewrite length_app, length_reverse. simpl.
  replace (S (length m + length prev) - length prev) with (S (length m)) by lia.
  rewrite take_app_length' by (rewrite length_reverse; simpl; lia).
  rewrite reverse_involutive, findall_from_skip.
  by rewrite reverse_cons, <- (assoc_L (++)).
Qed.

(** A greedy repetition of a character class takes the whole run when
    what follows accepts that. *)
Lemma iterate_Chars_run (p : ascii → bool) lo k out x : ∀ fuel n b rest g,
  Forall (λ c, p c) x →
  from_option p false (head rest) = false →
  lo ≤ n + length x → length x ≤ fuel →
  k (Cursor (reverse x ++ b) rest g) = Some out →
  iterate (backtrack (Chars p)) lo None k fuel n (Cursor b (x ++ rest) g)
  = Some out.
Proof.
  induction x as [|c x IH]; intros fuel n b rest g Hx Hrest Hlo Hfuel Hk.
  - simpl in *. rewrite Nat.add_0_r in Hlo.
    destruct fuel; simpl; rewrite bool_decide_eq_true_2 by done; [done|].
    destruct rest as [|c rest]; [done|]. simpl in Hrest. by rewrite Hrest.
  - apply Forall_cons in Hx as [Hc%Is_true_true Hx].
    destruct fuel; simpl in *; [lia|].
    rewrite Hc. unfold progress. simpl.
    rewrite bool_decide_eq_true_2 by lia.
    rewrite (IH fuel (S n) (c :: b) rest g); [done..|lia|lia|].
    by rewrite reverse_cons, <- (assoc_L (++)) in Hk.
Qed.

(** The same for the group [([...]+)]: it captures the run. *)
Lemma backtrack_group_run (p : ascii → bool) k out x b rest g :
  x ≠ [] → Forall (λ c, p c) x →
  from_option p false (head rest) = false →
  k (Cursor (reverse x ++ b) rest (Some x)) = Some out →
  backtrack (Group (plus (Chars p))) (Cursor b (x ++ rest) g) k = Some out.
Proof.
  intros Hne Hx Hrest Hk. simpl.
  apply iterate_Chars_run; [done..| |rewrite length_app; lia|].
  - destruct x; simpl; [done|lia].
  - unfold captured. simpl. rewrite length_app, length_reverse.
    replace (length x + length b - length b) with (length (reverse x)) by
      (rewrite length_reverse; lia).
    by rewrite take_app_length, reverse_involutive.
Qed.

(** A group that finds no character of its class fails. *)
Lemma backtrack_group_none (p : ascii → bool) k b c rest g :
  p c = false →
  backtrack (Group (plus (Chars p))) (Cursor b (c :: rest) g) k = None.
Proof. intros Hc. simpl. by rewrite Hc. Qed.

(** The first character of a pattern, read or refused. *)
Lemma backtrack_lit c r b rest g k :
  backtrack (Seq (lit c) r) (Cursor b (c :: rest) g) k
  = backtrack r (Cursor (c :: b) rest g) k.
Proof. simpl. by rewrite bool_decide_eq_true_2. Qed.

Lemma backtrack_Seq r1 r2 st k :
  backtrack (Seq r1 r2) st k = backtrack r1 st (λ st1, backtrack r2 st1 k).
Proof. done. Qed.

Lemma findall_from_miss r prev c s :
  match_at r prev (c :: s) = None →
  findall_from r prev (c :: s) 0 = findall_from r (c :: prev) s 0.
Proof. intros E. simpl. by rewrite E. Qed.

(** A pattern that starts with [c] is not found before the first [c]. *)
Lemma findall_from_lit c rs pre prev s :
  Forall (λ a, a ≠ c) pre →
  findall_from (seq (lit c :: rs)) prev (pre ++ s) 0
  = findall_from (seq (lit c :: rs)) (reverse pre ++ prev) s 0.
Proof.
  intros Hpre. apply (findall_from_first _ (seq rs)).
  eapply Forall_impl; [done|]. intros a Ha. by apply bool_decide_eq_false_2.
Qed.

Lemma findall_from_lit_nil c rs pre prev :
  Forall (λ a, a ≠ c) pre → findall_from (seq (lit c :: rs)) prev pre 0 = [].
Proof.
  intros Hpre. rewrite <- (app_nil_r pre) at 1. by rewrite findall_from_lit.
Qed.
