(* ===== verification/Entities.v ===== *)
(** * Variables and entities: [extract_variables] and [extract_entities]

    The eleven patterns of the two methods as [regex] values, [str.strip],
    and the two methods.  spaCy's recogniser is the interface
    [Recognizer]: absent ([None], the model could not be loaded) or a
    function from the text to its entities, each a label and a text.

    [list(set(l))] keeps one of each element of [l] in an order Python
    does not fix: the order is the interface [SetOrder], and the theorems
    hold for every order. *)

From S2P Require Import Prelude PyText Regex.

#[local] Open Scope text_scope.

(** ** [str.strip] *)

Fixpoint lstrip (s : text) : text :=
  match s with
  | c :: rest => if is_space c then lstrip rest else s
  | [] => []
  end.

Definition rstrip (s : text) : text := reverse (lstrip (reverse s)).

Definition py_strip (s : text) : text := rstrip (lstrip s).

(** ** The patterns *)

(** [[\w\s]] *)
Definition word_or_space (c : ascii) : bool := is_word c || is_space c.

(** [([\w\s]+)] *)
Definition variable_name : regex := Group (plus (Chars word_or_space)).

Definition variable_patterns : list regex := [
  seq [lit "{"; lit "{"; variable_name; lit "}"; lit "}"];
  seq [lit "{"; variable_name; lit "}"];
  seq [lit "%"; variable_name; lit "%"];
  seq [lit "$"; variable_name];
  seq [lit "<"; variable_name; lit ">"]
].

Definition digits (lo hi : nat) : regex := Repeat lo (Some hi) (Chars is_digit).

(** [\b\d{1,2}[/-]\d{1,2}[/-]\d{2,4}\b] *)
Definition dates_pattern : regex :=
  seq [Boundary; digits 1 2; Chars (one_of "/-"); digits 1 2;
       Chars (one_of "/-"); digits 2 4; Boundary].

(** [\b\d{1,2}:\d{2}\s*(?:AM|PM|am|pm)?\b] *)
Definition times_pattern : regex :=
  seq [Boundary; digits 1 2; lit ":"; digits 2 2; star (Chars is_space);
       opt (Alt (str "AM") (Alt (str "PM") (Alt (str "am") (str "pm"))));
       Boundary].

(** [[a-zA-Z0-9._%+-]+@[a-zA-Z0-9.-]+\.[a-zA-Z]{2,}] *)
Definition emails_pattern : regex :=
  seq [plus (Chars (λ c, is_alpha c || is_digit c || one_of "._%+-" c));
       lit "@";
       plus (Chars (λ c, is_alpha c || is_digit c || one_of ".-" c));
       lit ".";
       Repeat 2 None (Chars is_alpha)].

(** [\b\d{3}[-.]?\d{3}[-.]?\d{4}\b] *)
Definition phone_numbers_pattern : regex :=
  seq [Boundary; digits 3 3; opt (Chars (one_of "-.")); digits 3 3;
       opt (Chars (one_of "-.")); digits 4 4; Boundary].

(** [https?://[^\s]+] *)
Definition urls_pattern : regex :=
  seq [str "http"; opt (lit "s"); str "://"; plus (Chars (λ c, negb (is_space c)))].

(** [(?<!^)(?<!\.\s)\b[A-Z][a-z]+\b] *)
Definition names_pattern : regex :=
  seq [NotBehind Start; NotBehind (seq [lit "."; Chars is_space]); Boundary;
       Chars is_upper; plus (Chars is_lower); Boundary].

(** ** [list(set(l))] *)

(** The elements of [l], each once, in the order in which Python goes
    through the set.  The language does not fix that order, and for
    strings it changes from one run of the interpreter to the next. *)
Class SetOrder := {
  list_set : list text → list text;
  list_set_perm l : list_set l ≡ₚ remove_dups l;
}.

(** ** [extract_variables] *)

Section variables.
Context `{!SetOrder}.

Definition extract_variables (text : text) : list Prelude.text :=
  let variables :=
    foldl (λ variables pattern, variables ++ (py_strip <$> findall pattern text))
          [] variable_patterns in
  list_set variables.

End variables.

(** ** [extract_entities] *)

(** [self.nlp]: [None], or what [self.nlp(text).ents] holds: the label and
    the text of each entity. *)
Class Recognizer := {
  nlp : option (text → list (text * text));
}.

(** The dictionary the regular expressions fill. *)
Definition regex_entities (text : text) : list (Prelude.text * list Prelude.text) := [
  ("dates"%text, findall dates_pattern text);
  ("times"%text, findall times_pattern text);
  ("emails"%text, findall emails_pattern text);
  ("phone_numbers"%text, findall phone_numbers_pattern text);
  ("urls"%text, findall urls_pattern text);
  ("names"%text, findall names_pattern text)
].

(** One turn of [for ent in doc.ents]. *)
Definition add_entity (spacy_entities : list (text * list text))
    (ent : text * text) : list (text * list text) :=
  let label := lower ent.1 in
  let spacy_entities :=
    match items_lookup label spacy_entities with
    | None => items_set label [] spacy_entities
    | Some _ => spacy_entities
    end in
  items_set label (default [] (items_lookup label spacy_entities) ++ [ent.2])
    spacy_entities.

(** One turn of [for label, values in spacy_entities.items()]. *)
Definition merge_entity (entities : list (text * list text))
    (item : text * list text) : list (text * list text) :=
  match items_lookup item.1 entities with
  | Some found => items_set item.1 (found ++ item.2) entities
  | None => items_set item.1 item.2 entities
  end.

Section entities.
Context `{!SetOrder, !Recognizer}.

(** [for k in entities: entities[k] = list(set(entities[k]))] *)
Definition remove_duplicates (entities : list (text * list text))
    : list (text * list text) :=
  (λ item, (item.1, list_set item.2)) <$> entities.

Definition extract_entities (text : text) : list (Prelude.text * list Prelude.text) :=
  let entities := regex_entities text in
  match nlp with
  | Some recognize =>
      let spacy_entities := foldl add_entity [] (recognize text) in
      let entities := foldl merge_entity entities spacy_entities in
      remove_duplicates entities
  | None => entities
  end.

End entities.

(** The six categories of the regular expressions. *)
Definition categories : list text :=
  ["dates"; "times"; "emails"; "phone_numbers"; "urls"; "names"]%text.

(** The ends of a stripped text are no white space. *)
Definition stripped (s : text) : Prop :=
  ∀ c, head s = Some c ∨ last s = Some c → is_space c = false.

(** * Facts *)

(** ** [str.strip] *)

Lemma lstrip_suffix s : lstrip s `suffix_of` s.
Proof.
  induction s as [|c s IH]; simpl; [done|].
  destruct (is_space c); [by apply suffix_cons_r|done].
Qed.

Lemma lstrip_head s c : head (lstrip s) = Some c → is_space c = false.
Proof.
  induction s as [|a s IH]; simpl; [done|].
  destruct (is_space a) eqn:E; [done|]. by intros [= <-].
Qed.

Lemma rstrip_last s c : last (rstrip s) = Some c → is_space c = false.
Proof. unfold rstrip. rewrite last_reverse. apply lstrip_head. Qed.

Lemma rstrip_prefix s : rstrip s `prefix_of` s.
Proof.
  unfold rstrip. destruct (lstrip_suffix (reverse s)) as [pre E].
  exists (reverse pre). apply (inj reverse).
  by rewrite reverse_app, !reverse_involutive.
Qed.

Lemma rstrip_head s c :
  (∀ c, head s = Some c → is_space c = false) →
  head (rstrip s) = Some c → is_space c = false.
Proof.
  intros Hs Hc. apply Hs. destruct (rstrip_prefix s) as [post E].
  rewrite E. by destruct (rstrip s).
Qed.

Lemma py_strip_stripped s : stripped (py_strip s).
Proof.
  intros c [Hc|Hc].
  - eapply rstrip_head; [|done]. apply lstrip_head.
  - by eapply rstrip_last.
Qed.

Lemma py_strip_Forall (P : ascii → Prop) s : Forall P s → Forall P (py_strip s).
Proof.
  intros Hs. unfold py_strip.
  destruct (rstrip_prefix (lstrip s)) as [post E].
  destruct (lstrip_suffix s) as [pre E']. rewrite E', E in Hs.
  by apply Forall_app in Hs as [_ [? _]%Forall_app].
Qed.

(** ** [list(set(l))] *)

Section set_order.
Context `{!SetOrder}.

Lemma elem_of_list_set l x : x ∈ list_set l ↔ x ∈ l.
Proof. by rewrite list_set_perm, elem_of_remove_dups. Qed.

Lemma NoDup_list_set l : NoDup (list_set l).
Proof. rewrite list_set_perm. apply NoDup_remove_dups. Qed.

Lemma list_set_nil l : list_set l = [] ↔ l = [].
Proof.
  split.
  - intros E. destruct l as [|x l]; [done|].
    assert (x ∈ list_set (x :: l)) as Hx by (apply elem_of_list_set; by left).
    rewrite E in Hx. by apply elem_of_nil in Hx.
  - intros ->. apply Permutation_nil_r. by rewrite list_set_perm.
Qed.

End set_order.

(** ** [extract_variables] *)

Lemma elem_of_foldl_app {A B} (f : B → list A) (ps : list B) : ∀ init x,
  x ∈ foldl (λ acc p, acc ++ f p) init ps ↔ x ∈ init ∨ ∃ p, p ∈ ps ∧ x ∈ f p.
Proof.
  induction ps as [|p ps IH]; intros init x; simpl.
  - split; [auto|]. by intros [?|(p & ?%elem_of_nil & _)].
  - rewrite IH, elem_of_app. split.
    + intros [[?|?]|(q & ? & ?)]; [by left|right; exists p|right; exists q];
        split; auto; by constructor.
    + intros [?|(q & [->|?]%elem_of_cons & ?)]; eauto.
Qed.

Section variables_facts.
Context `{!SetOrder}.

Lemma elem_of_extract_variables text v :
  v ∈ extract_variables text ↔
  ∃ p x, p ∈ variable_patterns ∧ x ∈ findall p text ∧ v = py_strip x.
Proof.
  unfold extract_variables. rewrite elem_of_list_set, elem_of_foldl_app.
  split.
  - intros [?%elem_of_nil|(p & ? & (x & ? & ?)%list_elem_of_fmap)]; [done|].
    by exists p, x.
  - intros (p & x & ? & ? & ->). right. exists p. split; [done|].
    by apply list_elem_of_fmap_2.
Qed.

(** What the group of each of the five patterns captures. *)
Lemma variable_patterns_capture p x :
  p ∈ variable_patterns → captures p x → x ≠ [] ∧ Forall word_or_space x.
Proof.
  intros Hp Hc.
  assert (shape (plus (Chars word_or_space)) x) as (Hlo & _ & ?)%shape_Repeat_Chars.
  { unfold variable_patterns in Hp.
    repeat (apply elem_of_cons in Hp as [->|Hp]);
      [simpl in *; tauto..|by apply elem_of_nil in Hp]. }
  split; [|done]. intros ->. simpl in Hlo. lia.
Qed.

Lemma variable_patterns_sets_group p :
  p ∈ variable_patterns → sets_group p ∧ nullable p = false.
Proof.
  unfold variable_patterns. intros Hp.
  repeat (apply elem_of_cons in Hp as [->|Hp]); [done..|by apply elem_of_nil in Hp].
Qed.

(** A match of one of the patterns anywhere in the text gives a variable. *)
Lemma extract_variables_found p text pre post st' :
  p ∈ variable_patterns → text = pre ++ post →
  matches p (start_at (reverse pre) post) st' →
  extract_variables text ≠ [].
Proof.
  intros Hp Ht Hm. destruct (variable_patterns_sets_group p Hp) as [_ Hn].
  destruct (findall p text) as [|x xs] eqn:Hf.
  { by destruct (findall_nil p text pre post st' Hn Hf Ht). }
  assert (py_strip x ∈ extract_variables text) as Hin.
  { apply elem_of_extract_variables. exists p, x. rewrite Hf.
    split_and!; [done|by left|done]. }
  intros E. rewrite E in Hin. by apply elem_of_nil in Hin.
Qed.

Lemma matches_variable_name x st rest :
  x ≠ [] → Forall word_or_space x → after st = x ++ rest →
  ∃ st', matches variable_name st st' ∧ after st' = rest ∧ group st' = Some x.
Proof.
  intros Hne Hx E. eexists. split.
  - eexists. split; [by apply (matches_plus_Chars _ x st rest)|done].
  - split; [done|]. simpl. f_equal. apply spans_captured. by split.
Qed.

(** The variables [extract_variables] returns are pairwise distinct,
    have no white space at their ends, and consist of word characters and
    white space only. *)
Theorem extract_variables_clean text :
  NoDup (extract_variables text)
  ∧ Forall (λ v, stripped v ∧ Forall word_or_space v) (extract_variables text).
Proof.
  split; [apply NoDup_list_set|]. apply Forall_forall.
  intros v (p & x & Hp & Hx%findall_from_occurs & ->)%elem_of_extract_variables.
  split; [apply py_strip_stripped|]. apply py_strip_Forall.
  destruct (variable_patterns_sets_group p Hp) as [Hs _].
  by destruct (variable_patterns_capture p x Hp (occurs_captures _ _ _ _ Hs Hx)).
Qed.

(** A text with a placeholder [{{x}}] anywhere in it, [x] made of
    word characters and white space, has a variable. *)
Theorem extract_variables_placeholder pre x post :
  x ≠ [] → Forall word_or_space x →
  extract_variables (pre ++ "{{" ++ x ++ "}}" ++ post) ≠ [].
Proof.
  intros Hne Hx.
  destruct (matches_variable_name x
              (Cursor ("{"%char :: "{"%char :: reverse pre) (x ++ "}}" ++ post) None)
              ("}}" ++ post) Hne Hx eq_refl) as ([b a g] & Hm & Ha & Hg).
  simpl in Ha. subst a.
  eapply (extract_variables_found
            (seq [lit "{"; lit "{"; variable_name; lit "}"; lit "}"]) _ pre);
    [by left|done|].
  eexists. split; [by apply matches_lit|].
  eexists. split; [by apply matches_lit|].
  eexists. split; [done|].
  eexists. split; [by apply matches_lit|].
  eexists. split; [by apply matches_lit|]. done.
Qed.

(** C38: a dollar sign followed by a word character or white space is
    taken for a variable: a text that names an amount of money, such as
    ["$50"], has a variable. *)
Theorem extract_variables_dollar pre c post :
  word_or_space c → extract_variables (pre ++ "$" ++ c :: post) ≠ [].
Proof.
  intros Hc.
  destruct (matches_variable_name [c]
              (Cursor ("$"%char :: reverse pre) (c :: post) None) post)
    as (st' & Hm & _); [done|by constructor|done|].
  eapply (extract_variables_found (seq [lit "$"; variable_name]) _ pre);
    [by do 3 right; left|done|].
  eexists. split; [by apply matches_lit|].
  eexists. split; [done|]. done.
Qed.

End variables_facts.

(** ** A text with one placeholder *)

(** A character that opens no placeholder. *)
Definition plain (c : ascii) : bool := negb (one_of "{%$<" c).

Lemma word_or_space_plain c : word_or_space c → plain c.
Proof. destruct c as [[] [] [] [] [] [] [] []]; by vm_compute. Qed.

Lemma plain_ne c text :
  c ∈ "{%$<" → Forall plain text → Forall (λ a, a ≠ c) text.
Proof.
  intros Hc Ht. eapply Forall_impl; [done|]. intros a Ha ->. simpl in Ha.
  unfold plain, one_of in Ha. by rewrite bool_decide_eq_true_2 in Ha.
Qed.

Section placeholder.
Context (pre x post : text).
Context (Hne : x ≠ []) (Hx : Forall word_or_space x).
Context (Hpre : Forall plain pre) (Hpost : Forall plain post).

(** [{{x}}] is read by the first pattern as a whole. *)
Lemma match_double_braces prev :
  match_at (seq [lit "{"; lit "{"; variable_name; lit "}"; lit "}"]) prev
    (("{{" ++ x ++ "}}") ++ post)
  = Some (Cursor (reverse ("{{" ++ x ++ "}}") ++ prev) post (Some x)).
Proof.
  unfold match_at, start_at, seq. simpl foldr. simpl app.
  rewrite !backtrack_lit, backtrack_Seq, <- (assoc_L (++)).
  apply backtrack_group_run; [done..|]. simpl app. rewrite !backtrack_lit.
  simpl. by rewrite !reverse_cons, reverse_app, <- !(assoc_L (++)).
Qed.

(** [{x}] is read by the second. *)
Lemma match_braces prev :
  match_at (seq [lit "{"; variable_name; lit "}"]) prev (("{" ++ x ++ "}") ++ "}" ++ post)
  = Some (Cursor (reverse ("{" ++ x ++ "}") ++ prev) ("}" ++ post) (Some x)).
Proof.
  unfold match_at, start_at, seq. simpl foldr. simpl app.
  rewrite !backtrack_lit, backtrack_Seq, <- (assoc_L (++)).
  apply backtrack_group_run; [done..|]. simpl app. rewrite !backtrack_lit.
  simpl. by rewrite !reverse_cons, reverse_app, <- !(assoc_L (++)).
Qed.

(** The text: a placeholder between two plain parts. *)
Definition around : text := pre ++ ("{{" ++ x ++ "}}") ++ post.

Lemma findall_double_braces :
  findall (seq [lit "{"; lit "{"; variable_name; lit "}"; lit "}"]) around = [x].
Proof.
  unfold findall, around. rewrite findall_from_lit by by apply plain_ne; [left|].
  rewrite (findall_from_match _ _ _ _ (Some x)) by (done || apply match_double_braces).
  by rewrite findall_from_lit_nil by by apply plain_ne; [left|].
Qed.

Lemma findall_braces :
  findall (seq [lit "{"; variable_name; lit "}"]) around = [x].
Proof.
  unfold findall, around. rewrite findall_from_lit by by apply plain_ne; [left|].
  replace (("{{" ++ x ++ "}}") ++ post)
    with ("{"%char :: ("{" ++ x ++ "}") ++ "}" ++ post)
    by (simpl; by rewrite <- !(assoc_L (++))).
  rewrite findall_from_miss.
  - rewrite (findall_from_match _ _ _ _ (Some x)) by (done || apply match_braces).
    rewrite findall_from_lit_nil; [done|].
    constructor; [done|]. by apply plain_ne; [left|].
  - unfold match_at, start_at, seq. simpl foldr. simpl app.
    rewrite backtrack_lit, backtrack_Seq. by apply backtrack_group_none.
Qed.

Lemma findall_other c rs :
  c ∈ "%$<" → findall (seq (lit c :: rs)) around = [].
Proof.
  intros Hc. apply findall_from_lit_nil. unfold around.
  assert (Forall (λ a, a ≠ c) "{{" ∧ Forall (λ a, a ≠ c) "}}") as [? ?].
  { repeat (apply elem_of_cons in Hc as [->|Hc]);
      [by repeat constructor..|by apply elem_of_nil in Hc]. }
  assert (c ∈ "{%$<") by by right.
  repeat (apply Forall_app; split); try done; apply plain_ne; try done.
  eapply Forall_impl; [done|]. apply word_or_space_plain.
Qed.

End placeholder.

Section placeholder_variables.
Context `{!SetOrder}.

Lemma list_set_twice v : list_set [v; v] = [v].
Proof.
  apply Permutation_singleton_r. rewrite list_set_perm. simpl.
  destruct (decide_rel _ _ _) as [|Hn]; [done|]. destruct Hn. by left.
Qed.

(** A text with the placeholder [{{x}}], [x] made of word characters and
    white space, and no other character that opens a placeholder has one
    variable: [x] without the white space at its ends.  Both the pattern
    for [{{x}}] and the pattern for [{x}] find it, and the set keeps one. *)
Theorem extract_variables_exact pre x post :
  x ≠ [] → Forall word_or_space x → Forall plain pre → Forall plain post →
  extract_variables (pre ++ "{{" ++ x ++ "}}" ++ post) = [py_strip x].
Proof.
  intros Hne Hx Hpre Hpost.
  replace (pre ++ "{{" ++ x ++ "}}" ++ post) with (around pre x post)
    by (unfold around; simpl; by rewrite <- !(assoc_L (++))).
  unfold extract_variables, variable_patterns. cbn [foldl].
  rewrite findall_double_braces, findall_braces by done.
  rewrite !findall_other by (done || set_solver).
  apply list_set_twice.
Qed.

End placeholder_variables.

(** ** [extract_entities] *)

Lemma items_set_keys_prefix {V} key (v : V) d : d.*1 `prefix_of` (items_set key v d).*1.
Proof. rewrite items_set_keys. destruct (decide _); [done|]. by eexists. Qed.

Lemma merge_entity_keys entities item :
  entities.*1 `prefix_of` (merge_entity entities item).*1.
Proof. unfold merge_entity. destruct (items_lookup _ _); apply items_set_keys_prefix. Qed.

Lemma foldl_merge_entity_keys items : ∀ entities,
  entities.*1 `prefix_of` (foldl merge_entity entities items).*1.
Proof.
  induction items as [|item items IH]; intros entities; simpl; [done|].
  etrans; [apply merge_entity_keys|apply IH].
Qed.

Section entities_facts.
Context `{!SetOrder, !Recognizer}.

Lemma remove_duplicates_keys entities : (remove_duplicates entities).*1 = entities.*1.
Proof.
  unfold remove_duplicates. rewrite <- list_fmap_compose. by apply list_fmap_ext.
Qed.

Lemma remove_duplicates_NoDup entities :
  Forall (λ item, NoDup item.2) (remove_duplicates entities).
Proof.
  unfold remove_duplicates. apply Forall_fmap, Forall_true.
  intros item. simpl. apply NoDup_list_set.
Qed.

Lemma extract_entities_regex_only text :
  nlp = None → extract_entities text = regex_entities text.
Proof. unfold extract_entities. by intros ->. Qed.

(** The dictionary [extract_entities] returns starts with the six
    categories of the regular expressions, in their order, whether or not
    anything was found for them; without the recogniser these are all
    its keys. *)
Theorem extract_entities_categories text :
  categories `prefix_of` (extract_entities text).*1
  ∧ (nlp = None → (extract_entities text).*1 = categories).
Proof.
  unfold extract_entities. destruct nlp as [recognize|]; [|done].
  split; [|done]. rewrite remove_duplicates_keys.
  apply (foldl_merge_entity_keys _ (regex_entities text)).
Qed.

(** With the recogniser, no category lists a value twice. *)
Theorem extract_entities_no_duplicates text :
  nlp ≠ None → Forall (λ item, NoDup item.2) (extract_entities text).
Proof.
  unfold extract_entities. destruct nlp; [|done]. intros _.
  apply remove_duplicates_NoDup.
Qed.

End entities_facts.

(** ** What does not depend on the order of sets *)

(** The same key with the same values in some order. *)
Definition same_entry : relation (text * list text) :=
  λ x y, x.1 = y.1 ∧ x.2 ≡ₚ y.2.

(** The same keys in the same order, each with the same values in some
    order. *)
Definition same_entities : relation (list (text * list text)) :=
  Forall2 same_entry.

#[global] Instance same_entry_equivalence : Equivalence same_entry.
Proof.
  split; unfold same_entry.
  - by intros x.
  - intros x y [Hk Hv]. by rewrite Hk, Hv.
  - intros x y z [Hk Hv] [Hk' Hv']. by rewrite Hk, Hv.
Qed.

#[global] Instance same_entities_equivalence : Equivalence same_entities.
Proof. unfold same_entities. apply _. Qed.

(** The keys do not depend on the order. *)
#[global] Instance keys_proper : Proper (same_entities ==> (=)) (fmap (M:=list) fst).
Proof.
  intros d1 d2 Hd. induction Hd as [|x y d1 d2 [Hk _] _ IH]; simpl; [done|].
  by f_equal.
Qed.

(** The values of all keys together, up to their order. *)
#[global] Instance values_proper :
  Proper (same_entities ==> (≡ₚ)) (λ d, concat d.*2).
Proof.
  intros d1 d2 Hd. induction Hd as [|x y d1 d2 [_ Hv] _ IH]; simpl in *; [done|].
  by apply Permutation_app.
Qed.

(** Two orders give the same variables in some order. *)
Lemma extract_variables_order (o1 o2 : SetOrder) text :
  @extract_variables o1 text ≡ₚ @extract_variables o2 text.
Proof. unfold extract_variables. by rewrite !list_set_perm. Qed.

(** Two orders give the same entities, the values of a category in some
    order. *)
Lemma extract_entities_order (o1 o2 : SetOrder) `{!Recognizer} text :
  same_entities (@extract_entities o1 _ text) (@extract_entities o2 _ text).
Proof.
  unfold extract_entities. destruct nlp; [|reflexivity].
  unfold remove_duplicates. apply Forall2_fmap, Forall_Forall2_diag, Forall_true.
  intros item. split; [done|]. simpl. by rewrite !list_set_perm.
Qed.

(** ** What the patterns report *)

Lemma shape_digits lo hi x :
  shape (digits lo hi) x → lo ≤ length x ≤ hi ∧ Forall is_digit x.
Proof. intros (? & Hhi & ?)%shape_Repeat_Chars. specialize (Hhi hi eq_refl). done. Qed.

(** C21: every date [extract_entities] reports is one or two digits, a
    slash or a dash, one or two digits, a slash or a dash, and two to four
    digits. *)
Theorem dates_shape text x :
  x ∈ findall dates_pattern text →
  ∃ d1 s1 d2 s2 d3,
    x = d1 ++ [s1] ++ d2 ++ [s2] ++ d3
    ∧ Forall is_digit d1 ∧ Forall is_digit d2 ∧ Forall is_digit d3
    ∧ 1 ≤ length d1 ≤ 2 ∧ 1 ≤ length d2 ≤ 2 ∧ 2 ≤ length d3 ≤ 4
    ∧ s1 ∈ "/-" ∧ s2 ∈ "/-".
Proof.
  intros Hx%findall_shape; [|simpl; tauto].
  destruct Hx as (? & ? & -> & -> & d1 & ? & -> & [? ?]%shape_digits
                  & ? & ? & -> & (s1 & -> & Hs1%bool_decide_unpack)
                  & d2 & ? & -> & [? ?]%shape_digits
                  & ? & ? & -> & (s2 & -> & Hs2%bool_decide_unpack)
                  & d3 & ? & -> & [? ?]%shape_digits & ? & ? & -> & -> & ->).
  exists d1, s1, d2, s2, d3. by rewrite !app_nil_r.
Qed.

(** Every name reported is a capital letter followed by small letters. *)
Lemma names_shape text x :
  x ∈ findall names_pattern text →
  ∃ c rest, x = c :: rest ∧ is_upper c ∧ rest ≠ [] ∧ Forall is_lower rest.
Proof.
  intros Hx%findall_shape; [|simpl; tauto].
  destruct Hx as (? & ? & -> & -> & ? & ? & -> & -> & ? & ? & -> & ->
                  & ? & ? & -> & (c & -> & Hc)
                  & rest & ? & -> & (Hlo & _ & ?)%shape_Repeat_Chars
                  & ? & ? & -> & -> & ->).
  exists c, rest. rewrite !app_nil_r. split_and!; [done..| |done].
  intros ->. simpl in Hlo. lia.
Qed.

(** No pattern of [extract_entities] matches the empty string, so
    [findall] never has an empty match to report. *)
Lemma entity_patterns_not_nullable :
  Forall (λ r, nullable r = false)
    [dates_pattern; times_pattern; emails_pattern; phone_numbers_pattern;
     urls_pattern; names_pattern].
Proof. repeat constructor. Qed.

(** The word the text starts with is never reported as a name. *)
Lemma names_not_at_start text st' : ¬ matches names_pattern (start_at [] text) st'.
Proof. by intros (st1 & (_ & w & [= <-] & Hno) & _); destruct Hno; [simpl; lia|eexists]. Qed.

(** * Examples *)

(** The e-mail of the demonstration in [email_analyzer.py]. *)
Definition new_email : text :=
  "Hello Alex, Your appointment is confirmed for 03/10/2023 at 10:00 AM. Please arrive 15 minutes early.".

Definition regex_only : Recognizer := {| nlp := None |}.

(** The order in which [remove_dups] leaves the elements. *)
Definition demo_set_order : SetOrder :=
  {| list_set := remove_dups; list_set_perm l := reflexivity _ |}.

#[local] Existing Instance demo_set_order.

(** A recogniser that knows one person and one date. *)
Definition demo_recognizer : Recognizer :=
  {| nlp := Some (λ _, [("PERSON", "Alex"); ("DATE", "03/10/2023");
                       ("PERSON", "Alex")]) |}.

Example extract_entities_demo :
  @extract_entities _ regex_only new_email
  = [("dates", ["03/10/2023"]); ("times", ["10:00 AM"]); ("emails", []);
     ("phone_numbers", []); ("urls", []); ("names", ["Alex"; "Your"])].
Proof. vm_compute. reflexivity. Qed.

(** Without the recogniser a value found twice is listed twice, and a
    time keeps the white space that follows it. *)
Example extract_entities_regex_only_demo :
  @extract_entities _ regex_only "Write to a@b.co or a@b.co at 2:30 today"
  = [("dates", []); ("times", ["2:30 "]); ("emails", ["a@b.co"; "a@b.co"]);
     ("phone_numbers", []); ("urls", []); ("names", [])].
Proof. vm_compute. reflexivity. Qed.

Example extract_variables_demo :
  extract_variables "Dear {{name}}, order {id} is %status% for $amount <x>"
  = ["name"; "id"; "status"; "amount"; "x"]
  ∧ extract_variables new_email = []
  ∧ extract_variables "The fee is $50 today, 20% now and 80% later"
    = ["now and 80"; "50 today"].
Proof. vm_compute. done. Qed.

Lemma extract_variables_placeholder_witness :
  extract_variables ("Dear " ++ "{{" ++ "name" ++ "}}" ++ ", hello") ≠ [] ∧ True.
Proof.
  split; [|done]. apply (extract_variables_placeholder "Dear " "name" ", hello");
    [done|by repeat constructor].
Defined.

Lemma extract_variables_dollar_witness :
  extract_variables ("The fee is " ++ "$" ++ "5"%char :: "0 today") ≠ [] ∧ True.
Proof.
  split; [|done]. by apply (extract_variables_dollar "The fee is " "5"%char "0 today").
Defined.

Lemma extract_entities_no_duplicates_witness :
  Forall (λ item, NoDup item.2) (@extract_entities _ demo_recognizer new_email).
Proof. by apply (@extract_entities_no_duplicates _ demo_recognizer new_email). Defined.

Lemma dates_shape_witness :
  ∃ d1 s1 d2 s2 d3,
    "03/10/2023" = d1 ++ [s1] ++ d2 ++ [s2] ++ d3
    ∧ Forall is_digit d1 ∧ Forall is_digit d2 ∧ Forall is_digit d3
    ∧ 1 ≤ length d1 ≤ 2 ∧ 1 ≤ length d2 ≤ 2 ∧ 2 ≤ length d3 ≤ 4
    ∧ s1 ∈ "/-" ∧ s2 ∈ "/-".
Proof.
  apply (dates_shape new_email "03/10/2023").
  apply (bool_decide_unpack _). vm_compute. exact I.
Defined.
