(* ===== verification/Analyzer.v ===== *)
(** * The analyzer: state and operations of [EmailAnalyzer]

    The fields of [EmailAnalyzer] that change ([vectorizer], [model],
    [email_vectors], [emails], [learning_history]) are the record
    [analyzer]; [stop_words], [sentiment_analyzer] and [nlp] never change
    after [__init__] and are the interfaces in the context.  Each method is
    a computation of the monad [py analyzer], statement by statement: an
    assignment to a field is a [py_modify], a call that can raise is a
    [py_lift], and what a method changed before it raised stays changed.

    The cluster model is [None], a [KMeans] object that was created but not
    fitted ([KMeansNew], which is what [self.model] holds if [fit] raises
    between the assignment and the call), or a fitted one. *)

From S2P Require Import Prelude PyValue PyText Normalizer VectorSpace Ledger.

#[local] Open Scope py_scope.

Inductive kmeans (M : Type) :=
| KMeansNew (k : nat)
| KMeansFitted (m : M).
Arguments KMeansNew {M} k.
Arguments KMeansFitted {M} m.

Record analyzer (V M : Type) := Analyzer {
  vectorizer : V;
  model : option (kmeans M);
  email_vectors : option matrix;
  emails : option (list pyval);
  learning_history : list event;
}.
Arguments Analyzer {V M}.
Arguments vectorizer {V M} _.
Arguments model {V M} _.
Arguments email_vectors {V M} _.
Arguments emails {V M} _.
Arguments learning_history {V M} _.

(** What [get_learning_stats] returns; a key the dictionary lacks is
    [None]. *)
Record stats := Stats {
  total_events : nat;
  event_counts : option (list (text * nat));
  model_trained : bool;
  last_update : option timestamp;
  num_emails : option nat;
}.

Section analyzer.
Context {V M : Type}.
Context `{!Vectorizer V, !KMeansAlg M, !Tokenizer}.

Implicit Types (s : analyzer V M) (now : timestamp).

(** ** Assignments to the fields *)

Definition set_vectorizer (v : V) s : analyzer V M :=
  Analyzer v (model s) (email_vectors s) (emails s) (learning_history s).

Definition set_model (m : option (kmeans M)) s : analyzer V M :=
  Analyzer (vectorizer s) m (email_vectors s) (emails s) (learning_history s).

Definition set_email_vectors (X : option matrix) s : analyzer V M :=
  Analyzer (vectorizer s) (model s) X (emails s) (learning_history s).

Definition set_emails (es : option (list pyval)) s : analyzer V M :=
  Analyzer (vectorizer s) (model s) (email_vectors s) es (learning_history s).

(** [self.learning_history.append(e)] *)
Definition log (e : event) s : analyzer V M :=
  Analyzer (vectorizer s) (model s) (email_vectors s) (emails s)
    (learning_history s ++ [e]).

(** [self.emails.append(x)] *)
Definition append_email (x : pyval) s : analyzer V M :=
  set_emails ((λ es, es ++ [x]) <$> emails s) s.

(** ** [__init__], before the optional [load_model] *)

Definition new_analyzer : analyzer V M :=
  Analyzer vec_new None None None [].

(** ** [self.model = KMeans(n_clusters=k, random_state=42);
       self.model.fit(X)] *)

Definition train_model (k : nat) (X : matrix) : py (analyzer V M) unit :=
  _ <- py_modify (set_model (Some (KMeansNew k))) ;;
  m <- py_lift (kmeans_fit k X) ;;
  py_modify (set_model (Some (KMeansFitted m))).

(** ** [fit] *)

Definition fit (emails : list pyval) now : py (analyzer V M) unit :=
  _ <- py_modify (set_emails (Some emails)) ;;
  let processed_emails := preprocess_text <$> emails in
  s <- py_get ;;
  let '(v, X) := fit_transform (vectorizer s) processed_emails in
  _ <- py_modify (set_vectorizer v) ;;
  X <- py_lift X ;;
  _ <- py_modify (set_email_vectors (Some X)) ;;
  _ <- (if decide (5 ≤ length emails)
        then train_model (5 `min` length emails) X
        else py_ret tt) ;;
  py_modify (log (ModelTraining now (length emails))).

(** ** [learn_from_task] *)

Definition learn_from_task (task_data : pyval) now : py (analyzer V M) bool :=
  email_content <- py_lift (dict_get task_data "message"%text (PStr [])) ;;
  template <- py_lift (dict_get task_data "template"%text (PStr [])) ;;
  variables <- py_lift (dict_get task_data "variables"%text (PDict [])) ;;
  s <- py_get ;;
  if truthy email_content && bool_decide (emails s ≠ None) then
    _ <- py_modify (append_email email_content) ;;
    let processed_email := preprocess_text email_content in
    _ <- match email_vectors s with
         | Some X =>
             new_vector <- py_lift (transform (vectorizer s) [processed_email]) ;;
             X <- py_lift (vstack X new_vector) ;;
             _ <- py_modify (set_email_vectors (Some X)) ;;
             s <- py_get ;;
             let n := from_option length 0 (emails s) in
             if decide (5 ≤ n ∧ n `mod` 5 = 0)
             then train_model (5 `min` n) X
             else py_ret tt
         | None => py_ret tt
         end ;;
    task_id <- py_lift (dict_get task_data "_id"%text (PStr "unknown"%text)) ;;
    _ <- py_modify (log (TaskLearning now task_id (truthy template))) ;;
    py_ret true
  else py_ret false.

(** ** [get_learning_stats] *)

Definition get_learning_stats s : stats :=
  match learning_history s with
  | [] => Stats 0 None false None None
  | _ =>
      let event_counts := count_events (learning_history s) in
      let last_event := last (learning_history s) in
      Stats (length (learning_history s))
            (Some event_counts)
            (bool_decide (model s ≠ None))
            (event_time <$> last_event)
            (Some (from_option length 0 (emails s)))
  end.

(** ** The consistency invariant *)

(** The corpus and the matrix are there together, the matrix has one row
    per e-mail, its rows have its width, and the vectorizer is fitted with
    that width. *)
Definition consistent s : Prop :=
  match emails s, email_vectors s with
  | Some es, Some X =>
      nrows X = length es ∧ matrix_wf X ∧ vec_width (vectorizer s) = Some (ncols X)
  | None, None => True
  | _, _ => False
  end.

#[global] Instance consistent_dec s : Decision (consistent s).
Proof. unfold consistent. destruct (emails s), (email_vectors s); apply _. Defined.

(** Whether the cluster model was fitted on the matrix as it is now. *)
Definition model_fresh s : Prop :=
  match model s, email_vectors s with
  | Some (KMeansFitted m), Some X => length (labels m) = nrows X
  | _, _ => False
  end.

(** The size of the corpus, 0 without one. *)
Definition corpus_size s : nat := from_option length 0 (emails s).

End analyzer.

(** ** What [learn_from_task] reads from a task dictionary *)

Definition message_of (d : list (text * pyval)) : pyval :=
  default (PStr []) (items_lookup "message"%text d).

Definition template_of (d : list (text * pyval)) : pyval :=
  default (PStr []) (items_lookup "template"%text d).

Definition task_id_of (d : list (text * pyval)) : pyval :=
  default (PStr "unknown"%text) (items_lookup "_id"%text d).

(** ** The specification of [learn_from_task]

    In a consistent state a call goes one of three ways: the task data is
    no dictionary and [.get] raises; there is nothing to learn from and
    the state stays as it is; or the message joins the corpus, its vector
    joins the matrix, the model is retrained if the corpus size became a
    multiple of five, and the event is logged. *)

Section learn_spec.
Context {V M : Type}.
Context `{!Vectorizer V, !KMeansAlg M, !Tokenizer}.

Inductive learn_path (task_data : pyval) (now : timestamp) (s : analyzer V M)
    : analyzer V M → outcome bool → Prop :=
| learn_path_not_dict :
    (∀ d, task_data ≠ PDict d) →
    learn_path task_data now s s (Exc AttributeError)
| learn_path_refuses d :
    task_data = PDict d →
    truthy (message_of d) = false ∨ emails s = None →
    learn_path task_data now s s (Ret false)
| learn_path_learns d es X R X' mdl :
    task_data = PDict d →
    truthy (message_of d) = true →
    emails s = Some es → email_vectors s = Some X →
    transform (vectorizer s) [preprocess_text (message_of d)] = Ret R →
    vstack X R = Ret X' →
    (if decide ((length es + 1) `mod` 5 = 0)
     then ∃ m, kmeans_fit 5 X' = Ret m ∧ mdl = Some (KMeansFitted m)
     else mdl = model s) →
    learn_path task_data now s
      (Analyzer (vectorizer s) mdl (Some X') (Some (es ++ [message_of d]))
         (learning_history s ++
            [TaskLearning now (task_id_of d) (truthy (template_of d))]))
      (Ret true).

End learn_spec.

(** ** The bootstrap corpus of [email_analyzer_api.main] *)

Definition sample_emails : list pyval := [
  PStr "Dear John, Your invoice #12345 is due on 01/15/2023. Please make the payment at your earliest convenience."%text;
  PStr "Hi Sarah, Just a reminder that our meeting is scheduled for tomorrow at 2:30 PM. Looking forward to seeing you."%text;
  PStr "Hello Team, The quarterly report is now available. Please review it by Friday and provide your feedback."%text;
  PStr "Dear Customer, Thank you for your recent purchase. Your order #54321 will be shipped on Monday."%text;
  PStr "Hi David, I hope this email finds you well. I wanted to follow up on our discussion about the project timeline."%text
].

(** * Facts *)

Lemma multiple_of_5 n : 5 ≤ n ∧ n `mod` 5 = 0 ↔ 0 < n ∧ n `mod` 5 = 0.
Proof.
  split; [lia|]. intros [Hn Hm]. split; [|done].
  destruct (decide (5 ≤ n)); [done|]. rewrite Nat.mod_small in Hm; lia.
Qed.

Section analyzer_facts.
Context {V M : Type}.
Context `{!Vectorizer V, !KMeansAlg M, !Tokenizer}.
Implicit Types (s : analyzer V M) (now : timestamp) (es : list pyval).

(** ** The invariant *)

Lemma consistent_new : consistent (V:=V) (M:=M) new_analyzer.
Proof. done. Qed.

Lemma consistent_Some s es :
  consistent s → emails s = Some es →
  ∃ X, email_vectors s = Some X ∧ nrows X = length es ∧ matrix_wf X
       ∧ vec_width (vectorizer s) = Some (ncols X).
Proof.
  unfold consistent. intros Hc Hes. rewrite Hes in Hc.
  destruct (email_vectors s) as [X|]; [|done]. by exists X.
Qed.

Lemma consistent_None s : consistent s → emails s = None → email_vectors s = None.
Proof.
  unfold consistent. intros Hc Hes. rewrite Hes in Hc.
  by destruct (email_vectors s).
Qed.

(** The invariant does not read the model or the history. *)
Lemma consistent_set_model m s : consistent (set_model m s) ↔ consistent s.
Proof. done. Qed.

Lemma consistent_log e s : consistent (log e s) ↔ consistent s.
Proof. done. Qed.

(** What the vectorizer returns from [fit_transform], with the documents
    it was given and the vectorizer it left, is a consistent state. *)
Lemma consistent_fitted v0 v (docs : list pyval) X (mdl : option (kmeans M)) hist :
  fit_transform v0 (preprocess_text <$> docs) = (v, Ret X) →
  consistent (Analyzer v mdl (Some X) (Some docs) hist).
Proof.
  intros Hfit. destruct (fit_transform_shape _ _ _ _ Hfit) as (Hr & Hwf & Hw).
  rewrite length_fmap in Hr. done.
Qed.

(** ** Training the cluster model *)

Lemma train_model_Ret k X s :
  1 ≤ k ≤ nrows X →
  ∃ m, kmeans_fit k X = Ret m
       ∧ train_model k X s = (set_model (Some (KMeansFitted m)) s, Ret tt).
Proof.
  intros Hk. destruct (kmeans_fit_enough k X Hk) as [m Hm]. exists m.
  split; [done|]. unfold train_model. py_unfold. simpl. by rewrite Hm.
Qed.

Lemma train_model_Exc k X s e :
  kmeans_fit k X = Exc e →
  train_model k X s = (set_model (Some (KMeansNew k)) s, Exc e).
Proof. intros Hm. unfold train_model. py_unfold. simpl. by rewrite Hm. Qed.

(** ** [fit], path by path *)

Lemma fit_Exc (docs : list pyval) now s v e :
  fit_transform (vectorizer s) (preprocess_text <$> docs) = (v, Exc e) →
  fit docs now s = (set_vectorizer v (set_emails (Some docs) s), Exc e).
Proof. intros Hfit. unfold fit. py_unfold. simpl. by rewrite Hfit. Qed.

Lemma fit_Ret_small (docs : list pyval) now s v X :
  fit_transform (vectorizer s) (preprocess_text <$> docs) = (v, Ret X) →
  length docs < 5 →
  fit docs now s =
    (Analyzer v (model s) (Some X) (Some docs)
       (learning_history s ++ [ModelTraining now (length docs)]), Ret tt).
Proof.
  intros Hfit Hlen. unfold fit. py_unfold. simpl. rewrite Hfit. simpl.
  destruct (decide _); [lia|]. done.
Qed.

Lemma fit_Ret_large (docs : list pyval) now s v X :
  fit_transform (vectorizer s) (preprocess_text <$> docs) = (v, Ret X) →
  5 ≤ length docs →
  ∃ m, kmeans_fit 5 X = Ret m ∧
    fit docs now s =
      (Analyzer v (Some (KMeansFitted m)) (Some X) (Some docs)
         (learning_history s ++ [ModelTraining now (length docs)]), Ret tt).
Proof.
  intros Hfit Hlen.
  destruct (fit_transform_shape _ _ _ _ Hfit) as (Hrows & _ & _).
  rewrite length_fmap in Hrows.
  unfold fit. py_unfold. simpl. rewrite Hfit. simpl.
  destruct (decide _); [|lia]. rewrite Nat.min_l by done.
  edestruct (train_model_Ret 5 X) as (m & Hm & ->); [lia|].
  by exists m.
Qed.

(** A call of [fit] that returns went through one of the two paths. *)
Lemma fit_Ret_inv (docs : list pyval) now s s' :
  fit docs now s = (s', Ret tt) →
  ∃ v X mdl,
    fit_transform (vectorizer s) (preprocess_text <$> docs) = (v, Ret X)
    ∧ s' = Analyzer v mdl (Some X) (Some docs)
             (learning_history s ++ [ModelTraining now (length docs)])
    ∧ (if decide (5 ≤ length docs)
       then ∃ m, kmeans_fit 5 X = Ret m ∧ mdl = Some (KMeansFitted m)
       else mdl = model s).
Proof.
  destruct (fit_transform (vectorizer s) (preprocess_text <$> docs))
    as [v [X|e]] eqn:Hfit.
  - destruct (decide (5 ≤ length docs)) as [Hlen|Hlen].
    + destruct (fit_Ret_large docs now s v X Hfit Hlen) as (m & Hm & ->).
      intros [= <-]. exists v, X, (Some (KMeansFitted m)).
      split_and!; [done..|]. by exists m.
    + rewrite (fit_Ret_small docs now s v X Hfit) by lia.
      intros [= <-]. by exists v, X, (model s).
  - by rewrite (fit_Exc docs now s v e Hfit).
Qed.

(** ** [learn_from_task], path by path *)

Lemma learn_not_dict task_data now s :
  (∀ d, task_data ≠ PDict d) →
  learn_from_task task_data now s = (s, Exc AttributeError).
Proof.
  intros Hd. unfold learn_from_task. py_unfold.
  by destruct task_data; [..|destruct (Hd d)].
Qed.

Lemma learn_refuses d now s :
  truthy (message_of d) = false ∨ emails s = None →
  learn_from_task (PDict d) now s = (s, Ret false).
Proof.
  unfold message_of. intros Hd. unfold learn_from_task. py_unfold. simpl.
  destruct Hd as [-> | ->]; [done|]. by rewrite andb_false_r.
Qed.

Lemma learn_Ret d now s es X :
  consistent s → emails s = Some es → email_vectors s = Some X →
  truthy (message_of d) = true →
  ∃ R X' mdl,
    transform (vectorizer s) [preprocess_text (message_of d)] = Ret R ∧
    vstack X R = Ret X' ∧
    (if decide ((length es + 1) `mod` 5 = 0)
     then ∃ m, kmeans_fit 5 X' = Ret m ∧ mdl = Some (KMeansFitted m)
     else mdl = model s) ∧
    learn_from_task (PDict d) now s =
      (Analyzer (vectorizer s) mdl (Some X') (Some (es ++ [message_of d]))
         (learning_history s ++
            [TaskLearning now (task_id_of d) (truthy (template_of d))]),
       Ret true).
Proof.
  destruct s as [v mdl0 ev em hist]. unfold consistent. simpl.
  intros Hc -> -> Hmsg. destruct Hc as (Hrows & Hwf & Hwidth).
  destruct (transform_fitted _ [preprocess_text (message_of d)] _ Hwidth)
    as (R & HR & HR1 & HRc & HRwf).
  exists R, (Matrix (ncols X) (rows X ++ rows R)).
  assert (vstack X R = Ret (Matrix (ncols X) (rows X ++ rows R))) as Hst.
  { unfold vstack. by rewrite decide_True. }
  unfold learn_from_task, message_of, template_of, task_id_of in *.
  py_unfold. simpl. rewrite Hmsg. simpl. rewrite HR, Hst. simpl.
  rewrite length_app. simpl.
  destruct (decide (5 ≤ length es + 1 ∧ _)) as [Hn|Hn].
  - rewrite Nat.min_l by lia.
    edestruct (train_model_Ret 5 (Matrix (ncols X) (rows X ++ rows R)))
      as (m & Hm & ->).
    { unfold nrows in *. simpl in *. rewrite length_app. lia. }
    exists (Some (KMeansFitted m)). rewrite decide_True by lia.
    split_and!; [done..|by exists m|done].
  - exists mdl0. rewrite decide_False; [done|].
    intros Hm. apply Hn, multiple_of_5. lia.
Qed.

(** The state after a document was appended is consistent again. *)
Lemma consistent_append s es X R X' doc x (mdl : option (kmeans M)) hist :
  consistent s → emails s = Some es → email_vectors s = Some X →
  transform (vectorizer s) [doc] = Ret R → vstack X R = Ret X' →
  consistent (Analyzer (vectorizer s) mdl (Some X') (Some (es ++ [x])) hist)
  ∧ nrows X' = length es + 1.
Proof.
  intros Hc Hes HX HR Hst.
  destruct (consistent_Some s es Hc Hes) as (X0 & HX0 & Hrows & Hwf & Hw).
  assert (X0 = X) as -> by congruence.
  destruct (transform_fitted _ [doc] _ Hw) as (R0 & HR0 & HR1 & _ & HRwf).
  assert (R0 = R) as -> by congruence.
  assert (nrows X' = length es + 1) as Hn.
  { by rewrite (vstack_nrows _ _ _ Hst), Hrows, HR1. }
  split; [|done]. unfold consistent. simpl. split_and!.
  - by rewrite Hn, length_app.
  - exact (vstack_wf X R X' Hwf HRwf Hst).
  - by rewrite (vstack_ncols _ _ _ Hst).
Qed.

(** ** The properties of [fit] *)

(** C2: a call of [fit] that returns leaves the analyzer consistent: the
    corpus is the list it was given, the matrix has one row per e-mail and
    the vectorizer is fitted with the matrix's width, whatever the state
    before the call. *)
Theorem fit_consistent (docs : list pyval) now s s' :
  fit docs now s = (s', Ret tt) → consistent s' ∧ emails s' = Some docs.
Proof.
  intros (v & X & mdl & Hfit & -> & _)%fit_Ret_inv.
  split; [by eapply consistent_fitted|done].
Qed.

(** C25: on five e-mails or more [fit] trains a cluster model with exactly
    five clusters ([min(5, len(emails))] is 5 whenever the branch is taken)
    that labels every e-mail of the corpus, and logs the training. *)
Theorem fit_trains_five_clusters (docs : list pyval) now s s' :
  5 ≤ length docs → fit docs now s = (s', Ret tt) →
  ∃ m, model s' = Some (KMeansFitted m) ∧ n_clusters m = 5
       ∧ length (labels m) = length docs
       ∧ learning_history s' =
           learning_history s ++ [ModelTraining now (length docs)].
Proof.
  intros Hlen (v & X & mdl & Hfit & -> & Hmdl)%fit_Ret_inv.
  rewrite decide_True in Hmdl by done. destruct Hmdl as (m & Hm & ->).
  exists m. destruct (kmeans_fit_shape _ _ _ Hm) as (-> & -> & _).
  destruct (fit_transform_shape _ _ _ _ Hfit) as (-> & _).
  by rewrite length_fmap.
Qed.

(** C24: on fewer than five e-mails [fit] replaces the corpus and the matrix
    but leaves [self.model] as it was: a model trained on an earlier,
    larger corpus survives the call. *)
Theorem fit_small_keeps_model (docs : list pyval) now s s' :
  length docs < 5 → fit docs now s = (s', Ret tt) →
  model s' = model s ∧ emails s' = Some docs.
Proof.
  intros Hlen (v & X & mdl & Hfit & -> & Hmdl)%fit_Ret_inv.
  rewrite decide_False in Hmdl by lia. by subst.
Qed.

(** A call of [fit] raises only where the vectorizer does, and then the
    corpus is already replaced while matrix, model and history are not. *)
Lemma fit_Exc_inv (docs : list pyval) now s s' e :
  fit docs now s = (s', Exc e) →
  ∃ v, fit_transform (vectorizer s) (preprocess_text <$> docs) = (v, Exc e)
       ∧ s' = set_vectorizer v (set_emails (Some docs) s).
Proof.
  destruct (fit_transform (vectorizer s) (preprocess_text <$> docs))
    as [v [X|e']] eqn:Hfit.
  - destruct (decide (5 ≤ length docs)) as [Hlen|Hlen].
    + by destruct (fit_Ret_large docs now s v X Hfit Hlen) as (m & _ & ->).
    + by rewrite (fit_Ret_small docs now s v X Hfit) by lia.
  - rewrite (fit_Exc docs now s v e' Hfit). intros [= <- <-]. by exists v.
Qed.

(** C8: if [fit] raises on an analyzer that has no matrix yet, it leaves a
    corpus without a matrix and no entry in the history: the state is not
    consistent. *)
Theorem fit_failure_inconsistent (docs : list pyval) now s s' e :
  email_vectors s = None → fit docs now s = (s', Exc e) →
  ¬ consistent s' ∧ emails s' = Some docs
  ∧ learning_history s' = learning_history s.
Proof.
  intros Hev (v & _ & ->)%fit_Exc_inv. unfold consistent. simpl.
  rewrite Hev. by split_and!; [intros []|..].
Qed.

(** ** The properties of [learn_from_task] *)

(** In a consistent state every call of [learn_from_task] ends, along one
    of the three paths of [learn_path]. *)
Lemma learn_from_task_cases task_data now s :
  consistent s →
  ∃ s' o, learn_from_task task_data now s = (s', o)
          ∧ learn_path task_data now s s' o.
Proof.
  intros Hc.
  destruct (pyval_dict_cases task_data) as [[d ->]|Hnd].
  2: { exists s, (Exc AttributeError). split;
         [by apply learn_not_dict|by constructor]. }
  destruct (truthy (message_of d)) eqn:Hmsg.
  2: { exists s, (Ret false). split; [apply learn_refuses; by left|].
       econstructor; [done|by left]. }
  destruct (emails s) as [es|] eqn:Hes.
  2: { exists s, (Ret false). split; [apply learn_refuses; by right|].
       econstructor; [done|by right]. }
  destruct (consistent_Some s es Hc Hes) as (X & HX & _).
  destruct (learn_Ret d now s es X Hc Hes HX Hmsg)
    as (R & X' & mdl & ? & ? & ? & ->).
  eexists _, _. split; [done|]. by econstructor.
Qed.

(** What a run of [learn_from_task] from a consistent state tells. *)
Lemma learn_from_task_inv task_data now s s' o :
  consistent s → learn_from_task task_data now s = (s', o) →
  learn_path task_data now s s' o.
Proof.
  intros Hc Hrun.
  destruct (learn_from_task_cases task_data now s Hc) as (s1 & o1 & Hrun1 & Hp).
  rewrite Hrun in Hrun1. by injection Hrun1 as <- <-.
Qed.

(** C10: [learn_from_task] implements its specification: from a consistent
    state, the state and the result of a call are related to the state
    before it by [learn_path].  In particular the only exception it can
    raise is that of [.get] on task data that is no dictionary. *)
Theorem learn_from_task_path task_data now s :
  consistent s →
  learn_path task_data now s (learn_from_task task_data now s).1
    (learn_from_task task_data now s).2.
Proof.
  intros Hc. apply learn_from_task_inv; [done|].
  by destruct (learn_from_task task_data now s).
Qed.

(** The three paths of the specification keep the invariant. *)
Lemma learn_path_consistent task_data now s s' o :
  consistent s → learn_path task_data now s s' o → consistent s'.
Proof. intros Hc Hp. destruct Hp; [done..|]. by eapply consistent_append. Qed.

(** No path loses the cluster model. *)
Lemma learn_path_model task_data now s s' o :
  learn_path task_data now s s' o → model s ≠ None → model s' ≠ None.
Proof.
  intros Hp Hm. destruct Hp as [| |d es X R X' mdl _ _ _ _ _ _ Hmdl]; [done..|].
  simpl. case_decide; [by destruct Hmdl as (? & _ & ->)|by subst].
Qed.

(** Along each path the vectorizer stays, and corpus, matrix and history
    are extended at the end or stay. *)
Lemma learn_path_extends task_data now s s' o :
  learn_path task_data now s s' o →
  vectorizer s' = vectorizer s
  ∧ learning_history s `prefix_of` learning_history s'
  ∧ (∀ es, emails s = Some es → ∃ es', emails s' = Some es' ∧ es `prefix_of` es')
  ∧ (∀ X, email_vectors s = Some X →
       ∃ X', email_vectors s' = Some X' ∧ ncols X' = ncols X
             ∧ rows X `prefix_of` rows X').
Proof.
  intros Hp. destruct Hp as [| |d es X R X' mdl -> Hmsg Hes HX HR Hst Hmdl];
    [by split_and!; eauto..|].
  simpl. split_and!; [done|by eexists| |].
  - intros es0 ?. exists (es ++ [message_of d]). split; [done|].
    assert (es0 = es) as -> by congruence. by eexists.
  - intros X0 ?. assert (X0 = X) as -> by congruence.
    apply vstack_Ret in Hst as [_ ->]. eexists. split_and!; [done..|by eexists].
Qed.

(** C1: [learn_from_task] keeps the analyzer consistent, whatever the task
    data and however the call ends: after it the matrix still has exactly
    one row per e-mail of the corpus. *)
Theorem learn_from_task_consistent task_data now s s' o :
  consistent s → learn_from_task task_data now s = (s', o) → consistent s'.
Proof.
  intros Hc Hp%learn_from_task_inv; [|done]. by eapply learn_path_consistent.
Qed.

(** [learn_from_task] never re-fits the vectorizer and never rebuilds
    what is there: the vocabulary and the width of the matrix stay, and
    the corpus, the rows of the matrix and the history of the state before
    the call are prefixes of those after it. *)
Theorem learn_from_task_appends task_data now s s' o :
  consistent s → learn_from_task task_data now s = (s', o) →
  vectorizer s' = vectorizer s
  ∧ learning_history s `prefix_of` learning_history s'
  ∧ (∀ es, emails s = Some es → ∃ es', emails s' = Some es' ∧ es `prefix_of` es')
  ∧ (∀ X, email_vectors s = Some X →
       ∃ X', email_vectors s' = Some X' ∧ ncols X' = ncols X
             ∧ rows X `prefix_of` rows X').
Proof.
  intros Hc Hp%learn_from_task_inv; [|done]. by eapply learn_path_extends.
Qed.

(** C6: a call of [learn_from_task] that returns [True] grows the corpus by
    one; if the new size is a multiple of five the model is retrained with
    five clusters on the whole corpus, and otherwise the model is the one
    from before the call, which has no label for the new e-mail. *)
Theorem learn_from_task_retrain_policy task_data now s s' :
  consistent s → learn_from_task task_data now s = (s', Ret true) →
  corpus_size s' = corpus_size s + 1 ∧
  if decide (corpus_size s' `mod` 5 = 0)
  then ∃ m, model s' = Some (KMeansFitted m) ∧ n_clusters m = 5
            ∧ length (labels m) = corpus_size s'
  else model s' = model s.
Proof.
  intros Hc Hp%learn_from_task_inv; [|done].
  inversion Hp as [| |d es X R X' mdl -> Hmsg Hes HX HR Hst Hmdl]; subst.
  unfold corpus_size. simpl. rewrite Hes, length_app. simpl. split; [done|].
  destruct (decide _) as [Hm|Hm]; [|done].
  destruct Hmdl as (m & Hfit & ->). exists m. split; [done|].
  destruct (kmeans_fit_shape _ _ _ Hfit) as (-> & -> & _). split; [done|].
  by destruct (consistent_append s es X R X' _ (message_of d) (model s) []
                 Hc Hes HX HR Hst) as [_ ->].
Qed.

(** C27: without a corpus ([emails] is [None]) or without a truthy
    ["message"], [learn_from_task] returns [False] and changes nothing: no
    e-mail is stored and no event is logged. *)
Theorem learn_from_task_nothing_to_learn d now s :
  truthy (message_of d) = false ∨ emails s = None →
  learn_from_task (PDict d) now s = (s, Ret false).
Proof. apply learn_refuses. Qed.

(** ** The properties of [get_learning_stats] *)

(** C22: on a history that is not empty, [get_learning_stats] reports the
    number of events, a count per event name that is the number of events
    of that name, counts that add up to the number of events, and the time
    of the last event. *)
Theorem get_learning_stats_counts s e history :
  learning_history s = history ++ [e] →
  ∃ counts,
    event_counts (get_learning_stats s) = Some counts
    ∧ total_events (get_learning_stats s) = length (learning_history s)
    ∧ total counts = length (learning_history s)
    ∧ (∀ name, default 0 (items_lookup name counts)
               = occurrences name (learning_history s))
    ∧ last_update (get_learning_stats s) = Some (event_time e).
Proof.
  intros Hh. unfold get_learning_stats. rewrite Hh.
  destruct (history ++ [e]) as [|e0 h] eqn:E.
  { by destruct history. }
  rewrite <- E. exists (count_events (history ++ [e])). simpl.
  split_and!; [done..|apply count_events_total| |by rewrite last_snoc].
  intros name. apply count_events_lookup.
Qed.

(** The statistics of an analyzer that has done nothing. *)
Lemma get_learning_stats_empty s :
  learning_history s = [] → get_learning_stats s = Stats 0 None false None None.
Proof. unfold get_learning_stats. by intros ->. Qed.

End analyzer_facts.

(** * Examples

    The analyzer run on the bootstrap corpus with the reference instances:
    [demo_analyzer] is the state of [main] after [analyzer.fit(sample_emails)]
    at time 0. *)

#[local] Existing Instance demo_tokenizer.
#[local] Existing Instance demo_vectorizer.
#[local] Existing Instance round_robin_kmeans.

Definition demo_analyzer : analyzer (option (list text)) (nat * list nat) :=
  (fit sample_emails 0 new_analyzer).1.

(** A task as the application sends it. *)
Definition demo_task : pyval :=
  PDict [("_id"%text, PStr "task-17"%text);
         ("message"%text,
          PStr "Hello Alex, Your appointment is confirmed for 03/10/2023 at 10:00 AM."%text);
         ("template"%text, PStr "Hello {{name}}"%text)].

(** The invariant is decidable: on [demo_analyzer] it is decided by
    evaluation. *)
Lemma demo_analyzer_consistent : consistent demo_analyzer.
Proof. apply (bool_decide_unpack _). vm_compute. exact I. Qed.

Lemma fit_consistent_witness :
  consistent demo_analyzer ∧ emails demo_analyzer = Some sample_emails.
Proof.
  apply (fit_consistent sample_emails 0 new_analyzer). vm_compute. reflexivity.
Defined.

Lemma fit_trains_five_clusters_witness :
  ∃ m, model demo_analyzer = Some (KMeansFitted m) ∧ n_clusters m = 5
       ∧ length (labels m) = length sample_emails
       ∧ learning_history demo_analyzer =
           learning_history (new_analyzer (V:=option (list text)) (M:=nat * list nat))
           ++ [ModelTraining 0 (length sample_emails)].
Proof.
  apply (fit_trains_five_clusters sample_emails 0 new_analyzer).
  - vm_compute. lia.
  - vm_compute. reflexivity.
Defined.

Lemma fit_small_keeps_model_witness :
  model (fit [PStr "see you tomorrow"%text] 1 demo_analyzer).1 = model demo_analyzer
  ∧ emails (fit [PStr "see you tomorrow"%text] 1 demo_analyzer).1
    = Some [PStr "see you tomorrow"%text].
Proof.
  apply (fit_small_keeps_model [PStr "see you tomorrow"%text] 1 demo_analyzer).
  - vm_compute. lia.
  - vm_compute. reflexivity.
Defined.

Lemma fit_failure_inconsistent_witness :
  ¬ consistent (fit [] 0 (new_analyzer (V:=option (list text)) (M:=nat * list nat))).1
  ∧ emails (fit [] 0 (new_analyzer (V:=option (list text)) (M:=nat * list nat))).1
    = Some []
  ∧ learning_history
      (fit [] 0 (new_analyzer (V:=option (list text)) (M:=nat * list nat))).1
    = learning_history (new_analyzer (V:=option (list text)) (M:=nat * list nat)).
Proof.
  apply (fit_failure_inconsistent [] 0 new_analyzer _ ValueError).
  - reflexivity.
  - vm_compute. reflexivity.
Defined.

Lemma learn_from_task_path_witness :
  learn_path demo_task 1 demo_analyzer
    (learn_from_task demo_task 1 demo_analyzer).1
    (learn_from_task demo_task 1 demo_analyzer).2.
Proof.
  apply (learn_from_task_path demo_task 1 demo_analyzer).
  exact demo_analyzer_consistent.
Defined.

Lemma learn_from_task_consistent_witness :
  consistent (learn_from_task demo_task 1 demo_analyzer).1.
Proof.
  apply (learn_from_task_consistent demo_task 1 demo_analyzer _
           (learn_from_task demo_task 1 demo_analyzer).2).
  - exact demo_analyzer_consistent.
  - by destruct (learn_from_task demo_task 1 demo_analyzer).
Defined.

Lemma learn_from_task_appends_witness :
  vectorizer (learn_from_task demo_task 1 demo_analyzer).1 = vectorizer demo_analyzer
  ∧ learning_history demo_analyzer
    `prefix_of` learning_history (learn_from_task demo_task 1 demo_analyzer).1
  ∧ (∀ es, emails demo_analyzer = Some es →
       ∃ es', emails (learn_from_task demo_task 1 demo_analyzer).1 = Some es'
              ∧ es `prefix_of` es')
  ∧ (∀ X, email_vectors demo_analyzer = Some X →
       ∃ X', email_vectors (learn_from_task demo_task 1 demo_analyzer).1 = Some X'
             ∧ ncols X' = ncols X ∧ rows X `prefix_of` rows X').
Proof.
  apply (learn_from_task_appends demo_task 1 demo_analyzer _
           (learn_from_task demo_task 1 demo_analyzer).2).
  - exact demo_analyzer_consistent.
  - by destruct (learn_from_task demo_task 1 demo_analyzer).
Defined.

Lemma learn_from_task_retrain_policy_witness :
  corpus_size (learn_from_task demo_task 1 demo_analyzer).1
    = corpus_size demo_analyzer + 1
  ∧ if decide (corpus_size (learn_from_task demo_task 1 demo_analyzer).1 `mod` 5 = 0)
    then ∃ m, model (learn_from_task demo_task 1 demo_analyzer).1
                = Some (KMeansFitted m)
              ∧ n_clusters m = 5
              ∧ length (labels m)
                = corpus_size (learn_from_task demo_task 1 demo_analyzer).1
    else model (learn_from_task demo_task 1 demo_analyzer).1 = model demo_analyzer.
Proof.
  apply (learn_from_task_retrain_policy demo_task 1 demo_analyzer).
  - exact demo_analyzer_consistent.
  - vm_compute. reflexivity.
Defined.

Lemma learn_from_task_nothing_to_learn_witness :
  learn_from_task (PDict [("message"%text, PStr "hello"%text)]) 1
    (new_analyzer (V:=option (list text)) (M:=nat * list nat))
  = (new_analyzer, Ret false).
Proof.
  apply (learn_from_task_nothing_to_learn [("message"%text, PStr "hello"%text)]).
  by right.
Defined.

Lemma get_learning_stats_counts_witness :
  ∃ counts,
    event_counts (get_learning_stats demo_analyzer) = Some counts
    ∧ total_events (get_learning_stats demo_analyzer)
      = length (learning_history demo_analyzer)
    ∧ total counts = length (learning_history demo_analyzer)
    ∧ (∀ name, default 0 (items_lookup name counts)
               = occurrences name (learning_history demo_analyzer))
    ∧ last_update (get_learning_stats demo_analyzer)
      = Some (event_time (ModelTraining 0 5)).
Proof.
  apply (get_learning_stats_counts demo_analyzer (ModelTraining 0 5) []).
  vm_compute. reflexivity.
Defined.
