(* ===== verification/Similarity.v ===== *)
(** * The similarity engine: [EmailAnalyzer.get_similar_emails]

    The query is normalized and projected by the vectorizer, scored against
    every row of the matrix, and the positions are ranked by [argsort].
    The slice [[-(top_n+1):-1]] of the ascending ranking, reversed, is what
    is returned: the ranking from best to worst without its first item,
    cut after [top_n] items.  The best match is never returned. *)

From S2P Require Import Prelude PyValue PyText Normalizer VectorSpace Ledger Analyzer.

#[local] Open Scope py_scope.

(** One item of the list [get_similar_emails] returns. *)
Record similar := Similar {
  email : pyval;
  similarity : Q;
}.

Section similarity.
Context {V M : Type}.
Context `{!Vectorizer V, !KMeansAlg M, !Cosine, !ArgSort, !Tokenizer}.
Implicit Types (s : analyzer V M) (now : timestamp).

(** [similarities.argsort()[-(top_n+1):-1][::-1]] *)
Definition similar_indices (similarities : list Q) (top_n : Z) : list nat :=
  reverse (py_slice (Some (- (top_n + 1))%Z) (Some (-1)%Z) (argsort similarities)).

(** One turn of the list comprehension:
    [{"email": self.emails[idx], "similarity": float(similarities[idx])}]. *)
Definition similar_at (es : list pyval) (similarities : list Q) (idx : nat)
    : option similar :=
  e ← es !! idx; sim ← similarities !! idx; Some (Similar e sim).

(** [email_text[:100] + "..."] *)
Definition query_prefix (email_text : text) : text :=
  py_slice None (Some 100%Z) email_text ++ "..."%text.

Definition get_similar_emails (email_text : text) (top_n : Z) now
    : py (analyzer V M) (list similar) :=
  s <- py_get ;;
  match email_vectors s, emails s with
  | Some X, Some es =>
      let processed_email := preprocess_text (PStr email_text) in
      email_vector <- py_lift (transform (vectorizer s) [processed_email]) ;;
      sims <- py_lift (cosine_similarity email_vector X) ;;
      let similarities := flatten sims in
      let indices := similar_indices similarities top_n in
      similar_emails <- py_lift (outcome_of_option IndexError
                                   (mapM (similar_at es similarities) indices)) ;;
      _ <- py_modify (log (SimilaritySearch now (query_prefix email_text)
                             (length similar_emails))) ;;
      py_ret similar_emails
  | _, _ => py_ret []
  end.

(** The ranking from the best match to the worst. *)
Definition ranking (similarities : list Q) : list nat :=
  reverse (argsort similarities).

End similarity.

(** * Facts *)

Section similarity_facts.
Context {V M : Type}.
Context `{!Vectorizer V, !KMeansAlg M, !Cosine, !ArgSort, !Tokenizer}.
Implicit Types (s : analyzer V M) (now : timestamp) (sims : list Q).

(** ** The ranking *)

Lemma ranking_NoDup sims : NoDup (ranking sims).
Proof. unfold ranking. rewrite reverse_Permutation. apply argsort_NoDup. Qed.

Lemma ranking_length sims : length (ranking sims) = length sims.
Proof. unfold ranking. by rewrite length_reverse, argsort_length. Qed.

Lemma ranking_lt sims i : i ∈ ranking sims → i < length sims.
Proof. unfold ranking. rewrite elem_of_reverse. apply argsort_lt. Qed.

Lemma ranking_descending sims :
  StronglySorted (flip Qle) (score_at sims <$> ranking sims).
Proof.
  unfold ranking. rewrite fmap_reverse.
  apply StronglySorted_reverse, argsort_sorted.
Qed.

(** ** The indices *)

(** The slice in terms of the ranking, for every integer [top_n]. *)
Lemma similar_indices_ranking sims (top_n : Z) :
  similar_indices sims top_n
  = take (slice_count (length sims) top_n) (drop 1 (ranking sims)).
Proof.
  unfold similar_indices, ranking.
  by rewrite py_slice_before_last, argsort_length.
Qed.

(** C3: for a [top_n] that is not negative, the index expression
    [similarities.argsort()[-(top_n+1):-1][::-1]] is the ranking from best
    to worst without its first item, cut after [top_n] items. *)
Theorem similar_indices_spec sims (top_n : Z) :
  (0 ≤ top_n)%Z →
  similar_indices sims top_n = take (Z.to_nat top_n) (drop 1 (ranking sims)).
Proof.
  intros Hn. rewrite similar_indices_ranking. unfold slice_count.
  by rewrite (proj2 (Z.ltb_ge _ _)).
Qed.

(** C28: for a negative [top_n] the start bound [-(top_n+1)] of the slice
    is not negative and counts from the front: the call returns the ranking
    without its first item and without its last [-top_n - 1] items, so that
    [top_n = -1] returns every e-mail but the best match. *)
Theorem similar_indices_negative sims (top_n : Z) :
  (top_n < 0)%Z →
  similar_indices sims top_n
  = take (length sims - Z.to_nat (- top_n)) (drop 1 (ranking sims)).
Proof.
  intros Hn. rewrite similar_indices_ranking. unfold slice_count.
  rewrite (proj2 (Z.ltb_lt _ _)) by done. f_equal. lia.
Qed.

Lemma similar_indices_sublist sims top_n :
  similar_indices sims top_n `sublist_of` ranking sims.
Proof.
  rewrite similar_indices_ranking.
  etrans; [apply sublist_take|apply sublist_drop].
Qed.

Lemma similar_indices_lt sims top_n i :
  i ∈ similar_indices sims top_n → i < length sims.
Proof.
  intros Hi. apply ranking_lt.
  eapply elem_of_sublist; [done|apply similar_indices_sublist].
Qed.

(** C5: the position that ranks first, the best match, is never among the
    indices returned, whatever [top_n] is: the top result is dropped. *)
Theorem similar_indices_never_best sims top_n best :
  head (ranking sims) = Some best → best ∉ similar_indices sims top_n.
Proof.
  intros Hbest. rewrite similar_indices_ranking.
  by apply NoDup_head_not_in_tail; [apply ranking_NoDup|].
Qed.

(** The number of indices returned is [top_n] capped by the corpus
    size minus one (for a [top_n] that is not negative); no call returns
    every e-mail of the corpus. *)
Theorem similar_indices_length sims top_n :
  length (similar_indices sims top_n)
  = slice_count (length sims) top_n `min` (length sims - 1).
Proof.
  by rewrite similar_indices_ranking, length_take, length_drop, ranking_length.
Qed.

Lemma similar_indices_sorted sims top_n :
  StronglySorted (flip Qle) (score_at sims <$> similar_indices sims top_n).
Proof.
  eapply StronglySorted_sublist; [|apply ranking_descending].
  apply fmap_sublist, similar_indices_sublist.
Qed.

(** C7: the indices are returned in descending order of similarity, and
    no returned e-mail scores higher than the best match that was dropped. *)
Theorem similar_indices_descending sims top_n :
  StronglySorted (flip Qle) (score_at sims <$> similar_indices sims top_n)
  ∧ ∀ best i, head (ranking sims) = Some best →
              i ∈ similar_indices sims top_n →
              (score_at sims i <= score_at sims best)%Q.
Proof.
  split; [apply similar_indices_sorted|].
  - intros best i Hbest Hi. rewrite similar_indices_ranking in Hi.
    pose proof (ranking_descending sims) as Hs.
    destruct (ranking sims) as [|b r]; simplify_eq/=.
    apply StronglySorted_inv in Hs as [_ Hs]. rewrite Forall_forall in Hs.
    apply (Hs (score_at sims i)), list_elem_of_fmap_2.
    eapply elem_of_sublist; [done|]. 
    etrans; [apply sublist_take|]. by rewrite drop_0.
Qed.

(** ** The call *)

Lemma query_prefix_take email_text :
  query_prefix email_text = take 100 email_text ++ "..."%text.
Proof. unfold query_prefix. by rewrite (py_slice_prefix 100). Qed.

(** The query text stored in the history is the first 100 characters
    of the e-mail followed by three dots, also for a short e-mail: at most
    103 characters. *)
Theorem query_prefix_length email_text :
  length (query_prefix email_text) = (100 `min` length email_text) + 3
  ∧ length (query_prefix email_text) ≤ 103.
Proof.
  rewrite query_prefix_take, length_app, length_take. simpl. lia.
Qed.

Lemma similar_at_Some es sims i r :
  similar_at es sims i = Some r
  ↔ es !! i = Some (email r) ∧ sims !! i = Some (similarity r).
Proof.
  unfold similar_at. destruct r as [e x].
  destruct (es !! i) as [e'|], (sims !! i) as [x'|]; simpl;
    split; try done; try (by intros [? ?]).
  - by intros [= -> ->].
  - by intros [[= ->] [= ->]].
Qed.

(** The list comprehension succeeds on indices that are in range. *)
Lemma mapM_similar_at es sims idxs :
  Forall (λ i, i < length es ∧ i < length sims) idxs →
  ∃ results,
    mapM (similar_at es sims) idxs = Some results
    ∧ Forall2 (λ i r, es !! i = Some (email r) ∧ sims !! i = Some (similarity r))
        idxs results.
Proof.
  intros Hidx.
  destruct (mapM_is_Some_2 (similar_at es sims) idxs) as [results Hres].
  { eapply Forall_impl; [done|]. intros i [Hi1 Hi2]. simpl.
    destruct (lookup_lt_is_Some_2 es i Hi1) as [e He].
    destruct (lookup_lt_is_Some_2 sims i Hi2) as [x Hx].
    exists (Similar e x). by apply similar_at_Some. }
  exists results. split; [done|]. apply mapM_Some_1 in Hres.
  eapply Forall2_impl; [done|]. intros i r. by apply similar_at_Some.
Qed.

(** What a list of results that matches a list of indices tells. *)
Lemma results_of_indices (es : list pyval) sims idxs results :
  Forall2 (λ i r, es !! i = Some (email r) ∧ sims !! i = Some (similarity r))
    idxs results →
  length results = length idxs
  ∧ Forall (λ r, email r ∈ es) results
  ∧ similarity <$> results = score_at sims <$> idxs.
Proof.
  induction 1 as [|i r idxs results [He Hs] _ (IH1 & IH2 & IH3)]; [done|].
  split_and!.
  - simpl. by rewrite IH1.
  - constructor; [|done]. by eapply list_elem_of_lookup_2.
  - rewrite !fmap_cons, IH3. f_equal. unfold score_at. by rewrite Hs.
Qed.

(** Before any fit (no matrix or no corpus) [get_similar_emails]
    returns the empty list, raises nothing and logs nothing. *)
Theorem get_similar_emails_untrained email_text top_n now s :
  email_vectors s = None ∨ emails s = None →
  get_similar_emails email_text top_n now s = (s, Ret []).
Proof.
  unfold get_similar_emails. py_unfold.
  intros [-> | ->]; [done|]. by destruct (email_vectors s).
Qed.

(** The run on a query whose vector is [q] and whose results are
    [results]. *)
Lemma get_similar_emails_Ret email_text top_n now s es X q results :
  emails s = Some es → email_vectors s = Some X →
  transform (vectorizer s) [preprocess_text (PStr email_text)]
    = Ret (Matrix (ncols X) [q]) →
  mapM (similar_at es (cosine q <$> rows X))
    (similar_indices (cosine q <$> rows X) top_n) = Some results →
  get_similar_emails email_text top_n now s
  = (log (SimilaritySearch now (query_prefix email_text) (length results)) s,
     Ret results).
Proof.
  intros Hes HX Hq Hres. unfold get_similar_emails. py_unfold.
  rewrite HX, Hes, Hq. unfold cosine_similarity. simpl.
  rewrite decide_True by done. unfold flatten. simpl.
  by rewrite app_nil_r, Hres.
Qed.

(** In a consistent state the query has a vector of the matrix's width and
    every index has a result. *)
Lemma get_similar_emails_defined email_text top_n s es X :
  consistent s → emails s = Some es → email_vectors s = Some X →
  ∃ q results,
    transform (vectorizer s) [preprocess_text (PStr email_text)]
      = Ret (Matrix (ncols X) [q])
    ∧ mapM (similar_at es (cosine q <$> rows X))
        (similar_indices (cosine q <$> rows X) top_n) = Some results
    ∧ Forall2 (λ i r, es !! i = Some (email r)
                      ∧ (cosine q <$> rows X) !! i = Some (similarity r))
        (similar_indices (cosine q <$> rows X) top_n) results
    ∧ length (rows X) = length es.
Proof.
  intros Hc Hes HX.
  destruct (consistent_Some s es Hc Hes) as (X0 & HX0 & Hrows & Hwf & Hw).
  assert (X0 = X) as -> by congruence.
  destruct (transform_fitted _ [preprocess_text (PStr email_text)] _ Hw)
    as ([c rws] & Hq & Hq1 & Hqc & _).
  unfold nrows in Hq1. simpl in Hq1, Hqc. subst c.
  destruct rws as [|q [|??]]; try done. exists q.
  destruct (mapM_similar_at es (cosine q <$> rows X)
              (similar_indices (cosine q <$> rows X) top_n))
    as (results & Hres & HF); [|by exists results].
  apply Forall_forall. intros i Hi%similar_indices_lt.
  rewrite length_fmap in *. unfold nrows in *. lia.
Qed.

(** C4: in a consistent state [get_similar_emails] does not raise.  It
    scores the query's vector [q] against every row of the matrix, returns
    for each index of [similar_indices] the e-mail and the score at that
    index, in that order, and appends exactly one [similarity_search]
    event with the number of results; nothing else of the state changes. *)
Theorem get_similar_emails_spec email_text top_n now s es X :
  consistent s → emails s = Some es → email_vectors s = Some X →
  ∃ q sims results,
    transform (vectorizer s) [preprocess_text (PStr email_text)]
      = Ret (Matrix (ncols X) [q])
    ∧ sims = cosine q <$> rows X
    ∧ get_similar_emails email_text top_n now s
      = (log (SimilaritySearch now (query_prefix email_text) (length results)) s,
         Ret results)
    ∧ Forall2 (λ i r, es !! i = Some (email r) ∧ sims !! i = Some (similarity r))
        (similar_indices sims top_n) results.
Proof.
  intros Hc Hes HX.
  destruct (get_similar_emails_defined email_text top_n s es X Hc Hes HX)
    as (q & results & Hq & Hres & HF & _).
  exists q, (cosine q <$> rows X), results. split_and!; [done..| |done].
  by apply (get_similar_emails_Ret _ _ _ _ es X q).
Qed.

(** In a consistent state, a call with a [top_n] that is not negative
    returns at most [top_n] results and fewer results than the corpus has
    e-mails; every result is an e-mail of the corpus, and the results come
    in descending order of similarity. *)
Theorem get_similar_emails_results email_text top_n now s es :
  consistent s → emails s = Some es → (0 ≤ top_n)%Z →
  ∃ results,
    (get_similar_emails email_text top_n now s).2 = Ret results
    ∧ length results ≤ Z.to_nat top_n
    ∧ length results ≤ length es - 1
    ∧ Forall (λ r, email r ∈ es) results
    ∧ StronglySorted (flip Qle) (similarity <$> results).
Proof.
  intros Hc Hes Hn.
  destruct (consistent_Some s es Hc Hes) as (X & HX & _).
  destruct (get_similar_emails_defined email_text top_n s es X Hc Hes HX)
    as (q & results & Hq & Hres & HF & Hlen).
  exists results.
  rewrite (get_similar_emails_Ret _ _ now _ es X q results) by done.
  destruct (results_of_indices _ _ _ _ HF) as (Hl & Hin & Hsim).
  rewrite Hsim. split_and!; [done| | |done|apply similar_indices_sorted].
  all: rewrite Hl, similar_indices_ranking, length_take, length_drop,
         ranking_length, length_fmap, Hlen; unfold slice_count;
       rewrite (proj2 (Z.ltb_ge _ _)) by done; lia.
Qed.

(** Whatever the state and however the call ends, it changes nothing but
    the history, and the history by at most one [similarity_search]. *)
Lemma get_similar_emails_state email_text top_n now s s' o :
  get_similar_emails email_text top_n now s = (s', o) →
  s' = s ∨ ∃ n, s' = log (SimilaritySearch now (query_prefix email_text) n) s.
Proof.
  unfold get_similar_emails. py_unfold.
  destruct (email_vectors s) as [X|]; [|by intros [= <- _]; left].
  destruct (emails s) as [es|]; [|by intros [= <- _]; left].
  destruct (transform _ _) as [qv|]; simpl; [|by intros [= <- _]; left].
  destruct (cosine_similarity _ _) as [sims|]; simpl; [|by intros [= <- _]; left].
  destruct (mapM _ _) as [results|]; simpl; [|by intros [= <- _]; left].
  intros [= <- _]. right. by eexists.
Qed.

End similarity_facts.

(** * Examples *)

#[local] Existing Instance demo_tokenizer.
#[local] Existing Instance demo_vectorizer.
#[local] Existing Instance round_robin_kmeans.
#[local] Existing Instance overlap_cosine.
#[local] Existing Instance merge_sort_argsort.

(** The query of the demonstration in [email_analyzer.py]. *)
Definition demo_query : text :=
  "Hello Alex, Your appointment is confirmed for 03/10/2023 at 10:00 AM. Please arrive 15 minutes early."%text.

Definition demo_scores : list Q := [2 # 10; 9 # 10; 5 # 10; 7 # 10]%Q.

Example similar_indices_demo :
  similar_indices demo_scores 2 = [3; 2]
  ∧ similar_indices demo_scores 0 = []
  ∧ similar_indices demo_scores 10 = [3; 2; 0]
  ∧ similar_indices demo_scores (-1) = [3; 2; 0]
  ∧ similar_indices demo_scores (-2) = [3; 2].
Proof. vm_compute. done. Qed.

Lemma similar_indices_spec_witness :
  similar_indices demo_scores 2
  = take (Z.to_nat 2) (drop 1 (ranking demo_scores)).
Proof. apply (similar_indices_spec demo_scores 2). lia. Defined.

Lemma similar_indices_negative_witness :
  similar_indices demo_scores (-1)
  = take (length demo_scores - Z.to_nat (- -1)) (drop 1 (ranking demo_scores)).
Proof. apply (similar_indices_negative demo_scores (-1)). lia. Defined.

Lemma similar_indices_never_best_witness :
  head (ranking demo_scores) = Some 1 ∧ 1 ∉ similar_indices demo_scores 10.
Proof.
  split; [vm_compute; reflexivity|].
  apply (similar_indices_never_best demo_scores 10 1). vm_compute. reflexivity.
Defined.

Lemma similar_indices_descending_witness :
  StronglySorted (flip Qle) (score_at demo_scores <$> similar_indices demo_scores 2)
  ∧ ∀ best i, head (ranking demo_scores) = Some best →
              i ∈ similar_indices demo_scores 2 →
              (score_at demo_scores i <= score_at demo_scores best)%Q.
Proof. apply (similar_indices_descending demo_scores 2). Defined.

Lemma get_similar_emails_untrained_witness :
  get_similar_emails demo_query 3 1
    (new_analyzer (V:=option (list text)) (M:=nat * list nat))
  = (new_analyzer, Ret []).
Proof. apply (get_similar_emails_untrained demo_query 3 1). by left. Defined.

Lemma get_similar_emails_results_witness :
  ∃ results,
    (get_similar_emails demo_query 3 1 demo_analyzer).2 = Ret results
    ∧ length results ≤ Z.to_nat 3
    ∧ length results ≤ length sample_emails - 1
    ∧ Forall (λ r, email r ∈ sample_emails) results
    ∧ StronglySorted (flip Qle) (similarity <$> results).
Proof.
  apply (get_similar_emails_results demo_query 3 1 demo_analyzer sample_emails).
  - exact demo_analyzer_consistent.
  - vm_compute. reflexivity.
  - lia.
Defined.

Lemma get_similar_emails_spec_witness :
  ∃ q sims results,
    transform (vectorizer demo_analyzer) [preprocess_text (PStr demo_query)]
      = Ret (Matrix 49 [q])
    ∧ sims = cosine q <$> rows (default (Matrix 0 []) (email_vectors demo_analyzer))
    ∧ get_similar_emails demo_query 3 1 demo_analyzer
      = (log (SimilaritySearch 1 (query_prefix demo_query) (length results))
           demo_analyzer,
         Ret results)
    ∧ Forall2 (λ i r, sample_emails !! i = Some (email r)
                      ∧ sims !! i = Some (similarity r))
        (similar_indices sims 3) results.
Proof.
  apply (get_similar_emails_spec demo_query 3 1 demo_analyzer sample_emails
           (default (Matrix 0 []) (email_vectors demo_analyzer))).
  - exact demo_analyzer_consistent.
  - vm_compute. reflexivity.
  - vm_compute. reflexivity.
Defined.

