(* ===== verification/Template.v ===== *)
(** * The template synthesizer: [EmailAnalyzer.suggest_template]

    A text that already has variables is returned as it is, with the names
    of the variables.  Otherwise every value [extract_entities] found that
    still stands in the text is replaced, at its first occurrence, by a
    placeholder, the value is recorded under a name made of the category
    and a number, and one event is logged.

    The placeholder is written [f"{{{{{{var_name}}}}}}"] in the source.  In
    an f-string a doubled brace is a brace, so the six braces on either side
    are three braces and nothing is left to mark [var_name] as an
    expression: the placeholder is the same fifteen characters for every
    variable ([placeholder]). *)

From S2P Require Import Prelude PyValue PyText Normalizer VectorSpace Ledger.
From S2P Require Import Analyzer Regex Entities.

#[local] Open Scope py_scope.
#[local] Open Scope text_scope.

(** The value under ["variables"]: the list of names of the first branch,
    or the dictionary of the second. *)
Inductive variables :=
| Names (names : list text)
| Values (variable_dict : list (text * text)).

Record suggestion := Suggestion {
  template : text;
  variables_of : variables;
  message : text;
}.

(** [entity_type[:-1] if entity_type.endswith('s') else entity_type] *)
Definition singular (entity_type : text) : text :=
  if endswith "s" entity_type
  then py_slice None (Some (-1)%Z) entity_type
  else entity_type.

(** [f"{...}{i+1}"] *)
Definition var_name_of (entity_type : text) (i : nat) : text :=
  singular entity_type ++ str_of_nat (i + 1).

(** [f"{{{{{{var_name}}}}}}"] *)
Definition placeholder : text := "{{{var_name}}}".

(** One turn of the inner loop, on the text and the dictionary so far. *)
Definition replace_value (entity_type : text) (acc : text * list (text * text))
    (i : nat) (value : text) : text * list (text * text) :=
  let '(templated_text, variable_dict) := acc in
  if contains value templated_text then
    let var_name := var_name_of entity_type i in
    (replace_first value placeholder templated_text,
     items_set var_name value variable_dict)
  else acc.

(** [for i, value in enumerate(values)], from index [i] on. *)
Fixpoint replace_values (entity_type : text) (i : nat) (values : list text)
    (acc : text * list (text * text)) : text * list (text * text) :=
  match values with
  | [] => acc
  | value :: values =>
      replace_values entity_type (S i) values (replace_value entity_type acc i value)
  end.

(** [for entity_type, values in entities.items()] *)
Definition replace_entities (entities : list (text * list text))
    (acc : text * list (text * text)) : text * list (text * text) :=
  foldl (λ acc item, replace_values item.1 0 item.2 acc) acc entities.

(** What a value does to the text, whatever it is called: its first
    occurrence, if it has one, becomes the placeholder. *)
Definition blank (templated_text value : text) : text :=
  if contains value templated_text
  then replace_first value placeholder templated_text
  else templated_text.

Section template.
Context {V M : Type} `{!SetOrder, !Recognizer}.
Implicit Types (s : analyzer V M) (now : timestamp).

Definition suggest_template (email_text : text) now
    : py (analyzer V M) suggestion :=
  let variables := extract_variables email_text in
  if bool_decide (variables ≠ []) then
    py_ret (Suggestion email_text (Names variables)
              "Template already contains variables.")
  else
    let entities := extract_entities email_text in
    let '(templated_text, variable_dict) :=
      replace_entities entities (email_text, []) in
    _ <- py_modify (log (TemplateSuggestion now (length variable_dict))) ;;
    py_ret (Suggestion templated_text (Values variable_dict)
              "Generated template with suggested variables.").

End template.

(** * Facts *)

(** ** The loops *)

Lemma replace_value_absent entity_type t d i value :
  ¬ contains value t → replace_value entity_type (t, d) i value = (t, d).
Proof. simpl. by destruct (contains value t). Qed.

Lemma replace_value_present entity_type t d i value :
  contains value t →
  replace_value entity_type (t, d) i value
  = (replace_first value placeholder t, items_set (var_name_of entity_type i) value d).
Proof. simpl. by destruct (contains value t). Qed.

(** A key that no turn writes keeps its value. *)
Lemma replace_value_lookup key entity_type acc i value :
  var_name_of entity_type i ≠ key →
  items_lookup key (replace_value entity_type acc i value).2 = items_lookup key acc.2.
Proof.
  intros Hne. destruct acc as [t d]. simpl. destruct (contains value t); [|done].
  simpl. by rewrite items_lookup_set_ne.
Qed.

Lemma replace_values_lookup key entity_type values : ∀ i acc,
  (∀ j, i ≤ j → var_name_of entity_type j ≠ key) →
  items_lookup key (replace_values entity_type i values acc).2 = items_lookup key acc.2.
Proof.
  induction values as [|value values IH]; intros i acc Hne; simpl; [done|].
  rewrite IH by (intros j ?; apply Hne; lia). apply replace_value_lookup, Hne. lia.
Qed.

Lemma replace_entities_lookup key entities : ∀ acc,
  Forall (λ item, ∀ j, var_name_of item.1 j ≠ key) entities →
  items_lookup key (replace_entities entities acc).2 = items_lookup key acc.2.
Proof.
  unfold replace_entities.
  induction entities as [|item entities IH]; intros acc Hne; simpl; [done|].
  apply Forall_cons in Hne as [Hitem Hne]. rewrite IH by done.
  apply replace_values_lookup. auto.
Qed.

(** The text after the loops is the work of [blank] on the values in
    their order. *)
Lemma replace_value_text entity_type acc i value :
  (replace_value entity_type acc i value).1 = blank acc.1 value.
Proof. destruct acc as [t d]. unfold blank. simpl. by destruct (contains value t). Qed.

Lemma replace_values_text entity_type values : ∀ i acc,
  (replace_values entity_type i values acc).1 = foldl blank acc.1 values.
Proof.
  induction values as [|value values IH]; intros i acc; simpl; [done|].
  by rewrite IH, replace_value_text.
Qed.

Lemma replace_entities_text entities : ∀ acc,
  (replace_entities entities acc).1 = foldl blank acc.1 (concat entities.*2).
Proof.
  unfold replace_entities.
  induction entities as [|item entities IH]; intros acc; simpl; [done|].
  by rewrite IH, foldl_app, replace_values_text.
Qed.

(** The dictionary grows by at most one key a turn. *)
Lemma replace_value_length entity_type acc i value :
  length acc.2 ≤ length (replace_value entity_type acc i value).2 ≤ S (length acc.2).
Proof.
  destruct acc as [t d]. simpl. destruct (contains value t); simpl; [|lia].
  rewrite <- !(length_fmap fst), items_set_keys.
  destruct (decide _); rewrite ?length_app; simpl; lia.
Qed.

Lemma replace_values_length entity_type values : ∀ i acc,
  length (replace_values entity_type i values acc).2 ≤ length acc.2 + length values.
Proof.
  induction values as [|value values IH]; intros i acc; simpl; [lia|].
  etrans; [apply IH|]. pose proof (replace_value_length entity_type acc i value). lia.
Qed.

(** One turn of each loop. *)
Lemma replace_entities_cons item entities acc :
  replace_entities (item :: entities) acc
  = replace_entities entities (replace_values item.1 0 item.2 acc).
Proof. done. Qed.

Lemma replace_values_cons entity_type i value values acc :
  replace_values entity_type i (value :: values) acc
  = replace_values entity_type (S i) values (replace_value entity_type acc i value).
Proof. done. Qed.

(** ** Whether anything is replaced *)

Lemma items_set_not_nil {V} key (v : V) d : items_set key v d ≠ [].
Proof. induction d as [|[k w] d IH]; simpl; [done|]. by destruct (decide _). Qed.

(** A dictionary with an entry keeps one. *)
Lemma replace_value_grows entity_type acc i value :
  acc.2 ≠ [] → (replace_value entity_type acc i value).2 ≠ [].
Proof.
  destruct acc as [t d]. simpl. destruct (contains value t); [|done].
  intros _. apply items_set_not_nil.
Qed.

Lemma replace_values_grows entity_type values : ∀ i acc,
  acc.2 ≠ [] → (replace_values entity_type i values acc).2 ≠ [].
Proof.
  induction values as [|value values IH]; intros i acc Hd; simpl; [done|].
  by apply IH, replace_value_grows.
Qed.

Lemma replace_entities_grows entities : ∀ acc,
  acc.2 ≠ [] → (replace_entities entities acc).2 ≠ [].
Proof.
  unfold replace_entities.
  induction entities as [|item entities IH]; intros acc Hd; simpl; [done|].
  by apply IH, replace_values_grows.
Qed.

(** Values that do not stand in the text leave text and dictionary. *)
Lemma replace_values_untouched entity_type values : ∀ i t d,
  Forall (λ v, ¬ contains v t) values →
  replace_values entity_type i values (t, d) = (t, d).
Proof.
  induction values as [|value values IH]; intros i t d Hv; [done|].
  apply Forall_cons in Hv as [Hv Hvs].
  by rewrite replace_values_cons, replace_value_absent, IH.
Qed.

(** A value that stands in the text gives the dictionary an entry. *)
Lemma replace_values_touched entity_type values : ∀ i t d,
  Exists (λ v, contains v t) values →
  (replace_values entity_type i values (t, d)).2 ≠ [].
Proof.
  induction values as [|value values IH]; intros i t d Hv;
    [by apply Exists_nil in Hv|].
  rewrite replace_values_cons. destruct (decide (contains value t)) as [Hc|Hc].
  - apply replace_values_grows. rewrite replace_value_present by done.
    apply items_set_not_nil.
  - apply Exists_cons in Hv as [Hv|Hv]; [done|].
    rewrite replace_value_absent by done. by apply IH.
Qed.

(** The dictionary stays empty exactly when no value of any category
    stands in the text. *)
Lemma replace_entities_nil entities : ∀ t,
  (replace_entities entities (t, [])).2 = []
  ↔ Forall (λ v, ¬ contains v t) (concat entities.*2).
Proof.
  induction entities as [|[entity_type values] entities IH]; intros t; [done|].
  rewrite replace_entities_cons, fmap_cons, concat_cons, Forall_app. simpl.
  destruct (decide (Forall (λ v, ¬ contains v t) values)) as [Hv|Hv].
  - rewrite replace_values_untouched, IH by done. tauto.
  - split; [|tauto]. intros Hd. destruct Hv. apply dec_stable. intros Hv.
    apply not_Forall_Exists in Hv; [|apply _].
    eapply replace_entities_grows, Hd. apply replace_values_touched.
    eapply Exists_impl; [done|]. intros v. apply dec_stable.
Qed.

(** ** Names of variables *)

(** Only the first date is called ["date1"]. *)
Lemma var_name_date1 entity_type j :
  entity_type ∈ categories → var_name_of entity_type j = "date1" →
  entity_type = "dates" ∧ j = 0.
Proof.
  unfold categories. intros Hc.
  repeat (apply elem_of_cons in Hc as [->|Hc]); try done;
    [|by apply elem_of_nil in Hc].
  intros E. split; [done|]. unfold var_name_of in E.
  change (singular "dates" ++ str_of_nat (j + 1) = "date" ++ str_of_nat 1) in E.
  apply app_inv_head, str_of_nat_inj in E. lia.
Qed.

(** The first date the regular expression finds becomes ["date1"]. *)
Lemma replace_entities_date1 text d ds :
  findall dates_pattern text = d :: ds →
  items_lookup "date1" (replace_entities (regex_entities text) (text, [])).2 = Some d.
Proof.
  intros Hd. unfold regex_entities.
  rewrite replace_entities_cons, replace_entities_lookup.
  2: { repeat constructor; intros j [[=] _]%var_name_date1;
         unfold categories; set_solver. }
  rewrite Hd. cbn [fst snd]. rewrite replace_values_cons, replace_values_lookup.
  2: { intros j Hj [_ ->]%var_name_date1; [lia|by left]. }
  assert (contains d text) as Hc.
  { apply contains_spec, (findall_factor dates_pattern); [simpl; tauto|].
    rewrite Hd. by left. }
  rewrite replace_value_present by done.
  change (var_name_of "dates" 0) with ("date1" : Prelude.text).
  cbn [snd]. apply items_lookup_set_eq.
Qed.

(** ** [suggest_template] *)

Section template_facts.
Context {V M : Type} `{!SetOrder, !Recognizer}.
Implicit Types (s : analyzer V M) (now : timestamp).

Lemma suggest_template_generated email_text now s :
  extract_variables email_text = [] →
  suggest_template email_text now s
  = (log (TemplateSuggestion now
            (length (replace_entities (extract_entities email_text)
                       (email_text, [])).2)) s,
     Ret (Suggestion
            (replace_entities (extract_entities email_text) (email_text, [])).1
            (Values (replace_entities (extract_entities email_text)
                       (email_text, [])).2)
            "Generated template with suggested variables.")).
Proof.
  intros Hv. unfold suggest_template. rewrite Hv. simpl.
  by destruct (replace_entities _ _).
Qed.

(** The call returns, and the analyzer it leaves is the one before or has
    one more event. *)
Lemma suggest_template_Ret email_text now s :
  ∃ r, (suggest_template email_text now s).2 = Ret r
       ∧ ((suggest_template email_text now s).1 = s
          ∨ ∃ n, (suggest_template email_text now s).1
                 = log (TemplateSuggestion now n) s).
Proof.
  unfold suggest_template. case_bool_decide; [by eexists; split; [|left]|].
  destruct (replace_entities _ _). eexists. split; [done|]. right. by eexists.
Qed.

Lemma suggest_template_state email_text now s s' o :
  suggest_template email_text now s = (s', o) →
  s' = s ∨ ∃ n, s' = log (TemplateSuggestion now n) s.
Proof.
  intros Hrun. destruct (suggest_template_Ret email_text now s) as (r & _ & Hs).
  by rewrite Hrun in Hs.
Qed.

(** A text that already has a variable is returned as it is, with
    the names of its variables, and the analyzer stays as it is: this call
    is not logged. *)
Theorem suggest_template_already email_text now s :
  extract_variables email_text ≠ [] →
  suggest_template email_text now s
  = (s, Ret (Suggestion email_text (Names (extract_variables email_text))
               "Template already contains variables.")).
Proof.
  intros Hv. unfold suggest_template. by rewrite bool_decide_eq_true_2.
Qed.

(** C16: the round trip of a template: a text with the placeholder
    [{{x}}] and no other character that opens a placeholder comes back as
    it is, and its variables are [x] alone, without the white space at its
    ends; the analyzer stays as it is. *)
Theorem suggest_template_roundtrip pre x post now s :
  x ≠ [] → Forall word_or_space x → Forall plain pre → Forall plain post →
  suggest_template (pre ++ "{{" ++ x ++ "}}" ++ post) now s
  = (s, Ret (Suggestion (pre ++ "{{" ++ x ++ "}}" ++ post) (Names [py_strip x])
               "Template already contains variables.")).
Proof.
  intros Hne Hx Hpre Hpost.
  rewrite suggest_template_already; rewrite extract_variables_exact; done.
Qed.

(** C14: on a text without variables in which the regular expression
    finds a date, [suggest_template] without the recogniser records the
    first date under the name ["date1"], and logs one
    [template_suggestion] event with the number of variables. *)
Theorem suggest_template_date1 email_text now s d ds :
  nlp = None → extract_variables email_text = [] →
  findall dates_pattern email_text = d :: ds →
  ∃ t vars,
    suggest_template email_text now s
    = (log (TemplateSuggestion now (length vars)) s,
       Ret (Suggestion t (Values vars)
              "Generated template with suggested variables."))
    ∧ items_lookup "date1" vars = Some d.
Proof.
  intros Hn Hv Hd. eexists _, _. split; [by apply suggest_template_generated|].
  rewrite extract_entities_regex_only by done. by eapply replace_entities_date1.
Qed.

(** C15: the template [suggest_template] generates is the text with the
    first occurrence of each value that still stands in it replaced by the
    one placeholder [{{{var_name}}}]: the names under which the dictionary
    records the values do not enter the template. *)
Theorem suggest_template_anonymous email_text now s :
  extract_variables email_text = [] →
  ∃ vars,
    (suggest_template email_text now s).2
    = Ret (Suggestion
             (foldl blank email_text (concat (extract_entities email_text).*2))
             (Values vars) "Generated template with suggested variables.").
Proof.
  intros Hv. rewrite suggest_template_generated by done.
  eexists. simpl. by rewrite replace_entities_text.
Qed.

End template_facts.

(** * Examples *)

#[local] Existing Instance regex_only.
#[local] Existing Instance demo_set_order.

(** The suggestion for the e-mail of the demonstration: four values are
    replaced, each by the same placeholder. *)
Example suggest_template_demo :
  (suggest_template (V:=unit) (M:=unit) new_email 7
     (Analyzer tt None None None [])).2
  = Ret (Suggestion
           "Hello {{{var_name}}}, {{{var_name}}} appointment is confirmed for {{{var_name}}} at {{{var_name}}}. Please arrive 15 minutes early."
           (Values [("date1", "03/10/2023"); ("time1", "10:00 AM");
                    ("name1", "Alex"); ("name2", "Your")])
           "Generated template with suggested variables.").
Proof. vm_compute. reflexivity. Qed.

(** The template that was suggested is a text with one variable, called
    [var_name]. *)
Example suggest_template_again :
  extract_variables
    "Hello {{{var_name}}}, {{{var_name}}} appointment is confirmed for {{{var_name}}} at {{{var_name}}}. Please arrive 15 minutes early."
  = ["var_name"].
Proof. vm_compute. reflexivity. Qed.

Lemma suggest_template_anonymous_witness :
  ∃ vars,
    (suggest_template (V:=unit) (M:=unit) new_email 7
       (Analyzer tt None None None [])).2
    = Ret (Suggestion
             (foldl blank new_email (concat (extract_entities new_email).*2))
             (Values vars) "Generated template with suggested variables.").
Proof.
  apply (suggest_template_anonymous (V:=unit) (M:=unit) new_email 7).
  vm_compute. reflexivity.
Defined.

Lemma suggest_template_already_witness :
  suggest_template (V:=unit) (M:=unit) "Dear {{name}}, see you at {time}" 7
    (Analyzer tt None None None [])
  = (Analyzer tt None None None [],
     Ret (Suggestion "Dear {{name}}, see you at {time}"
            (Names (extract_variables "Dear {{name}}, see you at {time}"))
            "Template already contains variables.")).
Proof.
  apply (suggest_template_already (V:=unit) (M:=unit)).
  vm_compute. discriminate.
Defined.

Lemma suggest_template_roundtrip_witness :
  suggest_template (V:=unit) (M:=unit) "Dear {{ first name }}, see you soon." 7
    (Analyzer tt None None None [])
  = (Analyzer tt None None None [],
     Ret (Suggestion "Dear {{ first name }}, see you soon."
            (Names ["first name"]) "Template already contains variables.")).
Proof.
  apply (suggest_template_roundtrip (V:=unit) (M:=unit)
           "Dear " " first name " ", see you soon." 7).
  - done.
  - by repeat constructor.
  - by repeat constructor.
  - by repeat constructor.
Defined.

Lemma suggest_template_date1_witness :
  ∃ t vars,
    suggest_template (V:=unit) (M:=unit) new_email 7 (Analyzer tt None None None [])
    = (log (TemplateSuggestion 7 (length vars)) (Analyzer tt None None None []),
       Ret (Suggestion t (Values vars)
              "Generated template with suggested variables."))
    ∧ items_lookup "date1" vars = Some ("03/10/2023" : text).
Proof.
  apply (suggest_template_date1 (V:=unit) (M:=unit) new_email 7 _ "03/10/2023" []).
  - reflexivity.
  - vm_compute. reflexivity.
  - vm_compute. reflexivity.
Defined.
