(* ===== verification/Persistence.v ===== *)
(** * Persistence: [save_model], [load_model] and [__init__]

    [joblib.dump] writes one dictionary with the five fields of the
    analyzer to a file, and [joblib.load] reads it back.  The disk is a
    finite map from paths to files.  A file is either unreadable (not a
    pickle: [joblib.load] raises) or a dictionary in which each of the five
    keys is present or not, so that a file some other program wrote is in
    the model too.  A key that is present holds a value of the type of its
    field: a file with [None] under ["vectorizer"] is not in the model.
    Pickling is the identity: what [joblib.load] reads is what
    [joblib.dump] wrote.  Errors of [joblib.dump] itself (no such
    directory, disk full) are not modelled. *)

From stdpp Require Import gmap.
From S2P Require Import Prelude PyValue PyText Normalizer VectorSpace Ledger Analyzer.

#[local] Open Scope py_scope.

(** The dictionary in a file: [None] is a key that is not there. *)
Record snapshot (V M : Type) := Snapshot {
  snap_model : option (option (kmeans M));
  snap_vectorizer : option V;
  snap_email_vectors : option (option matrix);
  snap_emails : option (option (list pyval));
  snap_learning_history : option (list event);
}.
Arguments Snapshot {V M}.
Arguments snap_model {V M} _.
Arguments snap_vectorizer {V M} _.
Arguments snap_email_vectors {V M} _.
Arguments snap_emails {V M} _.
Arguments snap_learning_history {V M} _.

Inductive file (V M : Type) :=
| Unreadable
| Pickled (d : snapshot V M).
Arguments Unreadable {V M}.
Arguments Pickled {V M} d.

Section persistence.
Context {V M : Type}.
Context `{!Vectorizer V, !KMeansAlg M, !Tokenizer}.
Implicit Types (s : analyzer V M) (fs : gmap text (file V M)) (path : text).

(** The dictionary [save_model] builds. *)
Definition model_data s : snapshot V M :=
  Snapshot (Some (model s)) (Some (vectorizer s)) (Some (email_vectors s))
    (Some (emails s)) (Some (learning_history s)).

(** [save_model]: the disk after the call and the value returned.  The
    source tests [self.model is not None and self.vectorizer is not None].
    The second half has no counterpart here: [__init__] assigns a
    vectorizer, no method assigns [None], and a dictionary of the model
    holds a vectorizer under ["vectorizer"] or lacks the key (a file with
    [None] under it is not in the model), so the field [vectorizer] always
    holds one. *)
Definition save_model path s fs : gmap text (file V M) * bool :=
  if bool_decide (model s ≠ None)
  then (<[path := Pickled (model_data s)]> fs, true)
  else (fs, false).

(** [joblib.load(path)] *)
Definition joblib_load fs path : outcome (snapshot V M) :=
  match fs !! path with
  | Some (Pickled d) => Ret d
  | Some Unreadable => Exc ValueError
  | None => Exc ValueError
  end.

(** [model_data[key]] *)
Definition getitem {A} (field : option A) : outcome A :=
  outcome_of_option KeyError field.

Definition set_learning_history (h : list event) s : analyzer V M :=
  Analyzer (vectorizer s) (model s) (email_vectors s) (emails s) h.

(** [load_model]: the assignments in the order of the source, inside
    [try]; [except Exception] returns [False]. *)
Definition load_model path fs : py (analyzer V M) bool :=
  py_try
    (model_data <- py_lift (joblib_load fs path) ;;
     m <- py_lift (getitem (snap_model model_data)) ;;
     _ <- py_modify (set_model m) ;;
     v <- py_lift (getitem (snap_vectorizer model_data)) ;;
     _ <- py_modify (set_vectorizer v) ;;
     X <- py_lift (getitem (snap_email_vectors model_data)) ;;
     _ <- py_modify (set_email_vectors X) ;;
     es <- py_lift (getitem (snap_emails model_data)) ;;
     _ <- py_modify (set_emails es) ;;
     _ <- py_modify (set_learning_history
                       (default [] (snap_learning_history model_data))) ;;
     py_ret true)
    (λ e, py_ret false).

(** [EmailAnalyzer(model_path)]: a fresh analyzer, loaded from the file if
    a path is given and the file exists. *)
Definition init (model_path : option text) fs : analyzer V M :=
  match model_path with
  | Some path =>
      if negb (bool_decide (path = [])) && bool_decide (is_Some (fs !! path))
      then (load_model path fs new_analyzer).1
      else new_analyzer
  | None => new_analyzer
  end.

End persistence.

(** * Facts *)

Section persistence_facts.
Context {V M : Type}.
Context `{!Vectorizer V, !KMeansAlg M, !Tokenizer}.
Implicit Types (s : analyzer V M) (fs : gmap text (file V M)) (path : text).

(** ** [save_model] *)

Lemma save_model_trained path s fs :
  model s ≠ None →
  save_model path s fs = (<[path := Pickled (model_data s)]> fs, true).
Proof. intros Hm. unfold save_model. by rewrite bool_decide_eq_true_2. Qed.

(** Without a cluster model nothing is written. *)
Lemma save_model_untrained path s fs :
  model s = None → save_model path s fs = (fs, false).
Proof. intros Hm. unfold save_model. by rewrite bool_decide_eq_false_2 by naive_solver. Qed.

(** Other files are left alone. *)
Lemma save_model_other path path' s fs :
  path ≠ path' → (save_model path s fs).1 !! path' = fs !! path'.
Proof.
  intros Hne. unfold save_model. case_bool_decide; simpl; [|done].
  by rewrite lookup_insert_ne.
Qed.

(** ** [load_model], path by path *)

Lemma load_model_unreadable path fs s :
  fs !! path = None ∨ fs !! path = Some Unreadable →
  load_model path fs s = (s, Ret false).
Proof.
  intros Hf. unfold load_model, joblib_load. py_unfold.
  by destruct Hf as [-> | ->].
Qed.

(** A file with all of the first four keys loads completely. *)
Lemma load_model_complete path fs s m v X es h :
  fs !! path = Some (Pickled (Snapshot (Some m) (Some v) (Some X) (Some es) h)) →
  load_model path fs s = (Analyzer v m X es (default [] h), Ret true).
Proof.
  intros Hf. unfold load_model, joblib_load. py_unfold. by rewrite Hf.
Qed.

(** A disk that holds the dictionary of [s] at [path] loads as [s]. *)
Lemma load_model_data path fs s s0 :
  fs !! path = Some (Pickled (model_data s)) →
  load_model path fs s0 = (s, Ret true).
Proof.
  destruct s as [v m X es h].
  apply (load_model_complete _ _ _ m v X es (Some h)).
Qed.

(** The state in which [load_model] stops when a key is missing: the
    fields before the first missing key are assigned, the others are not. *)
Definition partial_load (d : snapshot V M) s : analyzer V M :=
  match snap_model d with
  | None => s
  | Some m =>
      match snap_vectorizer d with
      | None => set_model m s
      | Some v =>
          match snap_email_vectors d with
          | None => set_vectorizer v (set_model m s)
          | Some X => set_email_vectors X (set_vectorizer v (set_model m s))
          end
      end
  end.

Lemma load_model_incomplete path fs s d :
  fs !! path = Some (Pickled d) →
  snap_model d = None ∨ snap_vectorizer d = None
  ∨ snap_email_vectors d = None ∨ snap_emails d = None →
  load_model path fs s = (partial_load d s, Ret false).
Proof.
  intros Hf Hd. unfold load_model, joblib_load, partial_load. py_unfold.
  rewrite Hf. destruct d as [[m|] [v|] [X|] [es|] h]; simpl in *; try done.
  by destruct Hd as [?|[?|[?|?]]].
Qed.

(** [load_model] never raises. *)
Lemma load_model_returns path fs s : ∃ s' b, load_model path fs s = (s', Ret b).
Proof.
  destruct (fs !! path) as [[|d]|] eqn:Hf.
  - eexists _, _. apply load_model_unreadable. by right.
  - destruct d as [[m|] [v|] [X|] [es|] h];
      try (eexists _, _; by apply (load_model_complete _ _ _ _ _ _ _ _ Hf));
      eexists _, _; apply (load_model_incomplete _ _ _ _ Hf); simpl; auto.
  - eexists _, _. apply load_model_unreadable. by left.
Qed.

(** ** Round trip *)

(** C9: a state with a cluster model that [save_model] wrote is what
    [load_model] reads back from that file, into any analyzer: all five
    fields are restored and [load_model] returns [True]. *)
Theorem save_load_roundtrip path s fs s0 :
  model s ≠ None →
  (save_model path s fs).2 = true
  ∧ load_model path (save_model path s fs).1 s0 = (s, Ret true).
Proof.
  intros Hm. rewrite save_model_trained by done. simpl. split; [done|].
  apply load_model_data, lookup_insert_eq.
Qed.

(** A consistent state that was saved is consistent when loaded,
    also after other files were written in between. *)
Theorem load_saved_consistent path s fs fs' s0 :
  consistent s → model s ≠ None →
  fs' !! path = (save_model path s fs).1 !! path →
  consistent (load_model path fs' s0).1.
Proof.
  intros Hc Hm Hf. rewrite save_model_trained in Hf by done. simpl in Hf.
  rewrite lookup_insert_eq in Hf. by rewrite (load_model_data _ _ s).
Qed.

(** C23: a file in which the key ["vectorizer"] is missing makes
    [load_model] return [False] after it has replaced the model: the
    analyzer is left with the file's model and its own old vectorizer,
    matrix, corpus and history. *)
Theorem load_model_not_atomic path fs s d m :
  fs !! path = Some (Pickled d) →
  snap_model d = Some m → snap_vectorizer d = None →
  load_model path fs s = (set_model m s, Ret false).
Proof.
  intros Hf Hm Hv. rewrite (load_model_incomplete _ _ _ _ Hf) by auto.
  unfold partial_load. by rewrite Hm, Hv.
Qed.

(** ** [__init__] *)

Lemma init_no_file model_path fs :
  (∀ path, model_path = Some path → fs !! path = None) →
  init model_path fs = new_analyzer.
Proof.
  intros Hf. unfold init. destruct model_path as [path|]; [|done].
  rewrite (Hf path) by done.
  rewrite (bool_decide_eq_false_2 (is_Some None)) by (by intros [? ?]).
  by rewrite andb_false_r.
Qed.

(** An analyzer started on a file that holds the dictionary of [s] is [s]. *)
Lemma init_model_data path s fs :
  path ≠ [] → fs !! path = Some (Pickled (model_data s)) →
  init (Some path) fs = s.
Proof.
  intros Hp Hf. unfold init. rewrite (load_model_data _ _ s) by done.
  rewrite (bool_decide_eq_false_2 (path = [])) by done.
  by rewrite bool_decide_eq_true_2 by (by rewrite Hf).
Qed.

(** An analyzer started on a file that [save_model] wrote is the analyzer
    that was saved. *)
Lemma init_saved path s fs :
  path ≠ [] → model s ≠ None →
  init (Some path) (save_model path s fs).1 = s.
Proof.
  intros Hp Hm. apply init_model_data; [done|].
  rewrite save_model_trained by done. apply lookup_insert_eq.
Qed.

End persistence_facts.

(** * Examples *)

#[local] Existing Instance demo_tokenizer.
#[local] Existing Instance demo_vectorizer.
#[local] Existing Instance round_robin_kmeans.

Definition demo_path : text := "email_analyzer_model.joblib"%text.

Lemma save_load_roundtrip_witness :
  (save_model demo_path demo_analyzer ∅).2 = true
  ∧ load_model demo_path (save_model demo_path demo_analyzer ∅).1 new_analyzer
    = (demo_analyzer, Ret true).
Proof.
  apply (save_load_roundtrip demo_path demo_analyzer ∅ new_analyzer).
  vm_compute. discriminate.
Defined.

Lemma load_saved_consistent_witness :
  consistent
    (load_model demo_path (save_model demo_path demo_analyzer ∅).1 new_analyzer).1.
Proof.
  apply (load_saved_consistent demo_path demo_analyzer ∅ _ new_analyzer).
  - exact demo_analyzer_consistent.
  - vm_compute. discriminate.
  - reflexivity.
Defined.

(** A file that holds only a model. *)
Definition model_only : snapshot (option (list text)) (nat * list nat) :=
  Snapshot (Some (Some (KMeansNew 5))) None None None None.

Lemma load_model_not_atomic_witness :
  load_model demo_path {[demo_path := Pickled model_only]} demo_analyzer
  = (set_model (Some (KMeansNew 5)) demo_analyzer, Ret false).
Proof.
  apply (load_model_not_atomic demo_path _ demo_analyzer model_only).
  - apply lookup_singleton_eq.
  - reflexivity.
  - reflexivity.
Defined.
