(* ===== verification/Session.v ===== *)
(** * Sessions: sequences of method calls on one analyzer

    A client of [EmailAnalyzer] calls [fit], [get_similar_emails],
    [suggest_template] and [learn_from_task] in some order, each at some
    time, and goes on after a call that raised.  A session is the list of these calls; [session] runs
    it and [run] is the same as a relation, a labelled step per call.  The
    theorems are the invariants of the state over whole sessions. *)

From S2P Require Import Prelude PyValue PyText Normalizer VectorSpace Ledger.
From S2P Require Import Regex Entities Analyzer Similarity Template.

#[local] Open Scope py_scope.

(** A call of one of the methods that change the analyzer. *)
Inductive call :=
| Fit (emails : list pyval)
| GetSimilarEmails (email_text : text) (top_n : Z)
| SuggestTemplate (email_text : text)
| LearnFromTask (task_data : pyval).

(** What is seen of a call: the call, the time and the exception if any. *)
Record label := Label {
  called : call;
  at_time : timestamp;
  raised : option exn;
}.

Definition raised_of {A} (o : outcome A) : option exn :=
  match o with Ret _ => None | Exc e => Some e end.

Definition is_fit (c : call) : bool :=
  match c with Fit _ => true | _ => false end.

(** A call of [fit] that raised. *)
Definition fit_raised (l : label) : bool :=
  is_fit (called l) && bool_decide (raised l ≠ None).

Section session.
Context {V M : Type}.
Context `{!Vectorizer V, !KMeansAlg M, !Cosine, !ArgSort, !Tokenizer}.
Context `{!SetOrder, !Recognizer}.
Implicit Types (s : analyzer V M) (now : timestamp).

(** A computation run for its effect. *)
Definition py_void {A} (c : py (analyzer V M) A) : py (analyzer V M) unit :=
  _ <- c ;; py_ret tt.

Definition perform (c : call) now : py (analyzer V M) unit :=
  match c with
  | Fit emails => fit emails now
  | GetSimilarEmails email_text top_n =>
      py_void (get_similar_emails email_text top_n now)
  | SuggestTemplate email_text => py_void (suggest_template email_text now)
  | LearnFromTask task_data => py_void (learn_from_task task_data now)
  end.

(** The state after the calls, and what was seen of them. *)
Fixpoint session (calls : list (call * timestamp)) s
    : analyzer V M * list label :=
  match calls with
  | [] => (s, [])
  | (c, now) :: calls =>
      let '(s', o) := perform c now s in
      let '(s'', ls) := session calls s' in
      (s'', Label c now (raised_of o) :: ls)
  end.

Inductive step s : label → analyzer V M → Prop :=
| step_call c now s' o :
    perform c now s = (s', o) → step s (Label c now (raised_of o)) s'.

Inductive run : analyzer V M → list label → analyzer V M → Prop :=
| run_nil s : run s [] s
| run_cons s l s' ls s'' : step s l s' → run s' ls s'' → run s (l :: ls) s''.

(** What one call may do to the history: nothing, or one event at the end
    with the time of the call. *)
Definition logs_at_most_one now s s' : Prop :=
  learning_history s' = learning_history s
  ∨ ∃ e, learning_history s' = learning_history s ++ [e] ∧ event_time e = now.

(** The corpus and the matrix of [s] are still there in [s'], at the front,
    under the same vectorizer. *)
Definition extends s s' : Prop :=
  vectorizer s' = vectorizer s
  ∧ (∀ es, emails s = Some es → ∃ es', emails s' = Some es' ∧ es `prefix_of` es')
  ∧ (∀ X, email_vectors s = Some X →
       ∃ X', email_vectors s' = Some X' ∧ ncols X' = ncols X
             ∧ rows X `prefix_of` rows X').

End session.

(** * Facts *)

Section session_facts.
Context {V M : Type}.
Context `{!Vectorizer V, !KMeansAlg M, !Cosine, !ArgSort, !Tokenizer}.
Context `{!SetOrder, !Recognizer}.
Implicit Types (s : analyzer V M) (now : timestamp) (ls : list label).

Lemma py_void_inv {A} (c : py (analyzer V M) A) s s' o :
  py_void c s = (s', o) → ∃ o', c s = (s', o') ∧ raised_of o' = raised_of o.
Proof.
  unfold py_void. py_unfold. destruct (c s) as [s1 [a|e]]; intros [= <- <-];
    by eexists.
Qed.

(** [session] is a run. *)
Lemma session_run calls s : run s (session calls s).2 (session calls s).1.
Proof.
  revert s. induction calls as [|[c now] calls IH]; intros s; simpl.
  { constructor. }
  destruct (perform c now s) as [s' o] eqn:Hp.
  specialize (IH s'). destruct (session calls s') as [s'' ls]. simpl in *.
  econstructor; [|done]. by constructor.
Qed.

(** ** One call *)

Lemma fit_logs (docs : list pyval) now s s' o :
  fit docs now s = (s', o) → logs_at_most_one now s s'.
Proof.
  destruct o as [[]|e].
  - intros (v & X & mdl & _ & -> & _)%fit_Ret_inv. right. by eexists.
  - intros (v & _ & ->)%fit_Exc_inv. by left.
Qed.

Lemma get_similar_emails_logs email_text top_n now s s' o :
  get_similar_emails email_text top_n now s = (s', o) → logs_at_most_one now s s'.
Proof.
  intros [->|[n ->]]%get_similar_emails_state; [by left|]. right. by eexists.
Qed.

Lemma suggest_template_logs email_text now s s' o :
  suggest_template email_text now s = (s', o) → logs_at_most_one now s s'.
Proof.
  intros [->|[n ->]]%suggest_template_state; [by left|]. right. by eexists.
Qed.

(** [learn_from_task] in any state, consistent or not. *)
Lemma learn_from_task_logs task_data now s s' o :
  learn_from_task task_data now s = (s', o) → logs_at_most_one now s s'.
Proof.
  unfold learn_from_task, train_model, logs_at_most_one. py_unfold.
  intros Hrun. repeat case_match; simplify_eq/=; eauto.
Qed.

Lemma step_logs s l s' : step s l s' → logs_at_most_one (at_time l) s s'.
Proof.
  intros [[docs|email_text top_n|email_text|task_data] now s1 o Hp]; simpl in *.
  - by eapply fit_logs.
  - apply py_void_inv in Hp as (o' & Hp & _). by eapply get_similar_emails_logs.
  - apply py_void_inv in Hp as (o' & Hp & _). by eapply suggest_template_logs.
  - apply py_void_inv in Hp as (o' & Hp & _). by eapply learn_from_task_logs.
Qed.

Lemma step_consistent s l s' :
  consistent s → step s l s' → fit_raised l = false → consistent s'.
Proof.
  intros Hc [[docs|email_text top_n|email_text|task_data] now s1 o Hp] Hl;
    simpl in *.
  - destruct o as [[]|e]; [|done].
    apply fit_Ret_inv in Hp as (v & X & mdl & Hfit & -> & _).
    by eapply consistent_fitted.
  - apply py_void_inv in Hp as (o' & Hp & _).
    by apply get_similar_emails_state in Hp as [->|[n ->]].
  - apply py_void_inv in Hp as (o' & Hp & _).
    by apply suggest_template_state in Hp as [->|[n ->]].
  - apply py_void_inv in Hp as (o' & Hp & _).
    eapply learn_path_consistent; [done|]. by apply learn_from_task_inv.
Qed.

Lemma extends_refl s : extends s s.
Proof. split_and!; [done|by eauto..]. Qed.

Lemma extends_log e s : extends s (log e s).
Proof. split_and!; [done|by eauto..]. Qed.

Lemma extends_trans s1 s2 s3 : extends s1 s2 → extends s2 s3 → extends s1 s3.
Proof.
  intros (Hv & He & HX) (Hv' & He' & HX'). split_and!.
  - congruence.
  - intros es (es2 & Hes2 & ?)%He. destruct (He' _ Hes2) as (es3 & ? & ?).
    exists es3. split; [done|]. by etrans.
  - intros X (X2 & HX2 & ? & ?)%HX. destruct (HX' _ HX2) as (X3 & ? & ? & ?).
    exists X3. split_and!; [done|congruence|by etrans].
Qed.

Lemma step_extends s l s' :
  consistent s → step s l s' → is_fit (called l) = false → extends s s'.
Proof.
  intros Hc [[docs|email_text top_n|email_text|task_data] now s1 o Hp] Hl;
    simpl in *.
  - done.
  - apply py_void_inv in Hp as (o' & Hp & _).
    apply get_similar_emails_state in Hp as [->|[n ->]];
      [apply extends_refl|apply extends_log].
  - apply py_void_inv in Hp as (o' & Hp & _).
    apply suggest_template_state in Hp as [->|[n ->]];
      [apply extends_refl|apply extends_log].
  - apply py_void_inv in Hp as (o' & Hp & _).
    apply learn_from_task_inv, learn_path_extends in Hp; [|done].
    destruct Hp as (? & _ & ? & ?). by split_and!.
Qed.

(** ** Whole sessions *)

(** C13: the invariant of the corpus holds over whole sessions: from a
    consistent state (that of a new analyzer is one), after any sequence
    of calls of [fit], [get_similar_emails], [suggest_template] and
    [learn_from_task] in which no call of [fit] raised, the matrix has one row per e-mail of the
    corpus and the vectorizer is fitted with its width. *)
Theorem run_consistent s ls s' :
  consistent s → run s ls s' → Forall (λ l, fit_raised l = false) ls →
  consistent s'.
Proof.
  intros Hc Hrun. induction Hrun as [|s l s1 ls s2 Hstep _ IH]; [done|].
  intros [Hl Hls]%Forall_cons. apply IH; [|done]. by eapply step_consistent.
Qed.

(** C30: the history is append-only: over any session, whatever the calls
    and however they end, the history at the start is a prefix of the
    history at the end, and every call added at most one event. *)
Theorem run_ledger_append_only s ls s' :
  run s ls s' →
  learning_history s `prefix_of` learning_history s'
  ∧ length (learning_history s') ≤ length (learning_history s) + length ls.
Proof.
  induction 1 as [|s l s1 ls s2 Hstep _ [IH1 IH2]].
  { split; [reflexivity|simpl; lia]. }
  destruct (step_logs _ _ _ Hstep) as [Heq|(e & Heq & _)]; rewrite Heq in *.
  - split; [done|]. simpl. lia.
  - split; [by eapply prefix_app_l|]. rewrite length_app in IH2. simpl in *. lia.
Qed.

(** C31: the history is in the order of time: if the times of the events
    already there followed by the times of the calls are in order, the
    times of the events after the session are in order. *)
Theorem run_ledger_chronological s ls s' :
  run s ls s' →
  StronglySorted Z.le ((event_time <$> learning_history s) ++ (at_time <$> ls)) →
  StronglySorted Z.le (event_time <$> learning_history s').
Proof.
  induction 1 as [s|s l s1 ls s2 Hstep _ IH]; [by rewrite app_nil_r|].
  intros Hs. apply IH.
  destruct (step_logs _ _ _ Hstep) as [Heq|(e & Heq & He)]; rewrite Heq.
  - eapply StronglySorted_sublist; [|done].
    apply sublist_app; [done|]. by apply sublist_cons.
  - rewrite fmap_app, <- (assoc_L (++)). simpl. by rewrite He.
Qed.

(** C32: between two calls of [fit] the vocabulary is frozen and nothing
    is rebuilt: over a session without [fit] from a consistent state, the
    vectorizer stays, the corpus only grows at its end, and the matrix
    keeps its width and its rows and only grows at its end. *)
Theorem run_extends s ls s' :
  consistent s → run s ls s' → Forall (λ l, is_fit (called l) = false) ls →
  extends s s'.
Proof.
  intros Hc Hrun. induction Hrun as [|s l s1 ls s2 Hstep _ IH].
  { intros _. apply extends_refl. }
  intros [Hl Hls]%Forall_cons.
  eapply extends_trans; [by eapply step_extends|]. apply IH; [|done].
  eapply step_consistent; [done..|]. unfold fit_raised. by rewrite Hl.
Qed.

End session_facts.

(** * Examples *)

#[local] Existing Instance demo_tokenizer.
#[local] Existing Instance demo_vectorizer.
#[local] Existing Instance round_robin_kmeans.
#[local] Existing Instance overlap_cosine.
#[local] Existing Instance merge_sort_argsort.
#[local] Existing Instance regex_only.
#[local] Existing Instance demo_set_order.

(** After the bootstrap, two searches, two suggestions (the second for a
    text that has a variable) and four calls to learn from a task, one of
    them with task data that is no dictionary. *)
Definition demo_calls : list (call * timestamp) :=
  [(GetSimilarEmails demo_query 3, 1%Z);
   (LearnFromTask demo_task, 2%Z);
   (LearnFromTask (PInt 7), 3%Z);
   (SuggestTemplate new_email, 3%Z);
   (LearnFromTask demo_task, 4%Z);
   (SuggestTemplate "Dear {{name}}"%text, 4%Z);
   (GetSimilarEmails demo_query (-1), 5%Z);
   (LearnFromTask demo_task, 6%Z)].

Definition demo_session : analyzer (option (list text)) (nat * list nat) * list label :=
  session demo_calls demo_analyzer.

Example demo_session_labels :
  raised <$> demo_session.2
  = [None; None; Some AttributeError; None; None; None; None; None]
  ∧ corpus_size demo_session.1 = 8
  ∧ event_name <$> learning_history demo_session.1
    = ["model_training"; "similarity_search"; "task_learning";
       "template_suggestion"; "task_learning"; "similarity_search";
       "task_learning"]%text.
Proof. vm_compute. done. Qed.

Lemma run_consistent_witness : consistent demo_session.1.
Proof.
  apply (run_consistent demo_analyzer demo_session.2 demo_session.1).
  - exact demo_analyzer_consistent.
  - apply session_run.
  - apply (bool_decide_unpack _). vm_compute. exact I.
Defined.

Lemma run_ledger_append_only_witness :
  learning_history demo_analyzer `prefix_of` learning_history demo_session.1
  ∧ length (learning_history demo_session.1)
    ≤ length (learning_history demo_analyzer) + length demo_session.2.
Proof.
  apply (run_ledger_append_only demo_analyzer demo_session.2 demo_session.1).
  apply session_run.
Defined.

Lemma run_ledger_chronological_witness :
  StronglySorted Z.le (event_time <$> learning_history demo_session.1).
Proof.
  apply (run_ledger_chronological demo_analyzer demo_session.2 demo_session.1).
  - apply session_run.
  - apply (bool_decide_unpack _). vm_compute. exact I.
Defined.

Lemma run_extends_witness : extends demo_analyzer demo_session.1.
Proof.
  apply (run_extends demo_analyzer demo_session.2 demo_session.1).
  - exact demo_analyzer_consistent.
  - apply session_run.
  - apply (bool_decide_unpack _). vm_compute. exact I.
Defined.
