(* ===== verification/Refinement.v ===== *)
(** * The analyzer as its clients see it, and the refinement

    What a client can tell of an analyzer is its corpus, whether and on
    how many e-mails the cluster model was trained, and the history.
    [corpus] is that view, and [spec_perform] says what each call does to
    it: no vectorizer, no matrix and no exception.  [abstract] maps an
    analyzer to its view.

    The refinement theorems say that the methods of [EmailAnalyzer]
    implement [spec_perform]: from a consistent state, the view after a
    call is the view before it changed by [spec_perform], for every call
    but a [fit] that raised, and the same over whole sessions. *)

From S2P Require Import Prelude PyValue PyText Normalizer VectorSpace Ledger.
From S2P Require Import Regex Entities Analyzer Similarity Template Session.

#[local] Open Scope py_scope.

(** The cluster model: none, one that was never fitted, or one with its
    number of clusters and the number of e-mails it labels. *)
Inductive clustering :=
| Untrained
| Unfitted (k : nat)
| Clustered (clusters labelled : nat).

Record corpus := Corpus {
  documents : option (list pyval);
  grouping : clustering;
  ledger : list event;
}.

#[global] Instance clustering_eq_dec : EqDecision clustering.
Proof. solve_decision. Defined.

(** The number of results of a search over [n] e-mails. *)
Definition num_results (n : nat) (top_n : Z) : nat :=
  slice_count n top_n `min` (n - 1).

(** ** The specification *)

(** [fit]: the corpus is replaced, five clusters over all of it if it
    has five e-mails, the model of before if not. *)
Definition spec_fit (docs : list pyval) (now : timestamp) (a : corpus) : corpus :=
  Corpus (Some docs)
    (if decide (5 ≤ length docs) then Clustered 5 (length docs) else grouping a)
    (ledger a ++ [ModelTraining now (length docs)]).

(** [get_similar_emails]: one event if there is a corpus. *)
Definition spec_search (email_text : text) (top_n : Z) (now : timestamp)
    (a : corpus) : corpus :=
  match documents a with
  | Some es =>
      Corpus (documents a) (grouping a)
        (ledger a ++ [SimilaritySearch now (query_prefix email_text)
                        (num_results (length es) top_n)])
  | None => a
  end.

(** [learn_from_task]: a truthy message joins a corpus that is there; the
    clusters are renewed when the size becomes a multiple of five and
    stay behind otherwise. *)
Definition spec_learn (task_data : pyval) (now : timestamp) (a : corpus) : corpus :=
  match task_data, documents a with
  | PDict d, Some es =>
      if truthy (message_of d) then
        Corpus (Some (es ++ [message_of d]))
          (if decide ((length es + 1) `mod` 5 = 0)
           then Clustered 5 (length es + 1) else grouping a)
          (ledger a ++ [TaskLearning now (task_id_of d) (truthy (template_of d))])
      else a
  | _, _ => a
  end.

Section spec.
Context `{!SetOrder, !Recognizer}.

(** The number of variables [suggest_template] finds for a text. *)
Definition num_variables (email_text : text) : nat :=
  length (replace_entities (extract_entities email_text) (email_text, [])).2.

(** [suggest_template]: one event unless the text has variables. *)
Definition spec_suggest (email_text : text) (now : timestamp) (a : corpus) : corpus :=
  if bool_decide (extract_variables email_text ≠ []) then a
  else Corpus (documents a) (grouping a)
         (ledger a ++ [TemplateSuggestion now (num_variables email_text)]).

Definition spec_perform (c : call) (now : timestamp) (a : corpus) : corpus :=
  match c with
  | Fit docs => spec_fit docs now a
  | GetSimilarEmails email_text top_n => spec_search email_text top_n now a
  | SuggestTemplate email_text => spec_suggest email_text now a
  | LearnFromTask task_data => spec_learn task_data now a
  end.

Definition spec_session (calls : list (call * timestamp)) (a : corpus) : corpus :=
  foldl (λ a c, spec_perform c.1 c.2 a) a calls.

(** The same over what was seen of a run. *)
Definition spec_run (ls : list label) (a : corpus) : corpus :=
  foldl (λ a l, spec_perform (called l) (at_time l) a) a ls.

End spec.

(** ** The abstraction *)

Section abstraction.
Context {V M : Type} `{!KMeansAlg M}.

Definition clustering_of (m : option (kmeans M)) : clustering :=
  match m with
  | None => Untrained
  | Some (KMeansNew k) => Unfitted k
  | Some (KMeansFitted m) => Clustered (n_clusters m) (length (labels m))
  end.

Definition abstract (s : analyzer V M) : corpus :=
  Corpus (emails s) (clustering_of (model s)) (learning_history s).

End abstraction.

(** * Facts *)

Section refinement.
Context {V M : Type}.
Context `{!Vectorizer V, !KMeansAlg M, !Cosine, !ArgSort, !Tokenizer}.
Context `{!SetOrder, !Recognizer}.
Implicit Types (s : analyzer V M) (now : timestamp) (a : corpus).

(** A model fitted with five clusters on a matrix of [n] rows. *)
Lemma clustering_of_fitted X m n :
  kmeans_fit 5 X = Ret m → nrows X = n →
  clustering_of (Some (KMeansFitted m)) = Clustered 5 n.
Proof. intros (Hk & Hl & _)%kmeans_fit_shape <-. simpl. by rewrite Hk, Hl. Qed.

(** ** Method by method *)

Lemma fit_refines (docs : list pyval) now s s' :
  fit docs now s = (s', Ret tt) → abstract s' = spec_fit docs now (abstract s).
Proof.
  intros (v & X & mdl & Hfit & -> & Hmdl)%fit_Ret_inv.
  apply fit_transform_shape in Hfit as (Hrows & _). rewrite length_fmap in Hrows.
  unfold abstract, spec_fit. simpl. f_equal. case_decide; [|by subst].
  destruct Hmdl as (m & Hm & ->). by eapply clustering_of_fitted.
Qed.

Lemma get_similar_emails_refines email_text top_n now s s' o :
  consistent s → get_similar_emails email_text top_n now s = (s', o) →
  abstract s' = spec_search email_text top_n now (abstract s).
Proof.
  intros Hc. unfold spec_search. simpl. destruct (emails s) as [es|] eqn:Hes.
  - destruct (consistent_Some s es Hc Hes) as (X & HX & _).
    destruct (get_similar_emails_defined email_text top_n s es X Hc Hes HX)
      as (q & results & Hq & Hres & _ & Hlen).
    rewrite (get_similar_emails_Ret _ _ _ _ es X q results) by done.
    intros [= <- _]. unfold abstract. simpl. rewrite Hes. do 3 f_equal.
    apply length_mapM in Hres as <-.
    by rewrite similar_indices_length, length_fmap, Hlen.
  - unfold get_similar_emails. py_unfold.
    rewrite (consistent_None s Hc Hes). intros [= <- _].
    unfold abstract. by rewrite Hes.
Qed.

Lemma suggest_template_refines email_text now s s' o :
  suggest_template email_text now s = (s', o) →
  abstract s' = spec_suggest email_text now (abstract s).
Proof.
  unfold spec_suggest. case_bool_decide as Hv.
  - unfold suggest_template. rewrite bool_decide_eq_true_2 by done.
    by intros [= <- _].
  - rewrite suggest_template_generated by done.
    by intros [= <- _].
Qed.

Lemma learn_path_refines task_data now s s' o :
  consistent s → learn_path task_data now s s' o →
  abstract s' = spec_learn task_data now (abstract s).
Proof.
  intros Hc Hp. pose proof (learn_path_consistent _ _ _ _ _ Hc Hp) as Hc'.
  destruct Hp as [Hnd|d -> Hno|d es X R X' mdl -> Hmsg Hes HX _ _ Hmdl].
  - by destruct task_data; try done; destruct (Hnd d).
  - unfold spec_learn. simpl. destruct (emails s); [|done].
    by destruct Hno as [->|].
  - destruct (consistent_Some _ _ Hc' eq_refl) as (? & [= <-] & Hrows & _).
    rewrite length_app in Hrows. simpl in Hrows.
    unfold abstract, spec_learn. simpl. rewrite Hes, Hmsg. f_equal.
    case_decide; [|by subst]. destruct Hmdl as (m & Hm & ->).
    by eapply clustering_of_fitted.
Qed.

(** ** One call *)

Lemma perform_refines c now s s' o :
  consistent s → perform c now s = (s', o) →
  (is_fit c = true → o = Ret tt) →
  abstract s' = spec_perform c now (abstract s).
Proof.
  intros Hc Hp Hfit. destruct c as [docs|email_text top_n|email_text|task_data];
    simpl in *.
  - rewrite Hfit in Hp by done. by apply fit_refines.
  - apply py_void_inv in Hp as (o' & Hp & _).
    by eapply get_similar_emails_refines.
  - apply py_void_inv in Hp as (o' & Hp & _). by eapply suggest_template_refines.
  - apply py_void_inv in Hp as (o' & Hp & _).
    eapply learn_path_refines; [done|]. by apply learn_from_task_inv.
Qed.

(** A call that is no [fit], or a [fit] that returned. *)
Lemma fit_raised_false c now (o : outcome unit) :
  fit_raised (Label c now (raised_of o)) = false → is_fit c = true → o = Ret tt.
Proof.
  unfold fit_raised. simpl. intros Hl Hf. rewrite Hf in Hl.
  destruct o as [[]|e]; [done|]. by rewrite bool_decide_eq_true_2 in Hl.
Qed.

(** The calls of a session are those it was given. *)
Lemma session_called calls : ∀ s, called <$> (session calls s).2 = calls.*1.
Proof.
  induction calls as [|[c now] calls IH]; intros s; simpl; [done|].
  destruct (perform c now s) as [s' o]. specialize (IH s').
  destruct (session calls s') as [s'' ls]. simpl in *. by f_equal.
Qed.

(** ** Sessions *)

Lemma step_refines s l s' :
  consistent s → step s l s' → fit_raised l = false →
  abstract s' = spec_perform (called l) (at_time l) (abstract s).
Proof.
  intros Hc [c now s1 o Hp] Hl. eapply perform_refines; [done..|].
  by apply (fit_raised_false c now).
Qed.

(** Every run is a run of the specification. *)
Lemma run_refines s ls s' :
  consistent s → run s ls s' → Forall (λ l, fit_raised l = false) ls →
  abstract s' = spec_run ls (abstract s).
Proof.
  intros Hc Hrun. induction Hrun as [|s l s1 ls s2 Hstep _ IH]; [done|].
  intros [Hl Hls]%Forall_cons. simpl. rewrite <- (step_refines s l s1) by done.
  apply IH; [by eapply step_consistent|done].
Qed.

(** The specification reads the calls and their times only. *)
Lemma spec_run_session calls : ∀ s a,
  spec_run (session calls s).2 a = spec_session calls a.
Proof.
  induction calls as [|[c now] calls IH]; intros s a; simpl; [done|].
  destruct (perform c now s) as [s' o]. specialize (IH s').
  destruct (session calls s') as [s'' ls]. simpl in *. apply IH.
Qed.

(** C11: the analyzer refines its specification: from a consistent state,
    over any session in which no [fit] raised, the corpus, the clusters
    and the history after the session are those [spec_session] computes
    from the ones before it, which takes neither vectorizer nor matrix. *)
Theorem session_refines calls s :
  consistent s → Forall (λ l, fit_raised l = false) (session calls s).2 →
  abstract (session calls s).1 = spec_session calls (abstract s).
Proof.
  intros Hc Hls. rewrite <- (spec_run_session calls s).
  apply run_refines; [done|apply session_run|done].
Qed.

End refinement.

(** ** The window of staleness, on the specification *)

(** The clusters label a front part of the corpus, and the rest is short
    of the next multiple of five. *)
Definition window (a : corpus) : Prop :=
  match grouping a, documents a with
  | Clustered _ l, Some es => l ≤ length es ∧ length es `div` 5 = l `div` 5
  | _, _ => False
  end.

Lemma div5_succ n l :
  l ≤ n → n `div` 5 = l `div` 5 → (n + 1) `mod` 5 ≠ 0 →
  (n + 1) `div` 5 = l `div` 5.
Proof.
  intros Hl <- Hm.
  pose proof (Nat.div_mod_eq n 5). pose proof (Nat.div_mod_eq (n + 1) 5).
  pose proof (Nat.mod_upper_bound n 5). pose proof (Nat.mod_upper_bound (n + 1) 5).
  lia.
Qed.

Lemma div5_window n l : l ≤ n → n `div` 5 = l `div` 5 → n < l + 5.
Proof.
  intros Hl Hd.
  pose proof (Nat.div_mod_eq n 5). pose proof (Nat.div_mod_eq l 5).
  pose proof (Nat.mod_upper_bound n 5). pose proof (Nat.mod_upper_bound l 5).
  lia.
Qed.

Section window.
Context `{!SetOrder, !Recognizer}.

Lemma spec_learn_window task_data now a : window a → window (spec_learn task_data now a).
Proof.
  unfold window, spec_learn. destruct a as [[es|] [| |k l] hist]; simpl; try done.
  intros [Hl Hd]. destruct task_data as [| | | | | |d]; try done.
  destruct (truthy _); [|done]. simpl.
  rewrite length_app. simpl. case_decide; [done|].
  split; [lia|by apply div5_succ].
Qed.

Lemma spec_perform_window c now a :
  is_fit c = false → window a → window (spec_perform c now a).
Proof.
  destruct c as [docs|email_text top_n|email_text|task_data]; simpl; [done|..].
  - unfold spec_search. by destruct a as [[es|] ? ?].
  - unfold spec_suggest. by case_bool_decide.
  - intros _. apply spec_learn_window.
Qed.

Lemma spec_session_window calls : ∀ a,
  Forall (λ c, is_fit c = false) calls.*1 → window a →
  window (spec_session calls a).
Proof.
  induction calls as [|[c now] calls IH]; intros a Hf Hw; simpl; [done|].
  apply Forall_cons in Hf as [Hc Hf]. by apply IH, spec_perform_window.
Qed.

End window.

(** ** The window of staleness, on the analyzer *)

Section staleness.
Context {V M : Type}.
Context `{!Vectorizer V, !KMeansAlg M, !Cosine, !ArgSort, !Tokenizer}.
Context `{!SetOrder, !Recognizer}.
Implicit Types (s : analyzer V M).

(** A session without [fit] has no [fit] that raised. *)
Lemma no_fit_raised calls s :
  Forall (λ c, is_fit c = false) calls.*1 →
  Forall (λ l, fit_raised l = false) (session calls s).2.
Proof.
  rewrite <- (session_called calls s), Forall_fmap. intros Hf.
  eapply Forall_impl; [done|]. intros l Hl. unfold fit_raised.
  simpl in Hl. by rewrite Hl.
Qed.

(** C12: the cluster labels never fall five e-mails behind: from a
    consistent state whose cluster model labels the whole corpus, after
    any session without [fit] there is a fitted cluster model, it labels
    a front part of the corpus, and fewer than five e-mails have no
    label.  Proved on the specification and carried over by the
    refinement. *)
Theorem staleness_window calls s k :
  consistent s → emails s ≠ None →
  grouping (abstract s) = Clustered k (corpus_size s) →
  Forall (λ c, is_fit c = false) calls.*1 →
  ∃ k' l, grouping (abstract (session calls s).1) = Clustered k' l
          ∧ l ≤ corpus_size (session calls s).1 < l + 5.
Proof.
  intros Hc Hes Hg Hf.
  assert (window (abstract s)) as Hw.
  { unfold window. rewrite Hg. unfold corpus_size. simpl.
    by destruct (emails s). }
  apply (spec_session_window calls) in Hw; [|done].
  rewrite <- (spec_run_session calls s),
    <- (run_refines s _ (session calls s).1) in Hw
    by (done || apply session_run || by apply no_fit_raised).
  unfold window, corpus_size in *.
  destruct (grouping (abstract (session calls s).1)) as [| |k' l]; try done.
  simpl in Hw.
  destruct (emails (session calls s).1); [|done]. destruct Hw as [? ?].
  exists k', l. split; [done|]. simpl. split; [done|by apply div5_window].
Qed.

End staleness.

(** * Examples *)

#[local] Existing Instance demo_tokenizer.
#[local] Existing Instance demo_vectorizer.
#[local] Existing Instance round_robin_kmeans.
#[local] Existing Instance overlap_cosine.
#[local] Existing Instance merge_sort_argsort.
#[local] Existing Instance regex_only.
#[local] Existing Instance demo_set_order.

Definition message_of_task (task_data : pyval) : pyval :=
  match task_data with PDict d => message_of d | _ => PNone end.

(** The view of the analyzer after the session of the examples, computed
    by the specification from the view of the trained analyzer. *)
Example spec_session_demo :
  spec_session demo_calls (Corpus (Some sample_emails) (Clustered 5 5)
                             [ModelTraining 0 5])
  = Corpus (Some (sample_emails ++ replicate 3 (message_of_task demo_task)))
      (Clustered 5 5)
      [ModelTraining 0 5;
       SimilaritySearch 1 (query_prefix demo_query) 3;
       TaskLearning 2 (PStr "task-17"%text) true;
       TemplateSuggestion 3 4;
       TaskLearning 4 (PStr "task-17"%text) true;
       SimilaritySearch 5 (query_prefix demo_query) 6;
       TaskLearning 6 (PStr "task-17"%text) true].
Proof. vm_compute. reflexivity. Qed.

Lemma session_refines_witness :
  abstract demo_session.1 = spec_session demo_calls (abstract demo_analyzer).
Proof.
  apply (session_refines demo_calls demo_analyzer).
  - exact demo_analyzer_consistent.
  - apply (bool_decide_unpack _). vm_compute. exact I.
Defined.

Lemma staleness_window_witness :
  ∃ k' l, grouping (abstract demo_session.1) = Clustered k' l
          ∧ l ≤ corpus_size demo_session.1 < l + 5.
Proof.
  apply (staleness_window demo_calls demo_analyzer 5).
  - exact demo_analyzer_consistent.
  - vm_compute. discriminate.
  - vm_compute. reflexivity.
  - apply (bool_decide_unpack _). vm_compute. exact I.
Defined.
