(* ===== verification/Scores.v ===== *)
(** * The range of the similarity scores

    TF-IDF weights are not negative, and the cosine of two vectors without
    negative entries lies between 0 and 1.  With these two facts about the
    libraries ([VectorizerNonneg], [CosineBounded]) every score that
    [get_similar_emails] returns lies between 0 and 1: the matrix never
    holds a negative entry ([nonneg_rows], an invariant of every session),
    and neither does the vector of a query. *)

From Stdlib Require Import Lqa.
From S2P Require Import Prelude PyValue PyText Normalizer VectorSpace Ledger.
From S2P Require Import Regex Entities Analyzer Similarity Template Session.

#[local] Open Scope py_scope.

Definition nonneg_row (x : list Q) : Prop := Forall (λ a, 0 <= a)%Q x.

Definition nonneg (X : matrix) : Prop := Forall nonneg_row (rows X).

(** What [TfidfVectorizer] returns has no negative entry. *)
Class VectorizerNonneg (V : Type) `{!Vectorizer V} := {
  fit_transform_nonneg v docs v' X :
    fit_transform v docs = (v', Ret X) → nonneg X;
  transform_nonneg v docs X : transform v docs = Ret X → nonneg X;
}.

(** The matrix of the analyzer has no negative entry. *)
Definition nonneg_rows {V M} (s : analyzer V M) : Prop :=
  match email_vectors s with
  | Some X => nonneg X
  | None => True
  end.

(** * Facts *)

(** ** The instances of the examples *)

Lemma qsum_nonneg x : nonneg_row x → (0 <= qsum x)%Q.
Proof. induction 1 as [|a x Ha _ IH]; simpl; [done|lra]. Qed.

(** The part of a row that lies on the columns another row uses. *)
Lemma qsum_masked x : ∀ y,
  nonneg_row x →
  (0 <= qsum (zip_with (λ a b, if Qeq_bool b 0 then 0 else a) x y) <= qsum x)%Q.
Proof.
  induction x as [|a x IH]; intros [|b y] Hx; simpl; try lra.
  - apply qsum_nonneg in Hx. simpl in Hx. lra.
  - apply Forall_cons in Hx as [Ha Hx]. specialize (IH y Hx).
    destruct (Qeq_bool b 0); lra.
Qed.

(** A quotient of a part by the whole. *)
Lemma Qdiv_part a b : (0 <= a <= b)%Q → (0 <= a / b <= 1)%Q.
Proof.
  intros [Ha Hb]. destruct (Qlt_le_dec 0 b) as [Hpos|Hzero].
  - split; [by apply Qle_shift_div_l; [|lra]|apply Qle_shift_div_r; [done|lra]].
  - assert (b == 0)%Q as -> by lra. unfold Qdiv. rewrite Qmult_0_r. lra.
Qed.

#[global] Instance overlap_bounded : @CosineBounded overlap_cosine.
Proof.
  split. intros x y Hx _. simpl. unfold overlap.
  apply Qdiv_part, qsum_masked, Hx.
Qed.

Lemma count_matrix_nonneg vocab docs : nonneg (count_matrix vocab docs).
Proof.
  unfold nonneg, count_matrix, nonneg_row, count_row. simpl.
  apply Forall_fmap, Forall_true. intros doc. apply Forall_fmap, Forall_true.
  intros w. simpl. change 0%Q with (inject_Z 0).
  rewrite <- Zle_Qle. lia.
Qed.

#[global] Instance count_vectorizer_nonneg split :
  @VectorizerNonneg _ (count_vectorizer split).
Proof.
  split.
  - intros v docs v' X. simpl. unfold count_fit.
    destruct (remove_dups _); [done|]. intros [= _ <-]. apply count_matrix_nonneg.
  - intros [vocab|] docs X; simpl; [|done]. intros [= <-].
    apply count_matrix_nonneg.
Qed.

(** ** The invariant *)

Section scores.
Context {V M : Type}.
Context `{!Vectorizer V, !KMeansAlg M, !Cosine, !ArgSort, !Tokenizer}.
Context `{!SetOrder, !Recognizer, !VectorizerNonneg V, !CosineBounded}.
Implicit Types (s : analyzer V M) (now : timestamp).

Lemma fit_nonneg (docs : list pyval) now s s' :
  fit docs now s = (s', Ret tt) → nonneg_rows s'.
Proof.
  intros (v & X & mdl & Hfit & -> & _)%fit_Ret_inv.
  by apply fit_transform_nonneg in Hfit.
Qed.

Lemma learn_path_nonneg task_data now s s' o :
  learn_path task_data now s s' o → nonneg_rows s → nonneg_rows s'.
Proof.
  intros [| |d es X R X' mdl _ _ _ HX HR [_ ->]%vstack_Ret _] Hn; [done..|].
  unfold nonneg_rows in *. rewrite HX in Hn. simpl.
  apply Forall_app. split; [done|]. by eapply transform_nonneg.
Qed.

Lemma step_nonneg s l s' :
  consistent s → nonneg_rows s → step s l s' → fit_raised l = false →
  nonneg_rows s'.
Proof.
  intros Hc Hn [[docs|email_text top_n|email_text|task_data] now s1 o Hp] Hl;
    simpl in *.
  - destruct o as [[]|e]; [|done]. by eapply fit_nonneg.
  - apply py_void_inv in Hp as (o' & Hp & _).
    by apply get_similar_emails_state in Hp as [->|[n ->]].
  - apply py_void_inv in Hp as (o' & Hp & _).
    by apply suggest_template_state in Hp as [->|[n ->]].
  - apply py_void_inv in Hp as (o' & Hp & _).
    eapply learn_path_nonneg; [|done]. by apply learn_from_task_inv.
Qed.

(** No session brings a negative entry into the matrix. *)
Lemma run_nonneg s ls s' :
  consistent s → nonneg_rows s → run s ls s' →
  Forall (λ l, fit_raised l = false) ls → nonneg_rows s'.
Proof.
  intros Hc Hn Hrun. induction Hrun as [|s l s1 ls s2 Hstep _ IH]; [done|].
  intros [Hl Hls]%Forall_cons.
  apply IH; [by eapply step_consistent|by eapply step_nonneg|done].
Qed.

(** ** The scores *)

Lemma get_similar_emails_range email_text top_n now s results :
  consistent s → nonneg_rows s →
  (get_similar_emails email_text top_n now s).2 = Ret results →
  Forall (λ r, 0 <= similarity r <= 1)%Q results.
Proof.
  intros Hc Hn. destruct (emails s) as [es|] eqn:Hes.
  - destruct (consistent_Some s es Hc Hes) as (X & HX & _).
    destruct (get_similar_emails_defined email_text top_n s es X Hc Hes HX)
      as (q & results0 & Hq & Hres & HF & _).
    rewrite (get_similar_emails_Ret _ _ now _ es X q results0) by done.
    intros [= <-]. apply transform_nonneg in Hq. unfold nonneg in Hq.
    simpl in Hq. apply Forall_cons in Hq as [Hq _].
    unfold nonneg_rows in Hn. rewrite HX in Hn.
    apply (Forall2_Forall_r _ _ _ _ HF), Forall_true. intros i r [_ Hs].
    rewrite list_lookup_fmap in Hs. destruct (rows X !! i) as [x|] eqn:Hx; [|done].
    injection Hs as <-.
    apply cosine_bounds; [exact Hq|exact (Forall_lookup_1 _ _ _ _ Hn Hx)].
  - unfold get_similar_emails. py_unfold.
    rewrite (consistent_None s Hc Hes). by intros [= <-].
Qed.

(** C29: the scenario of a search: in a consistent state without negative
    entries (that of every session after a [fit] that returned), a call
    with a [top_n] that is not negative returns at most [top_n] results,
    each an e-mail of the corpus with a score between 0 and 1, in
    descending order of the scores. *)
Theorem get_similar_emails_scored email_text top_n now s es :
  consistent s → nonneg_rows s → emails s = Some es → (0 ≤ top_n)%Z →
  ∃ results,
    (get_similar_emails email_text top_n now s).2 = Ret results
    ∧ length results ≤ Z.to_nat top_n
    ∧ Forall (λ r, email r ∈ es ∧ (0 <= similarity r <= 1)%Q) results
    ∧ StronglySorted (flip Qle) (similarity <$> results).
Proof.
  intros Hc Hn Hes Htop.
  destruct (get_similar_emails_results email_text top_n now s es Hc Hes Htop)
    as (results & Hrun & Hlen & _ & Hin & Hsorted).
  exists results. split_and!; [done..| |done].
  apply Forall_and. split; [done|]. by eapply get_similar_emails_range.
Qed.

End scores.

(** * Examples *)

#[local] Existing Instance demo_tokenizer.
#[local] Existing Instance demo_vectorizer.
#[local] Existing Instance round_robin_kmeans.
#[local] Existing Instance overlap_cosine.
#[local] Existing Instance merge_sort_argsort.
#[local] Existing Instance regex_only.
#[local] Existing Instance demo_set_order.

Lemma demo_analyzer_nonneg : nonneg_rows demo_analyzer.
Proof. apply (fit_nonneg sample_emails 0 new_analyzer). vm_compute. reflexivity. Qed.

(** The scores of the e-mail of the demonstration against the five sample
    e-mails, the best match left out. *)
Example get_similar_emails_scores_demo :
  similarity <$> default [] (match (get_similar_emails demo_query 3 1 demo_analyzer).2
                             with Ret l => Some l | Exc _ => None end)
  = [(1 # 2)%Q; (0 # 2)%Q; (0 # 2)%Q].
Proof. vm_compute. reflexivity. Qed.

Lemma get_similar_emails_scored_witness :
  ∃ results,
    (get_similar_emails demo_query 3 1 demo_analyzer).2 = Ret results
    ∧ length results ≤ Z.to_nat 3
    ∧ Forall (λ r, email r ∈ sample_emails ∧ (0 <= similarity r <= 1)%Q) results
    ∧ StronglySorted (flip Qle) (similarity <$> results).
Proof.
  apply (get_similar_emails_scored demo_query 3 1 demo_analyzer sample_emails).
  - exact demo_analyzer_consistent.
  - exact demo_analyzer_nonneg.
  - vm_compute. reflexivity.
  - lia.
Defined.
