(* ===== verification/Api.v ===== *)
(** * The command-line program: start-up of [email_analyzer_api.main]

    Every invocation of the program builds an analyzer on the model file,
    trains it on the five sample e-mails if it has no cluster model then,
    and saves it.  [startup] is that part of [main]; the disk is threaded
    through it.  The dispatch on the command that follows it is in
    [Main]. *)

From stdpp Require Import gmap.
From S2P Require Import Prelude PyValue PyText Normalizer VectorSpace Ledger.
From S2P Require Import Analyzer Persistence.

#[local] Open Scope py_scope.

Section startup.
Context {V M : Type}.
Context `{!Vectorizer V, !KMeansAlg M, !Tokenizer}.
Implicit Types (fs : gmap text (file V M)) (now : timestamp).

(** The disk and the analyzer after start-up, and the exception of [fit]
    if it raised one (it then ends [main]). *)
Definition startup (model_path : text) now fs
    : gmap text (file V M) * analyzer V M * outcome unit :=
  let analyzer := init (Some model_path) fs in
  if bool_decide (model analyzer = None) then
    match fit sample_emails now analyzer with
    | (analyzer, Ret _) =>
        ((save_model model_path analyzer fs).1, analyzer, Ret tt)
    | (analyzer, Exc e) => (fs, analyzer, Exc e)
    end
  else (fs, analyzer, Ret tt).

End startup.

(** * Facts *)

Section startup_facts.
Context {V M : Type}.
Context `{!Vectorizer V, !KMeansAlg M, !Tokenizer}.
Implicit Types (fs : gmap text (file V M)) (now : timestamp) (a : analyzer V M).

(** [fit] on the sample e-mails, when it returns, has trained a model. *)
Lemma fit_sample_trained now a a' :
  fit sample_emails now a = (a', Ret tt) → model a' ≠ None ∧ consistent a'.
Proof.
  intros (v & X & mdl & Hfit & -> & Hm)%fit_Ret_inv. simpl in Hm.
  destruct Hm as (m & _ & ->). split; [done|]. by eapply consistent_fitted.
Qed.

(** The two ways start-up returns. *)
Lemma startup_Ret model_path now fs fs' a :
  startup model_path now fs = (fs', a, Ret tt) →
  (a = init (Some model_path) fs ∧ model a ≠ None ∧ fs' = fs)
  ∨ (model (init (Some model_path) fs) = None
     ∧ fit sample_emails now (init (Some model_path) fs) = (a, Ret tt)
     ∧ fs' = <[model_path := Pickled (model_data a)]> fs).
Proof.
  unfold startup. case_bool_decide as Hm.
  - destruct (fit _ _ _) as [a1 [[]|e]] eqn:Hfit; [|done]. intros [= <- <-].
    right. split_and!; [done..|].
    rewrite save_model_trained; [done|]. by eapply fit_sample_trained.
  - intros [= <- <-]. by left.
Qed.

(** Start-up without a usable model file. *)
Lemma startup_untrained model_path now fs a :
  fs !! model_path = None ∨ fs !! model_path = Some Unreadable →
  fit sample_emails now new_analyzer = (a, Ret tt) →
  startup model_path now fs
  = (<[model_path := Pickled (model_data a)]> fs, a, Ret tt).
Proof.
  intros Hf Hfit. destruct (fit_sample_trained _ _ _ Hfit) as [Hm Hc].
  unfold startup, init. rewrite load_model_unreadable by done. simpl.
  destruct (_ && _); simpl; by rewrite Hfit, save_model_trained.
Qed.

(** C33: start-up without a usable model file (none, or one that cannot
    be read) trains on the five sample e-mails and writes the model file:
    the analyzer that results is consistent, has a cluster model, and is
    what the file holds. *)
Theorem startup_bootstrap model_path now fs a :
  fs !! model_path = None ∨ fs !! model_path = Some Unreadable →
  fit sample_emails now new_analyzer = (a, Ret tt) →
  startup model_path now fs
  = (<[model_path := Pickled (model_data a)]> fs, a, Ret tt)
  ∧ consistent a ∧ model a ≠ None.
Proof.
  intros Hf Hfit. destruct (fit_sample_trained _ _ _ Hfit) as [Hm Hc].
  split; [|done]. by apply startup_untrained.
Qed.

(** Start-up is idempotent: after a start-up that returned, the next
    start-up on the disk it left finds the model, builds the same
    analyzer, does not train and leaves the disk as it is. *)
Theorem startup_idempotent model_path now now' fs fs' a :
  model_path ≠ [] →
  startup model_path now fs = (fs', a, Ret tt) →
  startup model_path now' fs' = (fs', a, Ret tt).
Proof.
  intros Hp [(-> & Hm & ->)|(_ & Hfit & ->)]%startup_Ret.
  - unfold startup. by rewrite bool_decide_eq_false_2.
  - destruct (fit_sample_trained _ _ _ Hfit) as [Hm _].
    unfold startup.
    rewrite (init_model_data _ a) by (done || apply lookup_insert_eq).
    by rewrite bool_decide_eq_false_2.
Qed.

(** C34: a model file that holds a model but lacks the key ["vectorizer"]
    makes [load_model] fail after it has set the model; start-up then
    sees a model, does not train, and goes on with an analyzer that has
    neither corpus nor matrix and a vectorizer that was never fitted. *)
Theorem startup_partial_snapshot model_path now fs d m :
  model_path ≠ [] →
  fs !! model_path = Some (Pickled d) →
  snap_model d = Some (Some m) → snap_vectorizer d = None →
  startup model_path now fs
  = (fs, set_model (Some m) new_analyzer, Ret tt).
Proof.
  intros Hp Hf Hm Hv. unfold startup, init.
  rewrite (bool_decide_eq_false_2 (model_path = [])) by done.
  rewrite (bool_decide_eq_true_2 (is_Some _)) by (by rewrite Hf). simpl.
  rewrite (load_model_incomplete _ _ _ _ Hf) by auto.
  unfold partial_load. by rewrite Hm, Hv.
Qed.

End startup_facts.

(** * Examples *)

#[local] Existing Instance demo_tokenizer.
#[local] Existing Instance demo_vectorizer.
#[local] Existing Instance round_robin_kmeans.

(** The first invocation, on an empty disk at time 0, by evaluation. *)
Lemma startup_bootstrap_demo :
  startup demo_path 0 ∅
  = (<[demo_path := Pickled (model_data demo_analyzer)]> ∅, demo_analyzer, Ret tt).
Proof.
  apply startup_untrained; [left; apply lookup_empty|]. vm_compute. reflexivity.
Qed.

Lemma startup_bootstrap_witness :
  startup demo_path 0 ∅
  = (<[demo_path := Pickled (model_data demo_analyzer)]> ∅, demo_analyzer, Ret tt)
  ∧ consistent demo_analyzer ∧ model demo_analyzer ≠ None.
Proof.
  apply (startup_bootstrap demo_path 0 ∅ demo_analyzer).
  - left. apply lookup_empty.
  - vm_compute. reflexivity.
Defined.

Lemma startup_idempotent_witness :
  startup demo_path 9 (<[demo_path := Pickled (model_data demo_analyzer)]> ∅)
  = (<[demo_path := Pickled (model_data demo_analyzer)]> ∅, demo_analyzer, Ret tt).
Proof.
  apply (startup_idempotent demo_path 0 9 ∅).
  - discriminate.
  - apply startup_bootstrap_demo.
Defined.

Lemma startup_partial_snapshot_witness :
  startup demo_path 0 {[demo_path := Pickled model_only]}
  = ({[demo_path := Pickled model_only]},
     set_model (Some (KMeansNew 5)) new_analyzer, Ret tt).
Proof.
  apply (startup_partial_snapshot demo_path 0 _ model_only).
  - discriminate.
  - apply lookup_singleton_eq.
  - reflexivity.
  - reflexivity.
Defined.
