(* ===== verification/Main.v ===== *)
(** * The command-line program: the commands of [email_analyzer_api.main]

    After the check of the arguments and the start-up ([Api.startup]),
    [main] looks at the number of arguments: with more than two, the first
    is a command ([--similar], [--learn], [--stats], [--entities]) and the
    second its argument; with two, the first is a text to analyse.  Every
    branch prints one JSON document; [--learn] alone writes the model file.
    The last lines of the script catch what [main] raises, print it as
    an error and end the process with status 1.

    A process is the disk, the analyzer and what was printed ([process]);
    the documents are kept as values ([output]), and the text of an
    exception as the exception.  [json.loads] is an interface ([Json]);
    [int] is [py_int]. *)

From stdpp Require Import gmap pretty.
From S2P Require Import Prelude PyValue PyText Normalizer VectorSpace Ledger.
From S2P Require Import Sentiment Regex Entities Analyzer Similarity Template.
From S2P Require Import Persistence Api.

#[local] Open Scope py_scope.
#[local] Open Scope text_scope.

(** ** [int] of a text *)

(** The digits of a literal, with single underscores between them. *)
Fixpoint int_digits (acc : Z) (after_digit : bool) (s : text) : option Z :=
  match s with
  | [] => if after_digit then Some acc else None
  | c :: s =>
      if bool_decide (c = "_"%char) then
        if after_digit then int_digits acc false s else None
      else if is_digit c then
        int_digits (10 * acc + Z.of_nat (nat_of_ascii c - 48)) true s
      else None
  end.

(** [int(s)]: white space around the literal is dropped, a sign may come
    first; anything else raises [ValueError]. *)
Definition py_int (s : text) : outcome Z :=
  outcome_of_option ValueError
    match py_strip s with
    | "-"%char :: digits => Z.opp <$> int_digits 0 false digits
    | "+"%char :: digits => int_digits 0 false digits
    | digits => int_digits 0 false digits
    end.

(** ** What the program prints *)

(** [json.loads] *)
Class Json := {
  loads : text → outcome pyval;
}.

(** The four messages under the key ["error"]. *)
Inductive error :=
| NoContent
| LearnFailed (e : exn)
| UnknownCommand (command : text)
| Unexpected (e : exn).

(** The documents.  [ResultOut] has the keys ["template"], ["variables"]
    and ["message"] of the suggestion. *)
Inductive output :=
| ErrorOut (error : error)
| SimilarOut (similar_emails : list similar)
| LearnOut (success : bool) (message : text)
| StatsOut (stats : stats)
| EntitiesOut (entities : list (text * list text))
| ResultOut (sentiment : text) (template_suggestion : suggestion)
    (entities : list (text * list text)) (confidence : Q).

(** The two documents after which the process ends with [sys.exit(1)]:
    no argument, and an exception that left [main]. *)
Definition failure (o : output) : bool :=
  match o with
  | ErrorOut NoContent | ErrorOut (Unexpected _) => true
  | _ => false
  end.

(** [bool(template_suggestion["variables"])] *)
Definition some_variables (v : variables) : bool :=
  match v with
  | Names names => bool_decide (names ≠ [])
  | Values variable_dict => bool_decide (variable_dict ≠ [])
  end.

(** [any(entities.values())] *)
Definition some_entities (entities : list (text * list text)) : bool :=
  existsb (λ item, bool_decide (item.2 ≠ [])) entities.

(** The confidence score: [1.0 if has_vars else 0.5]. *)
Definition confidence (template_suggestion : suggestion)
    (entities : list (text * list text)) : Q :=
  let has_vars :=
    some_variables (variables_of template_suggestion) || some_entities entities in
  if has_vars then 1 else 1 # 2.

Section main.
Context {V M : Type}.
Context `{!Vectorizer V, !KMeansAlg M, !Tokenizer, !Cosine, !ArgSort}.
Context `{!PolarityScorer, !SetOrder, !Recognizer, !Json}.
Implicit Types (argv : list text) (now later : timestamp) (model_path : text).

Record process := Process {
  disk : gmap text (file V M);
  the_analyzer : analyzer V M;
  stdout : list output;
}.

(** [print(json.dumps(o))] *)
Definition print (o : output) : py process unit :=
  py_modify (λ p, Process (disk p) (the_analyzer p) (stdout p ++ [o])).

(** A method of [analyzer]. *)
Definition invoke {A} (method : py (analyzer V M) A) : py process A :=
  λ p, let '(analyzer, r) := method (the_analyzer p) in
       (Process (disk p) analyzer (stdout p), r).

(** [analyzer.save_model(model_path)] *)
Definition save model_path : py process bool :=
  λ p, let '(fs, saved) := save_model model_path (the_analyzer p) (disk p) in
       (Process fs (the_analyzer p) (stdout p), Ret saved).

(** [--similar] *)
Definition similar_command argv later : py process unit :=
  let email_content := argv !!! 2 in
  count <- (if decide (3 < length argv)
            then py_lift (py_int (argv !!! 3))
            else py_ret 3%Z) ;;
  similar_emails <- invoke (get_similar_emails email_content count later) ;;
  print (SimilarOut similar_emails).

(** [--learn] *)
Definition learn_command model_path argv later : py process unit :=
  let task_data_json := argv !!! 2 in
  py_try
    (task_data <- py_lift (loads task_data_json) ;;
     success <- invoke (learn_from_task task_data later) ;;
     if success : bool then
       _ <- save model_path ;;
       print (LearnOut true "Learned from task data")
     else
       print (LearnOut false "No useful data to learn from"))
    (λ e, print (ErrorOut (LearnFailed e))).

(** [--stats] *)
Definition stats_command : py process unit :=
  p <- py_get ;;
  print (StatsOut (get_learning_stats (the_analyzer p))).

(** [--entities] *)
Definition entities_command argv : py process unit :=
  let email_content := argv !!! 2 in
  print (EntitiesOut (extract_entities email_content)).

(** The default: sentiment, template and entities of a text. *)
Definition analyze_command argv later : py process unit :=
  let email_content := argv !!! 1 in
  let sentiment := analyze_sentiment email_content in
  template_suggestion <- invoke (suggest_template email_content later) ;;
  let entities := extract_entities email_content in
  print (ResultOut sentiment template_suggestion entities
           (confidence template_suggestion entities)).

(** The choice of the branch. *)
Definition dispatch model_path argv later : py process unit :=
  if decide (2 < length argv) then
    let command := argv !!! 1 in
    if decide (command = "--similar") then similar_command argv later
    else if decide (command = "--learn") then learn_command model_path argv later
    else if decide (command = "--stats") then stats_command
    else if decide (command = "--entities") then entities_command argv
    else print (ErrorOut (UnknownCommand command))
  else analyze_command argv later.

(** [main()]: the disk it leaves, what it printed and how it ended, with
    the status of [sys.exit] or 0.  [now] is the time of the start-up and
    [later] the time of the command. *)
Definition main model_path argv now later (fs : gmap text (file V M))
    : gmap text (file V M) * list output * outcome Z :=
  if decide (length argv < 2) then (fs, [ErrorOut NoContent], Ret 1%Z)
  else
    match startup model_path now fs with
    | (fs, analyzer, Ret _) =>
        let '(p, r) := dispatch model_path argv later (Process fs analyzer []) in
        (disk p, stdout p, match r with Ret _ => Ret 0%Z | Exc e => Exc e end)
    | (fs, _, Exc e) => (fs, [], Exc e)
    end.

(** The script: [main()] inside [try ... except Exception], whose handler
    prints the error and ends the process with [sys.exit(1)].  The
    [sys.exit(1)] of [main] is no [Exception] and passes the handler. *)
Definition script model_path argv now later (fs : gmap text (file V M))
    : gmap text (file V M) * list output * Z :=
  match main model_path argv now later fs with
  | (fs, printed, Ret status) => (fs, printed, status)
  | (fs, printed, Exc e) => (fs, printed ++ [ErrorOut (Unexpected e)], 1%Z)
  end.

End main.

Arguments process : clear implicits.

(** * Facts *)

(** ** [int] of the decimal digits of a number *)

(** One digit more. *)
Lemma int_digits_digit acc after_digit d s :
  (d < 10)%N →
  int_digits acc after_digit (pretty_N_char d :: s)
  = int_digits (10 * acc + Z.of_N d) true s.
Proof.
  intros Hd.
  assert (d = 0 ∨ d = 1 ∨ d = 2 ∨ d = 3 ∨ d = 4 ∨ d = 5 ∨ d = 6 ∨ d = 7
          ∨ d = 8 ∨ d = 9)%N as Hc by lia.
  by destruct_or!; subst; destruct after_digit.
Qed.

(** The digits [pretty] writes in front of [s], read back. *)
Lemma int_digits_pretty x : ∀ s,
  (0 < x)%N →
  int_digits 0 false (String.list_ascii_of_string (pretty_N_go x s))
  = int_digits (Z.of_N x) true (String.list_ascii_of_string s).
Proof.
  induction (N.lt_wf_0 x) as [x _ IH]. intros s Hx.
  rewrite pretty_N_go_step by done.
  pose proof (N.mod_lt x 10 ltac:(done)) as Hd.
  pose proof (N.div_mod x 10 ltac:(done)) as Hx10.
  destruct (decide (x `div` 10 = 0)%N) as [E|E].
  - rewrite E, pretty_N_go_0. cbn [String.list_ascii_of_string].
    rewrite int_digits_digit by done. f_equal. lia.
  - rewrite IH by (try apply N.div_lt; lia). cbn [String.list_ascii_of_string].
    rewrite int_digits_digit by done. f_equal. lia.
Qed.

(** They begin with a digit. *)
Lemma pretty_N_go_head x : ∀ s,
  (0 < x)%N →
  ∃ d rest, (d < 10)%N
    ∧ String.list_ascii_of_string (pretty_N_go x s) = pretty_N_char d :: rest.
Proof.
  induction (N.lt_wf_0 x) as [x _ IH]. intros s Hx.
  rewrite pretty_N_go_step by done.
  destruct (decide (x `div` 10 = 0)%N) as [E|E].
  - rewrite E, pretty_N_go_0. eexists _, _. split; [|done]. by apply N.mod_lt.
  - apply IH; [by apply N.div_lt|by apply N.neq_0_lt_0].
Qed.

(** They are digits, all of them. *)
Lemma pretty_N_go_digits x : ∀ s,
  Forall is_digit (String.list_ascii_of_string s) →
  Forall is_digit (String.list_ascii_of_string (pretty_N_go x s)).
Proof.
  induction (N.lt_wf_0 x) as [x _ IH]. intros s Hs.
  destruct (decide (x = 0)%N) as [->|E]; [by rewrite pretty_N_go_0|].
  rewrite pretty_N_go_step by lia. apply IH; [apply N.div_lt; lia|].
  cbn [String.list_ascii_of_string]. constructor; [|done].
  unfold pretty_N_char. by repeat case_match.
Qed.

(** [strip] leaves digits as they are. *)
Lemma py_strip_digits s : Forall is_digit s → py_strip s = s.
Proof.
  assert (∀ l, Forall is_digit l → lstrip l = l) as Hl.
  { intros [|c l] Hc; [done|]. apply Forall_cons in Hc as [Hc%Is_true_true _].
    simpl. by rewrite (is_word_not_space c (is_digit_word c Hc)). }
  intros Hs. unfold py_strip, rstrip. rewrite (Hl s Hs).
  by rewrite Hl, reverse_involutive by by apply Forall_reverse.
Qed.

(** [int(str(n))] is [n]: a count that a caller writes with [str] is read
    as that count. *)
Theorem py_int_str_of_nat n : py_int (str_of_nat n) = Ret (Z.of_nat n).
Proof.
  unfold str_of_nat, pretty, pretty_nat, pretty, pretty_N.
  case_decide as E; [by replace n with 0 by lia|].
  pose proof (pretty_N_go_digits (N.of_nat n) "" ltac:(constructor)) as Hd.
  destruct (pretty_N_go_head (N.of_nat n) "") as (d & rest & Hd10 & Hs); [lia|].
  unfold py_int. rewrite py_strip_digits by done.
  transitivity (outcome_of_option ValueError
    (int_digits 0 false (String.list_ascii_of_string (pretty_N_go (N.of_nat n) "")))).
  - rewrite Hs.
    assert (d = 0 ∨ d = 1 ∨ d = 2 ∨ d = 3 ∨ d = 4 ∨ d = 5 ∨ d = 6 ∨ d = 7
            ∨ d = 8 ∨ d = 9)%N as Hc by lia.
    by destruct_or!; subst.
  - rewrite int_digits_pretty by lia. simpl. f_equal. lia.
Qed.

(** ** What a computation does to the disk and to the output *)

Section process_facts.
Context {V M : Type}.
Implicit Types (p : process V M) (o : output).

(** The computation leaves the disk as it is. *)
Definition keeps_disk {A} (c : py (process V M) A) : Prop :=
  ∀ p, disk (c p).1 = disk p.

(** The computation prints nothing. *)
Definition quiet {A} (c : py (process V M) A) : Prop :=
  ∀ p, stdout (c p).1 = stdout p.

(** The computation prints one document if it returns, and that document
    is no [failure]; it prints none if it raises. *)
Definition reports (c : py (process V M) unit) : Prop :=
  ∀ p, match (c p).2 with
       | Ret _ => ∃ o, failure o = false ∧ stdout (c p).1 = stdout p ++ [o]
       | Exc _ => stdout (c p).1 = stdout p
       end.

Lemma print_run o p :
  print o p = (Process (disk p) (the_analyzer p) (stdout p ++ [o]), Ret tt).
Proof. done. Qed.

Lemma invoke_run {A} (method : py (analyzer V M) A) p :
  invoke method p
  = (Process (disk p) (method (the_analyzer p)).1 (stdout p),
     (method (the_analyzer p)).2).
Proof. unfold invoke. by destruct (method _). Qed.

Lemma keeps_disk_print o : keeps_disk (print o).
Proof. done. Qed.

Lemma keeps_disk_invoke {A} (method : py (analyzer V M) A) : keeps_disk (invoke method).
Proof. intros p. by rewrite invoke_run. Qed.

Lemma keeps_disk_lift {A} (r : outcome A) : keeps_disk (py_lift r).
Proof. done. Qed.

Lemma keeps_disk_get : keeps_disk py_get.
Proof. done. Qed.

Lemma keeps_disk_bind {A B} (c : py (process V M) A) (k : A → py (process V M) B) :
  keeps_disk c → (∀ a, keeps_disk (k a)) → keeps_disk (py_bind c k).
Proof.
  intros Hc Hk p. unfold py_bind. specialize (Hc p).
  destruct (c p) as [p1 [a|e]]; [|done]. by rewrite Hk.
Qed.

Lemma quiet_invoke {A} (method : py (analyzer V M) A) : quiet (invoke method).
Proof. intros p. by rewrite invoke_run. Qed.

Lemma quiet_lift {A} (r : outcome A) : quiet (py_lift r).
Proof. done. Qed.

Lemma quiet_get : quiet py_get.
Proof. done. Qed.

Lemma reports_print o : failure o = false → reports (print o).
Proof. intros Ho p. by exists o. Qed.

Lemma reports_bind {A} (c : py (process V M) A) (k : A → py (process V M) unit) :
  quiet c → (∀ a, reports (k a)) → reports (py_bind c k).
Proof.
  intros Hc Hk p. unfold py_bind. specialize (Hc p).
  destruct (c p) as [p1 [a|e]]; [|done]. specialize (Hk a p1).
  simpl in Hc. by rewrite Hc in Hk.
Qed.

(** A handler that reports makes the whole statement print one document
    however its body ends. *)
Lemma reports_try (c : py (process V M) unit) (h : exn → py (process V M) unit) :
  reports c → (∀ e, reports (h e)) → reports (py_try c h).
Proof.
  intros Hc Hh p. unfold py_try. specialize (Hc p).
  destruct (c p) as [p1 [a|e]]; [done|]. specialize (Hh e p1).
  simpl in Hc. by rewrite Hc in Hh.
Qed.

End process_facts.

Create HintDb cli.
#[export] Hint Resolve keeps_disk_print keeps_disk_invoke keeps_disk_lift
  keeps_disk_get keeps_disk_bind quiet_invoke quiet_lift quiet_get
  reports_print reports_bind reports_try : cli.

(** Split the computation at its binds and branches, and close what the
    lemmas above close. *)
Ltac cli_step :=
  repeat first
    [ progress eauto with cli
    | apply reports_bind | apply keeps_disk_bind | apply reports_try
    | match goal with |- ∀ _, _ => intros ? end
    | case_decide | case_match ].

(** ** What does not depend on the order of sets *)

#[global] Instance some_entities_proper :
  Proper (same_entities ==> (=)) some_entities.
Proof.
  intros d1 d2 Hd. unfold some_entities.
  induction Hd as [|x y d1 d2 [_ Hv] _ IH]; simpl; [done|]. f_equal; [|done].
  apply bool_decide_ext. by rewrite <- !Permutation_nil_r, Hv.
Qed.

Lemma some_variables_Names names1 names2 :
  names1 ≡ₚ names2 → some_variables (Names names1) = some_variables (Names names2).
Proof.
  intros Hn. simpl. apply bool_decide_ext. by rewrite <- !Permutation_nil_r, Hn.
Qed.

(** Whether the loops of [suggest_template] replace anything. *)
Lemma some_variables_Values entities1 entities2 t :
  same_entities entities1 entities2 →
  some_variables (Values (replace_entities entities1 (t, [])).2)
  = some_variables (Values (replace_entities entities2 (t, [])).2).
Proof.
  intros Hd. simpl. apply bool_decide_ext, not_iff_compat.
  rewrite !replace_entities_nil. by rewrite (values_proper _ _ Hd).
Qed.

(** C37: the confidence does not depend on the order in which Python
    goes through a set: under two orders [suggest_template] may name the
    variables differently and [extract_entities] may list the values of
    a category differently, but the confidence computed from them is
    the same. *)
Theorem confidence_order (o1 o2 : SetOrder) `{!Recognizer} {V M}
    email_text now (s : analyzer V M) r1 r2 :
  (@suggest_template V M o1 _ email_text now s).2 = Ret r1 →
  (@suggest_template V M o2 _ email_text now s).2 = Ret r2 →
  confidence r1 (@extract_entities o1 _ email_text)
  = confidence r2 (@extract_entities o2 _ email_text).
Proof.
  intros H1 H2. unfold confidence.
  rewrite (some_entities_proper _ _ (extract_entities_order o1 o2 email_text)).
  pose proof (extract_variables_order o1 o2 email_text) as Hv.
  destruct (decide (@extract_variables o1 email_text = [])) as [E1|E1].
  - assert (@extract_variables o2 email_text = []) as E2.
    { apply Permutation_nil_r. by rewrite <- Hv, E1. }
    rewrite suggest_template_generated in H1 by done.
    rewrite suggest_template_generated in H2 by done.
    injection H1 as <-. injection H2 as <-. simpl variables_of.
    by rewrite (some_variables_Values _ _ _ (extract_entities_order o1 o2 email_text)).
  - assert (@extract_variables o2 email_text ≠ []) as E2.
    { intros E2. apply E1, Permutation_nil_r. by rewrite Hv, E2. }
    unfold suggest_template in H1, H2.
    rewrite bool_decide_eq_true_2 in H1 by done.
    rewrite bool_decide_eq_true_2 in H2 by done.
    injection H1 as <-. injection H2 as <-. simpl variables_of.
    by rewrite (some_variables_Names _ _ Hv).
Qed.

(** ** The commands *)

Section main_facts.
Context {V M : Type}.
Context `{!Vectorizer V, !KMeansAlg M, !Tokenizer, !Cosine, !ArgSort}.
Context `{!PolarityScorer, !SetOrder, !Recognizer, !Json}.
Implicit Types (argv : list text) (now later : timestamp) (model_path : text).
Implicit Types (p : process V M) (fs : gmap text (file V M)).

Lemma quiet_save model_path : quiet (save (V:=V) (M:=M) model_path).
Proof. intros p. unfold save. by destruct (save_model _ _ _). Qed.

Lemma similar_command_reports argv later :
  reports (V:=V) (M:=M) (similar_command argv later).
Proof. unfold similar_command. cli_step. Qed.

Lemma learn_command_reports model_path argv later :
  reports (V:=V) (M:=M) (learn_command model_path argv later).
Proof. unfold learn_command. pose proof (quiet_save model_path). cli_step. Qed.

Lemma analyze_command_reports argv later :
  reports (V:=V) (M:=M) (analyze_command argv later).
Proof. unfold analyze_command. cli_step. Qed.

Lemma dispatch_reports model_path argv later :
  reports (V:=V) (M:=M) (dispatch model_path argv later).
Proof.
  unfold dispatch, stats_command, entities_command.
  pose proof similar_command_reports. pose proof learn_command_reports.
  pose proof analyze_command_reports. cli_step.
Qed.

(** Every command but [--learn] leaves the disk as it is. *)
Lemma dispatch_disk model_path argv later p :
  argv !!! 1 ≠ "--learn" ∨ length argv ≤ 2 →
  disk (dispatch model_path argv later p).1 = disk p.
Proof.
  intros Hc. revert p. change (keeps_disk (V:=V) (M:=M) (dispatch model_path argv later)).
  unfold dispatch, similar_command, stats_command, entities_command,
    analyze_command.
  cli_step. destruct Hc; [done|lia].
Qed.

(** The four ways [--learn] ends. *)
Lemma learn_command_run model_path argv later p :
  learn_command model_path argv later p
  = match loads (argv !!! 2) with
    | Exc e => print (ErrorOut (LearnFailed e)) p
    | Ret task_data =>
        match learn_from_task task_data later (the_analyzer p) with
        | (a, Exc e) =>
            print (ErrorOut (LearnFailed e)) (Process (disk p) a (stdout p))
        | (a, Ret false) =>
            print (LearnOut false "No useful data to learn from")
              (Process (disk p) a (stdout p))
        | (a, Ret true) =>
            print (LearnOut true "Learned from task data")
              (Process (save_model model_path a (disk p)).1 a (stdout p))
        end
    end.
Proof.
  unfold learn_command, py_try, py_bind, py_lift, invoke, save.
  destruct (loads _) as [task_data|e]; [|done].
  destruct (learn_from_task _ _ _) as [a [[|]|e]]; simpl; [|done..].
  by destruct (save_model _ _ _).
Qed.

(** Start-up leaves an analyzer with a cluster model. *)
Lemma startup_trained model_path now fs fs' a :
  startup model_path now fs = (fs', a, Ret tt) → model a ≠ None.
Proof.
  intros [(_ & Hm & _)|(_ & Hfit & _)]%startup_Ret; [done|].
  by eapply fit_sample_trained.
Qed.

(** [main] after the check of [sys.argv] and a start-up that returned. *)
Lemma main_started model_path argv now later fs fs' a :
  ¬ length argv < 2 → startup model_path now fs = (fs', a, Ret tt) →
  main model_path argv now later fs
  = let '(p, r) := dispatch model_path argv later (Process fs' a []) in
    (disk p, stdout p, match r with Ret _ => Ret 0%Z | Exc e => Exc e end).
Proof. intros Hn Hs. unfold main. by rewrite decide_False, Hs. Qed.

(** C20: the program prints exactly one JSON document in every run,
    whatever the arguments, the disk and the way the run ends. *)
Theorem script_one_document model_path argv now later fs :
  length (script model_path argv now later fs).1.2 = 1.
Proof.
  unfold script, main. case_decide; [done|].
  destruct (startup _ _ _) as [[fs' a] [[]|e]]; [|done].
  pose proof (dispatch_reports model_path argv later (Process fs' a [])) as Hr.
  destruct (dispatch _ _ _ _) as [p [[]|e]]; simpl in *.
  - destruct Hr as (o & _ & ->). done.
  - by rewrite Hr.
Qed.

(** C36: the exit status goes with what was printed: the process ends
    with status 1 exactly when it printed a [failure] (the document for a
    missing argument, or the one the handler prints for an exception that
    left [main]), and with status 0 otherwise.  The error documents of an
    unknown command and of a [--learn] that failed are no [failure]: the
    process ends with status 0 after them. *)
Theorem script_status model_path argv now later fs :
  (script model_path argv now later fs).2
  = if existsb failure (script model_path argv now later fs).1.2
    then 1%Z else 0%Z.
Proof.
  unfold script, main. case_decide; [done|].
  destruct (startup _ _ _) as [[fs' a] [[]|e]]; [|done].
  pose proof (dispatch_reports model_path argv later (Process fs' a [])) as Hr.
  destruct (dispatch _ _ _ _) as [p [[]|e]]; simpl in *.
  - destruct Hr as (o & Ho & ->). simpl. by rewrite Ho.
  - by rewrite Hr.
Qed.

(** [main] writes the model file after start-up only in a [--learn]
    that learned: in every other run the disk after the command is the
    disk before it, so the events that a search or a suggestion logged
    end with the process. *)
Theorem dispatch_writes_on_learn model_path argv later p :
  disk (dispatch model_path argv later p).1 = disk p
  ∨ (argv !!! 1 = "--learn"
     ∧ last (stdout (dispatch model_path argv later p).1)
       = Some (LearnOut true "Learned from task data")).
Proof.
  destruct (decide (argv !!! 1 = "--learn" ∧ 2 < length argv)) as [[Hc Hn]|Hc].
  2: { left. apply dispatch_disk.
       apply not_and_l in Hc as [?|?]; [by left|right; lia]. }
  unfold dispatch. rewrite decide_True, decide_False, decide_True by (done || by rewrite Hc).
  rewrite learn_command_run. destruct (loads _) as [task_data|e]; [|by left].
  destruct (learn_from_task _ _ _) as [a [[|]|e]]; [right|by left..].
  split; [done|]. simpl. apply last_snoc.
Qed.

(** C35: with one argument the program analyses it, whatever it is (the
    name of a command too): after a start-up that returned it prints the
    sentiment, the suggestion [suggest_template] returns, the entities
    and the confidence, and leaves the disk as start-up left it. *)
Theorem main_default_mode model_path argv now later fs fs' a :
  length argv = 2 → startup model_path now fs = (fs', a, Ret tt) →
  ∃ r, (suggest_template (argv !!! 1) later a).2 = Ret r
       ∧ main model_path argv now later fs
         = (fs', [ResultOut (analyze_sentiment (argv !!! 1)) r
                    (extract_entities (argv !!! 1))
                    (confidence r (extract_entities (argv !!! 1)))], Ret 0%Z).
Proof.
  intros Hn Hs. destruct (suggest_template_Ret (argv !!! 1) later a) as (r & Hr & _).
  exists r. split; [done|]. rewrite (main_started _ _ _ _ _ fs' a) by (lia || done).
  unfold dispatch. rewrite decide_False by lia.
  unfold analyze_command, py_bind. rewrite invoke_run. simpl. by rewrite Hr.
Qed.

(** C17: a [--learn] that learned is saved: after a start-up that
    returned with a consistent analyzer, if [learn_from_task] returns
    [True], the program prints the success and the next start-up begins
    with the analyzer the call left, its new e-mail and event included. *)
Theorem learn_command_persists model_path prog json now later now' fs fs' a a' task_data :
  model_path ≠ [] → consistent a →
  startup model_path now fs = (fs', a, Ret tt) →
  loads json = Ret task_data →
  learn_from_task task_data later a = (a', Ret true) →
  ∃ fs'', main model_path [prog; "--learn"; json] now later fs
          = (fs'', [LearnOut true "Learned from task data"], Ret 0%Z)
          ∧ startup model_path now' fs'' = (fs'', a', Ret tt).
Proof.
  intros Hp Hc Hs Hl Hlearn.
  assert (model a' ≠ None) as Hm'.
  { eapply learn_path_model; [by eapply learn_from_task_inv|].
    by eapply startup_trained. }
  eexists. rewrite (main_started _ _ _ _ _ fs' a) by (simpl; lia || done).
  unfold dispatch. simpl. rewrite learn_command_run. simpl.
  rewrite Hl, Hlearn. simpl. split; [done|].
  unfold startup. rewrite init_saved by done. by rewrite bool_decide_eq_false_2.
Qed.

End main_facts.

(** * Examples *)

#[local] Existing Instance demo_tokenizer.
#[local] Existing Instance demo_vectorizer.
#[local] Existing Instance round_robin_kmeans.
#[local] Existing Instance overlap_cosine.
#[local] Existing Instance merge_sort_argsort.
#[local] Existing Instance demo_scorer.
#[local] Existing Instance regex_only.
#[local] Existing Instance demo_set_order.

(** A decoder that knows three documents. *)
Definition demo_json : Json := {|
  loads s :=
    if decide (s = "null") then Ret PNone
    else if decide (s = "{}") then Ret (PDict [])
    else if decide (s = "task") then Ret demo_task
    else Exc ValueError
|}.

#[local] Existing Instance demo_json.

(** The order of the examples turned around. *)
Definition reversed_set_order : SetOrder :=
  {| list_set l := reverse (remove_dups l);
     list_set_perm l := reverse_Permutation _ |}.

(** The suggestion for the e-mail of the demonstration with the
    recogniser of the examples, under an order of sets. *)
Definition suggestion_under (o : SetOrder) : suggestion :=
  match (@suggest_template unit unit o demo_recognizer new_email 7
           (Analyzer tt None None None [])).2 with
  | Ret r => r
  | Exc _ => Suggestion [] (Names []) []
  end.

(** The two orders give the two names to different values. *)
Example suggestion_under_orders :
  variables_of (suggestion_under demo_set_order)
  = Values [("date1", "03/10/2023"); ("time1", "10:00 AM"); ("name1", "Alex");
            ("name2", "Your")]
  ∧ variables_of (suggestion_under reversed_set_order)
    = Values [("date1", "03/10/2023"); ("time1", "10:00 AM"); ("name1", "Your");
              ("name2", "Alex")].
Proof. vm_compute. done. Qed.

Lemma confidence_order_witness :
  confidence (suggestion_under demo_set_order)
    (@extract_entities demo_set_order demo_recognizer new_email)
  = confidence (suggestion_under reversed_set_order)
      (@extract_entities reversed_set_order demo_recognizer new_email).
Proof.
  apply (confidence_order demo_set_order reversed_set_order (V:=unit) (M:=unit)
           new_email 7 (Analyzer tt None None None [])).
  - vm_compute. reflexivity.
  - vm_compute. reflexivity.
Defined.

Example py_int_demo :
  py_int "3" = Ret 3%Z ∧ py_int " -12 " = Ret (-12)%Z ∧ py_int "+1_000" = Ret 1000%Z
  ∧ py_int "" = Exc ValueError ∧ py_int "1__0" = Exc ValueError
  ∧ py_int "2.5" = Exc ValueError ∧ py_int "7_" = Exc ValueError.
Proof. vm_compute. done. Qed.

(** The program called with [--stats] alone, on an empty disk: it analyses
    the text ["--stats"] and prints no statistics. *)
Example script_stats_alone :
  (script demo_path ["prog"; "--stats"] 0 1 ∅).1.2
  = [ResultOut "neutral"
       (Suggestion "--stats" (Values [])
          "Generated template with suggested variables.")
       [("dates", []); ("times", []); ("emails", []); ("phone_numbers", []);
        ("urls", []); ("names", [])]
       (1 # 2)].
Proof. vm_compute. reflexivity. Qed.

(** A count that is no number ends the program in the handler of the
    script, with status 1. *)
Example script_similar_bad_count :
  (script demo_path ["prog"; "--similar"; "invoice"; "three"] 0 1 ∅).1.2
  = [ErrorOut (Unexpected ValueError)]
  ∧ (script demo_path ["prog"; "--similar"; "invoice"; "three"] 0 1 ∅).2 = 1%Z.
Proof. vm_compute. done. Qed.

(** Task data that is no dictionary: the handler of [--learn] reports
    it, and the status is 0. *)
Example script_learn_null :
  (script demo_path ["prog"; "--learn"; "null"] 0 1 ∅).1.2
  = [ErrorOut (LearnFailed AttributeError)]
  ∧ (script demo_path ["prog"; "--learn"; "null"] 0 1 ∅).2 = 0%Z.
Proof. vm_compute. done. Qed.

(** A command the program does not know: an error document, status 0. *)
Example script_unknown_command :
  (script demo_path ["prog"; "--help"; "me"] 0 1 ∅).1.2
  = [ErrorOut (UnknownCommand "--help")]
  ∧ (script demo_path ["prog"; "--help"; "me"] 0 1 ∅).2 = 0%Z.
Proof. vm_compute. done. Qed.

Lemma main_default_mode_witness :
  ∃ r, (suggest_template "--stats" 1 demo_analyzer).2 = Ret r
       ∧ main demo_path ["prog"; "--stats"] 0 1 ∅
         = (<[demo_path := Pickled (model_data demo_analyzer)]> ∅,
            [ResultOut (analyze_sentiment "--stats") r
               (extract_entities "--stats")
               (confidence r (extract_entities "--stats"))], Ret 0%Z).
Proof.
  apply (main_default_mode demo_path ["prog"; "--stats"] 0 1 ∅
           (<[demo_path := Pickled (model_data demo_analyzer)]> ∅) demo_analyzer).
  - reflexivity.
  - apply startup_bootstrap_demo.
Defined.

Lemma learn_command_persists_witness :
  ∃ fs, main demo_path ["prog"; "--learn"; "task"] 0 1 ∅
        = (fs, [LearnOut true "Learned from task data"], Ret 0%Z)
        ∧ startup demo_path 2 fs
          = (fs, (learn_from_task demo_task 1 demo_analyzer).1, Ret tt).
Proof.
  apply (learn_command_persists demo_path "prog" "task" 0 1 2 ∅
           (<[demo_path := Pickled (model_data demo_analyzer)]> ∅) demo_analyzer
           _ demo_task).
  - discriminate.
  - apply demo_analyzer_consistent.
  - apply startup_bootstrap_demo.
  - reflexivity.
  - vm_compute. reflexivity.
Defined.
