(* ===== verification/Runs.v ===== *)
(** * The program over its life: runs of the script on one disk

    The program is started once for every request, and what one run knows
    of the runs before it is the model file.  An [invocation] is the
    arguments of a run and the two times it reads the clock; [disk_after]
    is the disk [Main.script] leaves, and [runs] a sequence of runs, each
    on the disk of the one before.

    The model file is [kept] when it holds the dictionary of a consistent
    analyzer with a cluster model.  [grows] compares the analyzer of one
    file with that of a later one: the same vectorizer, and the corpus, the
    rows of the matrix and the history of the first at the front of
    those of the second. *)

From stdpp Require Import gmap.
From S2P Require Import Prelude PyValue PyText Normalizer VectorSpace Ledger.
From S2P Require Import Sentiment Regex Entities Analyzer Similarity Template.
From S2P Require Import Persistence Session Api Main.

#[local] Open Scope text_scope.

Record invocation := Invocation {
  arguments : list text;
  start_time : timestamp;
  command_time : timestamp;
}.

Section runs.
Context {V M : Type}.
Context `{!Vectorizer V, !KMeansAlg M, !Tokenizer, !Cosine, !ArgSort}.
Context `{!PolarityScorer, !SetOrder, !Recognizer, !Json}.
Implicit Types (fs : gmap text (file V M)) (a : analyzer V M) (i : invocation).
Implicit Types (model_path : text).

(** The disk one run of the script leaves. *)
Definition disk_after model_path i fs : gmap text (file V M) :=
  (script model_path (arguments i) (start_time i) (command_time i) fs).1.1.

(** One run after the other. *)
Definition runs model_path (invocations : list invocation) fs
    : gmap text (file V M) :=
  foldl (λ fs i, disk_after model_path i fs) fs invocations.

(** The model file holds the analyzer [a], which is consistent and has a
    cluster model. *)
Definition kept model_path fs a : Prop :=
  fs !! model_path = Some (Pickled (model_data a))
  ∧ consistent a ∧ model a ≠ None.

(** There is no model file, or it is kept. *)
Definition sound model_path fs : Prop :=
  fs !! model_path = None ∨ ∃ a, kept model_path fs a.

(** What was learned is still there. *)
Definition grows a a' : Prop :=
  extends a a' ∧ learning_history a `prefix_of` learning_history a'.

(** The history of [a] has no event but trainings and learned tasks. *)
Definition learning_only a : Prop :=
  Forall (λ e, event_name e ∈ ["model_training"; "task_learning"])
    (learning_history a).

(** There is no model file, or it is kept and its history has no event
    but trainings and learned tasks. *)
Definition pristine model_path fs : Prop :=
  fs !! model_path = None ∨ ∃ a, kept model_path fs a ∧ learning_only a.

End runs.

(** * Facts *)

Section runs_facts.
Context {V M : Type}.
Context `{!Vectorizer V, !KMeansAlg M, !Tokenizer, !Cosine, !ArgSort}.
Context `{!PolarityScorer, !SetOrder, !Recognizer, !Json}.
Implicit Types (fs : gmap text (file V M)) (a : analyzer V M) (i : invocation).
Implicit Types (model_path : text) (argv : list text).

#[global] Instance grows_preorder : PreOrder (grows (V:=V) (M:=M)).
Proof.
  split.
  - intros a. split; [apply extends_refl|done].
  - intros a1 a2 a3 [? ?] [? ?]. split; [by eapply extends_trans|by etrans].
Qed.

(** What a command does to the disk: nothing, or it is a [--learn] that
    learned and saved. *)
Lemma dispatch_saves model_path argv later (p : process V M) :
  disk (dispatch model_path argv later p).1 = disk p
  ∨ ∃ task_data a',
      learn_from_task task_data later (the_analyzer p) = (a', Ret true)
      ∧ disk (dispatch model_path argv later p).1
        = (save_model model_path a' (disk p)).1.
Proof.
  destruct (decide (argv !!! 1 = "--learn" ∧ 2 < length argv)) as [[Hc Hn]|Hc].
  2: { left. apply dispatch_disk.
       apply not_and_l in Hc as [?|?]; [by left|right; lia]. }
  unfold dispatch. rewrite decide_True, decide_False, decide_True by (done || by rewrite Hc).
  rewrite learn_command_run. destruct (loads _) as [task_data|e]; [|by left].
  destruct (learn_from_task _ _ _) as [a' [[|]|e]] eqn:Hl; [right|by left..].
  by exists task_data, a'.
Qed.

(** A start-up that raises has written nothing. *)
Lemma startup_Exc model_path now fs fs' a e :
  startup model_path now fs = (fs', a, Exc e) → fs' = fs.
Proof.
  unfold startup. case_bool_decide; [|done].
  destruct (fit _ _ _) as [a1 [[]|e1]]; [done|]. by intros [= <- _ _].
Qed.

(** A run without arguments, or whose start-up raises, writes nothing. *)
Lemma disk_after_idle model_path i fs :
  length (arguments i) < 2
  ∨ (∃ fs' a e, startup model_path (start_time i) fs = (fs', a, Exc e)) →
  disk_after model_path i fs = fs.
Proof.
  unfold disk_after, script, main. intros [Hn|(fs' & a & e & Hs)].
  - by rewrite decide_True.
  - case_decide; [done|]. rewrite Hs. simpl. by apply startup_Exc in Hs.
Qed.

(** Any other run leaves the disk its command leaves. *)
Lemma disk_after_started model_path i fs fs' a :
  ¬ length (arguments i) < 2 →
  startup model_path (start_time i) fs = (fs', a, Ret tt) →
  disk_after model_path i fs
  = disk (dispatch model_path (arguments i) (command_time i) (Process fs' a [])).1.
Proof.
  intros Hn Hs. unfold disk_after, script.
  rewrite (main_started _ _ _ _ _ fs' a) by done.
  by destruct (dispatch _ _ _ _) as [p [[]|e]].
Qed.

(** ** The model file from run to run *)

Lemma kept_save model_path fs a :
  consistent a → model a ≠ None → kept model_path (save_model model_path a fs).1 a.
Proof.
  intros Hc Hm. rewrite save_model_trained by done.
  split; [apply lookup_insert_eq|done].
Qed.

(** The analyzer a [--learn] leaves can be kept, and it has grown. *)
Lemma learned_grows task_data later a a' :
  consistent a → model a ≠ None →
  learn_from_task task_data later a = (a', Ret true) →
  consistent a' ∧ model a' ≠ None ∧ grows a a'.
Proof.
  intros Hc Hm Hl%learn_from_task_inv; [|done]. split_and!.
  - by eapply learn_path_consistent.
  - by eapply learn_path_model.
  - destruct (learn_path_extends _ _ _ _ _ Hl) as (? & ? & ? & ?). by repeat split.
Qed.

(** Start-up on a kept file loads its analyzer and writes nothing. *)
Lemma startup_kept model_path now fs a :
  model_path ≠ [] → kept model_path fs a →
  startup model_path now fs = (fs, a, Ret tt).
Proof.
  intros Hp (Hf & _ & Hm). unfold startup.
  rewrite (init_model_data _ a) by done. by rewrite bool_decide_eq_false_2.
Qed.

(** Start-up on a sound disk leaves a kept file when it returns. *)
Lemma startup_sound model_path now fs fs' a :
  model_path ≠ [] → sound model_path fs →
  startup model_path now fs = (fs', a, Ret tt) → kept model_path fs' a.
Proof.
  intros Hp [Hf|[a0 Hk]] Hs.
  - apply startup_Ret in Hs as [(-> & Hm & _)|(_ & Hfit & ->)].
    + rewrite init_no_file in Hm by (by intros ? [= <-]). done.
    + destruct (fit_sample_trained _ _ _ Hfit). split; [apply lookup_insert_eq|done].
  - rewrite (startup_kept _ _ _ a0) in Hs by done. by injection Hs as <- <-.
Qed.

(** A command on a kept file leaves a kept file, whose analyzer has
    grown. *)
Lemma dispatch_kept model_path argv later fs a :
  kept model_path fs a →
  ∃ a', kept model_path (disk (dispatch model_path argv later (Process fs a [])).1) a'
        ∧ grows a a'.
Proof.
  intros Hk.
  destruct (dispatch_saves model_path argv later (Process fs a []))
    as [->|(task_data & a' & Hl & ->)]; [by exists a|].
  destruct Hk as (_ & Hc & Hm). simpl in *.
  destruct (learned_grows _ _ _ _ Hc Hm Hl) as (? & ? & ?).
  exists a'. split; [by apply kept_save|done].
Qed.

(** The start-up of a run returns, or the run writes nothing. *)
Lemma run_cases model_path i fs :
  disk_after model_path i fs = fs
  ∨ ∃ fs' a, startup model_path (start_time i) fs = (fs', a, Ret tt)
             ∧ disk_after model_path i fs
               = disk (dispatch model_path (arguments i) (command_time i)
                         (Process fs' a [])).1.
Proof.
  destruct (decide (length (arguments i) < 2)) as [Hn|Hn].
  { left. apply disk_after_idle. by left. }
  destruct (startup model_path (start_time i) fs) as [[fs' a] [[]|e]] eqn:Hs.
  - right. exists fs', a. split; [done|]. by apply disk_after_started.
  - left. apply disk_after_idle. right. by exists fs', a, e.
Qed.

(** A run on a sound disk leaves a sound disk. *)
Theorem run_sound model_path i fs :
  model_path ≠ [] → sound model_path fs →
  sound model_path (disk_after model_path i fs).
Proof.
  intros Hp Hfs.
  destruct (run_cases model_path i fs) as [->|(fs' & a & Hs & ->)]; [done|].
  destruct (dispatch_kept model_path (arguments i) (command_time i) fs' a)
    as (a' & ? & _); [by eapply startup_sound|].
  right. by exists a'.
Qed.

(** A run on a kept file leaves a kept file, and its analyzer has grown:
    nothing that was learned is lost, and the vectorizer is the same. *)
Theorem run_kept model_path i fs a :
  model_path ≠ [] → kept model_path fs a →
  ∃ a', kept model_path (disk_after model_path i fs) a' ∧ grows a a'.
Proof.
  intros Hp Hk.
  destruct (run_cases model_path i fs) as [->|(fs' & a0 & Hs & ->)]; [by exists a|].
  rewrite (startup_kept _ _ _ a) in Hs by done. injection Hs as <- <-.
  by apply dispatch_kept.
Qed.

(** The same over any number of runs. *)
Theorem runs_sound model_path invocations : ∀ fs,
  model_path ≠ [] → sound model_path fs →
  sound model_path (runs model_path invocations fs).
Proof.
  induction invocations as [|i invocations IH]; intros fs Hp Hfs; [done|].
  simpl. apply IH; [done|]. by apply run_sound.
Qed.

(** C18: over any number of runs on a kept file the file stays kept, and
    its analyzer grows: it is consistent and has a cluster model after
    every run, its vectorizer is the one of the first, and the corpus, the
    rows and the history of the first are at the front of its own. *)
Theorem runs_kept model_path invocations : ∀ fs a,
  model_path ≠ [] → kept model_path fs a →
  ∃ a', kept model_path (runs model_path invocations fs) a' ∧ grows a a'.
Proof.
  induction invocations as [|i invocations IH]; intros fs a Hp Hk; [by exists a|].
  destruct (run_kept model_path i fs a Hp Hk) as (a1 & Hk1 & Hg1).
  destruct (IH _ a1 Hp Hk1) as (a2 & Hk2 & Hg2).
  exists a2. split; [done|]. by etrans.
Qed.

(** ** What reaches the model file *)

Lemma pristine_sound model_path fs : pristine model_path fs → sound model_path fs.
Proof. intros [?|(a & ? & _)]; [by left|right; by exists a]. Qed.

(** The analyzer trained at start-up has one event, the training. *)
Lemma fit_sample_learning now a :
  fit sample_emails now new_analyzer = (a, Ret tt) → learning_only (V:=V) a.
Proof.
  intros (v & X & mdl & _ & -> & _)%fit_Ret_inv. unfold learning_only. simpl.
  repeat constructor.
Qed.

(** A task that is learned adds a [task_learning] event and no other. *)
Lemma learned_learning task_data later a a' :
  consistent a → learning_only a →
  learn_from_task task_data later a = (a', Ret true) → learning_only a'.
Proof.
  intros Hc Ha Hl%learn_from_task_inv; [|done].
  destruct Hl as [| |d es X R X' mdl _ _ _ _ _ _ _]; [done..|].
  unfold learning_only in *. simpl. apply Forall_app. split; [done|].
  repeat constructor.
Qed.

Lemma startup_pristine model_path now fs fs' a :
  model_path ≠ [] → pristine model_path fs →
  startup model_path now fs = (fs', a, Ret tt) →
  kept model_path fs' a ∧ learning_only a.
Proof.
  intros Hp Hfs Hs. split; [by eapply startup_sound, Hs; [|apply pristine_sound]|].
  destruct Hfs as [Hf|(a0 & Hk & Ha)].
  - apply startup_Ret in Hs as [(-> & Hm & _)|(_ & Hfit & _)].
    + rewrite init_no_file in Hm by (by intros ? [= <-]). done.
    + rewrite init_no_file in Hfit by (by intros ? [= <-]).
      by eapply fit_sample_learning.
  - rewrite (startup_kept _ _ _ a0) in Hs by done. by injection Hs as <- <-.
Qed.

(** A run on a pristine disk leaves a pristine disk: the searches and the
    suggestions a run logs never reach the model file. *)
Theorem run_pristine model_path i fs :
  model_path ≠ [] → pristine model_path fs →
  pristine model_path (disk_after model_path i fs).
Proof.
  intros Hp Hfs.
  destruct (run_cases model_path i fs) as [->|(fs' & a & Hs & ->)]; [done|].
  destruct (startup_pristine _ _ _ _ _ Hp Hfs Hs) as [Hk Ha]. right.
  destruct (dispatch_saves model_path (arguments i) (command_time i)
              (Process fs' a [])) as [->|(task_data & a' & Hl & ->)];
    [by exists a|].
  destruct Hk as (_ & Hc & Hm). simpl in *. exists a'.
  destruct (learned_grows _ _ _ _ Hc Hm Hl) as (? & ? & _).
  split; [by apply kept_save|exact (learned_learning _ _ _ _ Hc Ha Hl)].
Qed.

Theorem runs_pristine model_path invocations : ∀ fs,
  model_path ≠ [] → pristine model_path fs →
  pristine model_path (runs model_path invocations fs).
Proof.
  induction invocations as [|i invocations IH]; intros fs Hp Hfs; [done|].
  simpl. apply IH; [done|]. by apply run_pristine.
Qed.

(** ** What [--stats] reports *)

(** What a [--stats] run prints. *)
Lemma script_stats model_path prog x now later fs :
  (script model_path [prog; "--stats"; x] now later fs).1.2
  = match startup model_path now fs with
    | (_, a, Ret _) => [StatsOut (get_learning_stats a)]
    | (_, _, Exc e) => [ErrorOut (Unexpected e)]
    end.
Proof.
  unfold script, main. rewrite decide_False by (simpl; lia).
  by destruct (startup _ _ _) as [[fs' a] [[]|e]].
Qed.

(** The counts of a history of trainings and learned tasks. *)
Lemma learning_only_counts a counts :
  learning_only a → event_counts (get_learning_stats a) = Some counts →
  counts.*1 ⊆ ["model_training"; "task_learning"].
Proof.
  unfold learning_only, get_learning_stats. intros Ha Hs.
  destruct (learning_history a) as [|e h] eqn:E; [done|].
  injection Hs as <-. intros k (e' & He' & <-)%count_events_keys.
  rewrite Forall_forall in Ha. by apply Ha.
Qed.

(** C19: whatever runs came before, on a disk that was pristine, the
    statistics the program prints count trainings and learned tasks and
    nothing else: the searches and the suggestions of earlier runs were
    logged in an analyzer that was never saved. *)
Theorem stats_only_learning model_path invocations prog x now later fs st counts :
  model_path ≠ [] → pristine model_path fs →
  (script model_path [prog; "--stats"; x] now later
     (runs model_path invocations fs)).1.2 = [StatsOut st] →
  event_counts st = Some counts →
  counts.*1 ⊆ ["model_training"; "task_learning"].
Proof.
  intros Hp Hfs Hout Hst. rewrite script_stats in Hout.
  destruct (startup _ _ _) as [[fs' a] [[]|e]] eqn:Hs; [|done].
  injection Hout as <-. eapply learning_only_counts; [|done].
  by eapply startup_pristine, Hs; [|apply runs_pristine].
Qed.


End runs_facts.

(** * Examples

    Four runs on an empty disk with the reference instances (a search, an
    analysis, a task that is learned, a call without arguments), and the
    statistics after them. *)

#[local] Existing Instance demo_tokenizer.
#[local] Existing Instance demo_vectorizer.
#[local] Existing Instance round_robin_kmeans.
#[local] Existing Instance overlap_cosine.
#[local] Existing Instance merge_sort_argsort.
#[local] Existing Instance demo_scorer.
#[local] Existing Instance regex_only.
#[local] Existing Instance demo_set_order.
#[local] Existing Instance demo_json.

Definition demo_runs : list invocation := [
  Invocation ["prog"; "--similar"; "invoice payment"] 0 1;
  Invocation ["prog"; "Hello Alex, see you on 03/10/2023"] 2 3;
  Invocation ["prog"; "--learn"; "task"] 4 5;
  Invocation ["prog"] 6 7
].

(** The search and the suggestion are not counted; the sixth e-mail is. *)
Example stats_after_runs :
  (script demo_path ["prog"; "--stats"; "now"] 8 9 (runs demo_path demo_runs ∅)).1.2
  = [StatsOut (Stats 2 (Some [("model_training", 1); ("task_learning", 1)])
                 true (Some 5%Z) (Some 6))].
Proof. vm_compute. reflexivity. Qed.

Lemma runs_sound_witness : sound demo_path (runs demo_path demo_runs ∅).
Proof. apply (runs_sound demo_path demo_runs ∅); [discriminate|by left]. Defined.

Lemma runs_pristine_witness : pristine demo_path (runs demo_path demo_runs ∅).
Proof. apply (runs_pristine demo_path demo_runs ∅); [discriminate|by left]. Defined.

Lemma runs_kept_witness :
  ∃ a', kept demo_path
          (runs demo_path demo_runs (<[demo_path := Pickled (model_data demo_analyzer)]> ∅))
          a'
        ∧ grows demo_analyzer a'.
Proof.
  apply (runs_kept demo_path demo_runs _ demo_analyzer); [discriminate|].
  split_and!; [apply lookup_insert_eq|apply demo_analyzer_consistent|by vm_compute].
Defined.

Lemma stats_only_learning_witness :
  [("model_training", 1); ("task_learning", 1)].*1
  ⊆ (["model_training"; "task_learning"] : list text).
Proof.
  apply (stats_only_learning demo_path demo_runs "prog" "now" 8 9 ∅
           (Stats 2 (Some [("model_training", 1); ("task_learning", 1)])
              true (Some 5%Z) (Some 6))).
  - discriminate.
  - by left.
  - vm_compute. reflexivity.
  - reflexivity.
Defined.
