(* ===== verification/Usage.v ===== *)
(** * The example at the end of [email_analyzer.py]

    The block under [if __name__ == "__main__"]: a new analyzer is trained
    on the five sample e-mails, asked for the e-mails similar to a sixth,
    for a template of it, for its sentiment and for its entities, saved,
    and asked for its statistics.  What the block prints is kept as values
    ([line]), one for each group of [print]s that shows a result; the
    headings are left out.  The sixth e-mail is [Entities.new_email].

    The run is a computation on the disk, the analyzer and the lines
    printed so far ([terminal]), so that an exception leaves what was
    printed before it. *)

From stdpp Require Import gmap.
From S2P Require Import Prelude PyValue PyText Normalizer VectorSpace Ledger.
From S2P Require Import Sentiment Regex Entities Analyzer Similarity Template.
From S2P Require Import Persistence.

#[local] Open Scope py_scope.
#[local] Open Scope text_scope.

(** The results the block shows. *)
Inductive line :=
| SimilarLine (item : similar)
| TemplateLine (template_suggestion : suggestion)
| SentimentLine (sentiment : text)
| EntityLine (entity_type : text) (values : list text)
| StatsLine (total_events : nat) (model_trained : bool)
    (last_update : option timestamp).

Section usage.
Context {V M : Type}.
Context `{!Vectorizer V, !KMeansAlg M, !Tokenizer, !Cosine, !ArgSort}.
Context `{!PolarityScorer, !SetOrder, !Recognizer}.
Implicit Types (fs : gmap text (file V M)).

Record terminal := Terminal {
  files : gmap text (file V M);
  subject : analyzer V M;
  printed : list line;
}.

(** [print] of some results. *)
Definition say (lines : list line) : py terminal unit :=
  py_modify (λ t, Terminal (files t) (subject t) (printed t ++ lines)).

(** A method of [analyzer]. *)
Definition method {A} (m : py (analyzer V M) A) : py terminal A :=
  λ t, let '(analyzer, r) := m (subject t) in
       (Terminal (files t) analyzer (printed t), r).

(** [for entity_type, values in entities.items(): if values: print(...)] *)
Definition entity_lines (entities : list (text * list text)) : list line :=
  (λ item, EntityLine item.1 item.2) <$> filter (λ item, item.2 ≠ []) entities.

(** The block from [analyzer.fit(sample_emails)] on; [t1], [t2] and [t3]
    are the times of the three calls that log. *)
Definition usage (t1 t2 t3 : timestamp) : py terminal unit :=
  _ <- method (fit sample_emails t1) ;;
  similar <- method (get_similar_emails new_email 3 t2) ;;
  _ <- say (SimilarLine <$> similar) ;;
  template_suggestion <- method (suggest_template new_email t3) ;;
  _ <- say [TemplateLine template_suggestion] ;;
  let sentiment := analyze_sentiment new_email in
  _ <- say [SentimentLine sentiment] ;;
  let entities := extract_entities new_email in
  _ <- say (entity_lines entities) ;;
  _ <- py_modify (λ t,
         Terminal (save_model "email_analyzer_model.joblib" (subject t) (files t)).1
                  (subject t) (printed t)) ;;
  t <- py_get ;;
  let stats := get_learning_stats (subject t) in
  say [StatsLine (total_events stats) (model_trained stats) (last_update stats)].

(** The block, from [analyzer = EmailAnalyzer()]. *)
Definition example (t1 t2 t3 : timestamp) fs : terminal * outcome unit :=
  usage t1 t2 t3 (Terminal fs (init None fs) []).

End usage.

Arguments terminal : clear implicits.

(** * Facts *)

Section usage_facts.
Context {V M : Type}.
Context `{!Vectorizer V, !KMeansAlg M, !Tokenizer, !Cosine, !ArgSort}.
Context `{!PolarityScorer, !SetOrder, !Recognizer}.
Implicit Types (fs : gmap text (file V M)) (t : terminal V M).

(** The new e-mail has no placeholder, whatever the order of sets. *)
Lemma new_email_no_variables : extract_variables new_email = [].
Proof. unfold extract_variables. apply list_set_nil. vm_compute. reflexivity. Qed.

(** The three calls that log, after a training that returned. *)
Lemma usage_calls (t1 t2 t3 : timestamp) a :
  fit sample_emails t1 new_analyzer = (a, Ret tt) →
  ∃ similar template_suggestion n,
    get_similar_emails new_email 3 t2 a
    = (log (SimilaritySearch t2 (query_prefix new_email) (length similar)) a,
       Ret similar)
    ∧ suggest_template new_email t3
        (log (SimilaritySearch t2 (query_prefix new_email) (length similar)) a)
      = (log (TemplateSuggestion t3 n)
           (log (SimilaritySearch t2 (query_prefix new_email) (length similar)) a),
         Ret template_suggestion)
    ∧ model a ≠ None
    ∧ learning_history a = [ModelTraining t1 5].
Proof.
  intros Hfit. destruct (fit_Ret_inv _ _ _ _ Hfit) as (v & X & mdl & Hv & -> & Hm).
  simpl in Hm. destruct Hm as (m & _ & ->).
  pose proof (consistent_fitted _ _ _ _ (Some (KMeansFitted m))
                [ModelTraining t1 5] Hv) as Hc.
  destruct (get_similar_emails_defined new_email 3 _ _ X Hc eq_refl eq_refl)
    as (q & similar & Hq & Hres & _).
  eexists similar, _, _. split_and!; [|by apply suggest_template_generated,
    new_email_no_variables|done..].
  by apply (get_similar_emails_Ret _ _ _ _ sample_emails X q).
Qed.

(** C26: if the training returns, the example runs to its end.  It has printed
    the results of the search, the template, the sentiment, the entities
    that have values and the statistics: three events, a trained model and
    the time of the template suggestion.  The analyzer has logged the
    training, the search and the suggestion, in that order, and the file
    holds it. *)
Theorem example_trained (t1 t2 t3 : timestamp) fs a :
  fit sample_emails t1 new_analyzer = (a, Ret tt) →
  ∃ t similar template_suggestion n,
    example t1 t2 t3 fs = (t, Ret tt)
    ∧ learning_history (subject t)
      = [ModelTraining t1 5;
         SimilaritySearch t2 (query_prefix new_email) (length similar);
         TemplateSuggestion t3 n]
    ∧ files t
      = <["email_analyzer_model.joblib" := Pickled (model_data (subject t))]> fs
    ∧ printed t
      = (SimilarLine <$> similar)
        ++ [TemplateLine template_suggestion;
            SentimentLine (analyze_sentiment new_email)]
        ++ entity_lines (extract_entities new_email)
        ++ [StatsLine 3 true (Some t3)].
Proof.
  intros Hfit.
  destruct (usage_calls t1 t2 t3 a Hfit) as (similar & ts & n & Hs & Ht & Hm & Hh).
  eexists _, similar, ts, n.
  unfold example, usage, init, method, say. py_unfold. simpl.
  rewrite Hfit. simpl. rewrite Hs. simpl. rewrite Ht. simpl.
  rewrite save_model_trained by done. unfold get_learning_stats. simpl.
  rewrite Hh. simpl. rewrite bool_decide_eq_true_2 by done.
  split_and!; [reflexivity|simpl; by rewrite Hh|done|].
  simpl. by rewrite <- !app_assoc.
Qed.

(** If the training raises, the example stops there: nothing is printed
    and nothing is written. *)
Theorem example_untrained (t1 t2 t3 : timestamp) fs a e :
  fit sample_emails t1 new_analyzer = (a, Exc e) →
  example t1 t2 t3 fs = (Terminal fs a [], Exc e).
Proof.
  intros Hfit. unfold example, usage, init, method. py_unfold.
  simpl. by rewrite Hfit.
Qed.

End usage_facts.

(** * Examples

    The example run with the reference instances, on an empty disk. *)

#[local] Existing Instance demo_tokenizer.
#[local] Existing Instance demo_vectorizer.
#[local] Existing Instance round_robin_kmeans.
#[local] Existing Instance overlap_cosine.
#[local] Existing Instance merge_sort_argsort.
#[local] Existing Instance demo_scorer.
#[local] Existing Instance regex_only.
#[local] Existing Instance demo_set_order.

(** Three similar e-mails come first; then the template, in which every
    value has become the same placeholder, and in which [Your] counts as a
    name. *)
Example example_template :
  printed (example 0 1 2 ∅).1 !! 3
  = Some (TemplateLine (Suggestion
      "Hello {{{var_name}}}, {{{var_name}}} appointment is confirmed for {{{var_name}}} at {{{var_name}}}. Please arrive 15 minutes early."
      (Values [("date1", "03/10/2023"); ("time1", "10:00 AM");
               ("name1", "Alex"); ("name2", "Your")])
      "Generated template with suggested variables.")).
Proof. vm_compute. reflexivity. Qed.

(** The lines after the template. *)
Example example_tail :
  drop 4 (printed (example 0 1 2 ∅).1)
  = [SentimentLine "neutral"; EntityLine "dates" ["03/10/2023"];
     EntityLine "times" ["10:00 AM"]; EntityLine "names" ["Alex"; "Your"];
     StatsLine 3 true (Some 2%Z)].
Proof. vm_compute. reflexivity. Qed.

(** The training of the reference instances returns, so the example runs
    to its end. *)
Lemma example_trained_witness :
  ∃ t similar template_suggestion n,
    example 0 1 2 ∅ = (t, Ret tt)
    ∧ learning_history (subject t)
      = [ModelTraining 0 5;
         SimilaritySearch 1 (query_prefix new_email) (length similar);
         TemplateSuggestion 2 n]
    ∧ files t
      = <["email_analyzer_model.joblib" := Pickled (model_data (subject t))]> ∅
    ∧ printed t
      = (SimilarLine <$> similar)
        ++ [TemplateLine template_suggestion;
            SentimentLine (analyze_sentiment new_email)]
        ++ entity_lines (extract_entities new_email)
        ++ [StatsLine 3 true (Some 2%Z)].
Proof.
  apply (example_trained 0 1 2 ∅ (fit sample_emails 0 new_analyzer).1).
  vm_compute. reflexivity.
Defined.
